(** * Leo's Butterfly Quest: the spawn / level / catch core

    A shallow embedding of [scripts/butterfly.js], [scripts/player.js],
    [scripts/utils.js] and of the game-state methods of [scripts/game.js]
    ([start], [spawnButterflies], [actuallySpawnButterflies],
    [spawnBossButterfly], [positionButterflyInFormation], [gameLoop],
    [update], [handleClick], [levelComplete], [startNextLevel],
    [gameComplete], [getFormationForWave], [saveGameRecords], the
    [mousemove] listener and the total of [renderSummaryScreen]), followed
    by the properties proved about them.

    Conventions of the embedding.
    - A JavaScript number that the code only ever uses as an integer
      ([level], [health], [score], [currentLevel], [countdownTime], timer
      delays, [Date.now()] readings) is a [Z]; every other number is a real
      ([R]): rounding, NaN and infinities of IEEE doubles are not modelled.
    - [Math.random()] is the stream [random : nat -> R]; the state counts
      the calls made so far, so the n-th call returns [random n].
    - A mutable object is a record and a method is a function returning the
      updated record; the butterflies array is a [list] indexed as in the
      source; [butterflyCounts] is a finite map keyed by level.
    - [setTimeout] / [setInterval] callbacks are kept in the list [timers]
      of the game state, in registration order, and run when the host
      delivers the event [Timeout k].
    - Canvas drawing, audio, DOM updates and logging do not change any of
      the modelled state and are left out.
    - The screen flow (start screen, instructions, summary screen, name
      input, records modal) with the click listeners it registers and
      removes is DOM code and is left out as well: the model follows a
      session from [start()] to the summary screen, and of a click it
      follows what [handleClick] does with it. *)

From Stdlib Require Import Reals Machin Lra Lia ZArith String.
From stdpp Require Import base decidable option list gmap.

#[global] Instance Rle_decision (a b : R) : Decision (a <= b)%R := Rle_dec a b.
#[global] Instance Rlt_decision (a b : R) : Decision (a < b)%R := Rlt_dec a b.
#[global] Instance Rge_decision (a b : R) : Decision (a >= b)%R := Rge_dec a b.
#[global] Instance Rgt_decision (a b : R) : Decision (a > b)%R := Rgt_dec a b.
#[global] Instance Req_decision : EqDecision R := Req_dec_T.
#[global] Instance nat_gt_decision (a b : nat) : Decision (a > b)%nat := gt_dec a b.

(** ** The parts of the JavaScript [Math] object that the game uses *)

Module Math.
Local Open Scope R_scope.

Definition floor (r : R) : Z := Int_part r.

Definition abs (r : R) : R := Rabs r.

Definition max (a b : R) : R := Rmax a b.

Definition min (a b : R) : R := Rmin a b.

Definition atan2 (dy dx : R) : R :=
  if bool_decide (0 < dx) then atan (dy / dx)
  else if bool_decide (dx < 0) then
    if bool_decide (0 <= dy) then atan (dy / dx) + PI else atan (dy / dx) - PI
  else if bool_decide (0 < dy) then PI / 2
  else if bool_decide (dy < 0) then - (PI / 2)
  else 0.
End Math.

(** ** scripts/utils.js *)

Module Utils.
Local Open Scope R_scope.

Definition clamp (value lo hi : R) : R := Math.max lo (Math.min hi value).

Definition distance (x1 y1 x2 y2 : R) : R :=
  let dx := x2 - x1 in
  let dy := y2 - y1 in
  sqrt (dx * dx + dy * dy).

(** [randomBetween(min, max)]; [k] is the number of [Math.random()] calls
    made so far, and the second component the number after the call. *)
Definition randomBetween (random : nat -> R) (min max : R) (k : nat) : Z * nat :=
  (Math.floor (random k * (max - min + 1) + min), S k).

(** The rectangles [rectsOverlap] takes: objects with [x], [y], [width]
    and [height]. *)
Record Rect : Type := mkRect {
  x : R;
  y : R;
  width : R;
  height : R
}.

Definition rectsOverlap (rect1 rect2 : Rect) : bool :=
  bool_decide (x rect1 < x rect2 + width rect2) &&
  bool_decide (x rect1 + width rect1 > x rect2) &&
  bool_decide (y rect1 < y rect2 + height rect2) &&
  bool_decide (y rect1 + height rect1 > y rect2).

End Utils.

(** ** The canvas element: only its size is read by the game logic *)

Module Canvas.
Record t : Type := mk { width : R; height : R }.
End Canvas.

(** ** scripts/player.js *)

Module Player.
Local Open Scope R_scope.

Record t : Type := mk {
  x : R;
  y : R;
  characterWidth : R;
  characterHeight : R;
  netRadius : R
}.

Definition new (canvas : Canvas.t) : t :=
  {| x := Canvas.width canvas / 2;
     y := Canvas.height canvas / 2;
     characterWidth := 100;
     characterHeight := 150;
     netRadius := 40 |}.

(** [updatePosition(e)]; [left] and [top] are those of
    [canvas.getBoundingClientRect()]. *)
Definition updatePosition (clientX clientY left top : R) (p : t) : t :=
  {| x := clientX - left;
     y := clientY - top;
     characterWidth := characterWidth p;
     characterHeight := characterHeight p;
     netRadius := netRadius p |}.
End Player.

(** ** scripts/butterfly.js *)

Module Butterfly.
Local Open Scope R_scope.

Record t : Type := mk {
  image : option nat;  (* the drawable handle; None for undefined *)
  level : Z;
  width : R;
  height : R;
  x : R;
  y : R;
  baseSpeed : R;
  speed : R;
  directionChangeInterval : R;
  timeSinceDirectionChange : R;
  direction : R;
  vx : R;
  vy : R;
  wingFlapSpeed : R;
  wingFlapTime : R;
  wingFlapState : R;
  movementPattern : string;
  catchRadius : R;
  hasCrossedScreen : bool;
  shouldRemove : bool;
  isBoss : bool;
  health : Z;
  crossingPoint : option (R * R)  (* undefined until positioned *)
}.

Definition set_width (v : R) (r : t) : t :=
  {| image := image r; level := level r; width := v; height := height r; x := x r; y := y r;
     baseSpeed := baseSpeed r; speed := speed r;
     directionChangeInterval := directionChangeInterval r;
     timeSinceDirectionChange := timeSinceDirectionChange r; direction := direction r;
     vx := vx r; vy := vy r; wingFlapSpeed := wingFlapSpeed r;
     wingFlapTime := wingFlapTime r; wingFlapState := wingFlapState r;
     movementPattern := movementPattern r; catchRadius := catchRadius r;
     hasCrossedScreen := hasCrossedScreen r; shouldRemove := shouldRemove r;
     isBoss := isBoss r; health := health r; crossingPoint := crossingPoint r |}.
Definition set_height (v : R) (r : t) : t :=
  {| image := image r; level := level r; width := width r; height := v; x := x r; y := y r;
     baseSpeed := baseSpeed r; speed := speed r;
     directionChangeInterval := directionChangeInterval r;
     timeSinceDirectionChange := timeSinceDirectionChange r; direction := direction r;
     vx := vx r; vy := vy r; wingFlapSpeed := wingFlapSpeed r;
     wingFlapTime := wingFlapTime r; wingFlapState := wingFlapState r;
     movementPattern := movementPattern r; catchRadius := catchRadius r;
     hasCrossedScreen := hasCrossedScreen r; shouldRemove := shouldRemove r;
     isBoss := isBoss r; health := health r; crossingPoint := crossingPoint r |}.
Definition set_x (v : R) (r : t) : t :=
  {| image := image r; level := level r; width := width r; height := height r; x := v;
     y := y r; baseSpeed := baseSpeed r; speed := speed r;
     directionChangeInterval := directionChangeInterval r;
     timeSinceDirectionChange := timeSinceDirectionChange r; direction := direction r;
     vx := vx r; vy := vy r; wingFlapSpeed := wingFlapSpeed r;
     wingFlapTime := wingFlapTime r; wingFlapState := wingFlapState r;
     movementPattern := movementPattern r; catchRadius := catchRadius r;
     hasCrossedScreen := hasCrossedScreen r; shouldRemove := shouldRemove r;
     isBoss := isBoss r; health := health r; crossingPoint := crossingPoint r |}.
Definition set_y (v : R) (r : t) : t :=
  {| image := image r; level := level r; width := width r; height := height r; x := x r;
     y := v; baseSpeed := baseSpeed r; speed := speed r;
     directionChangeInterval := directionChangeInterval r;
     timeSinceDirectionChange := timeSinceDirectionChange r; direction := direction r;
     vx := vx r; vy := vy r; wingFlapSpeed := wingFlapSpeed r;
     wingFlapTime := wingFlapTime r; wingFlapState := wingFlapState r;
     movementPattern := movementPattern r; catchRadius := catchRadius r;
     hasCrossedScreen := hasCrossedScreen r; shouldRemove := shouldRemove r;
     isBoss := isBoss r; health := health r; crossingPoint := crossingPoint r |}.
Definition set_speed (v : R) (r : t) : t :=
  {| image := image r; level := level r; width := width r; height := height r; x := x r;
     y := y r; baseSpeed := baseSpeed r; speed := v;
     directionChangeInterval := directionChangeInterval r;
     timeSinceDirectionChange := timeSinceDirectionChange r; direction := direction r;
     vx := vx r; vy := vy r; wingFlapSpeed := wingFlapSpeed r;
     wingFlapTime := wingFlapTime r; wingFlapState := wingFlapState r;
     movementPattern := movementPattern r; catchRadius := catchRadius r;
     hasCrossedScreen := hasCrossedScreen r; shouldRemove := shouldRemove r;
     isBoss := isBoss r; health := health r; crossingPoint := crossingPoint r |}.
Definition set_direction (v : R) (r : t) : t :=
  {| image := image r; level := level r; width := width r; height := height r; x := x r;
     y := y r; baseSpeed := baseSpeed r; speed := speed r;
     directionChangeInterval := directionChangeInterval r;
     timeSinceDirectionChange := timeSinceDirectionChange r; direction := v; vx := vx r;
     vy := vy r; wingFlapSpeed := wingFlapSpeed r; wingFlapTime := wingFlapTime r;
     wingFlapState := wingFlapState r; movementPattern := movementPattern r;
     catchRadius := catchRadius r; hasCrossedScreen := hasCrossedScreen r;
     shouldRemove := shouldRemove r; isBoss := isBoss r; health := health r;
     crossingPoint := crossingPoint r |}.
Definition set_vx (v : R) (r : t) : t :=
  {| image := image r; level := level r; width := width r; height := height r; x := x r;
     y := y r; baseSpeed := baseSpeed r; speed := speed r;
     directionChangeInterval := directionChangeInterval r;
     timeSinceDirectionChange := timeSinceDirectionChange r; direction := direction r;
     vx := v; vy := vy r; wingFlapSpeed := wingFlapSpeed r; wingFlapTime := wingFlapTime r;
     wingFlapState := wingFlapState r; movementPattern := movementPattern r;
     catchRadius := catchRadius r; hasCrossedScreen := hasCrossedScreen r;
     shouldRemove := shouldRemove r; isBoss := isBoss r; health := health r;
     crossingPoint := crossingPoint r |}.
Definition set_vy (v : R) (r : t) : t :=
  {| image := image r; level := level r; width := width r; height := height r; x := x r;
     y := y r; baseSpeed := baseSpeed r; speed := speed r;
     directionChangeInterval := directionChangeInterval r;
     timeSinceDirectionChange := timeSinceDirectionChange r; direction := direction r;
     vx := vx r; vy := v; wingFlapSpeed := wingFlapSpeed r; wingFlapTime := wingFlapTime r;
     wingFlapState := wingFlapState r; movementPattern := movementPattern r;
     catchRadius := catchRadius r; hasCrossedScreen := hasCrossedScreen r;
     shouldRemove := shouldRemove r; isBoss := isBoss r; health := health r;
     crossingPoint := crossingPoint r |}.
Definition set_wingFlapTime (v : R) (r : t) : t :=
  {| image := image r; level := level r; width := width r; height := height r; x := x r;
     y := y r; baseSpeed := baseSpeed r; speed := speed r;
     directionChangeInterval := directionChangeInterval r;
     timeSinceDirectionChange := timeSinceDirectionChange r; direction := direction r;
     vx := vx r; vy := vy r; wingFlapSpeed := wingFlapSpeed r; wingFlapTime := v;
     wingFlapState := wingFlapState r; movementPattern := movementPattern r;
     catchRadius := catchRadius r; hasCrossedScreen := hasCrossedScreen r;
     shouldRemove := shouldRemove r; isBoss := isBoss r; health := health r;
     crossingPoint := crossingPoint r |}.
Definition set_wingFlapState (v : R) (r : t) : t :=
  {| image := image r; level := level r; width := width r; height := height r; x := x r;
     y := y r; baseSpeed := baseSpeed r; speed := speed r;
     directionChangeInterval := directionChangeInterval r;
     timeSinceDirectionChange := timeSinceDirectionChange r; direction := direction r;
     vx := vx r; vy := vy r; wingFlapSpeed := wingFlapSpeed r;
     wingFlapTime := wingFlapTime r; wingFlapState := v;
     movementPattern := movementPattern r; catchRadius := catchRadius r;
     hasCrossedScreen := hasCrossedScreen r; shouldRemove := shouldRemove r;
     isBoss := isBoss r; health := health r; crossingPoint := crossingPoint r |}.
Definition set_movementPattern (v : string) (r : t) : t :=
  {| image := image r; level := level r; width := width r; height := height r; x := x r;
     y := y r; baseSpeed := baseSpeed r; speed := speed r;
     directionChangeInterval := directionChangeInterval r;
     timeSinceDirectionChange := timeSinceDirectionChange r; direction := direction r;
     vx := vx r; vy := vy r; wingFlapSpeed := wingFlapSpeed r;
     wingFlapTime := wingFlapTime r; wingFlapState := wingFlapState r; movementPattern := v;
     catchRadius := catchRadius r; hasCrossedScreen := hasCrossedScreen r;
     shouldRemove := shouldRemove r; isBoss := isBoss r; health := health r;
     crossingPoint := crossingPoint r |}.
Definition set_catchRadius (v : R) (r : t) : t :=
  {| image := image r; level := level r; width := width r; height := height r; x := x r;
     y := y r; baseSpeed := baseSpeed r; speed := speed r;
     directionChangeInterval := directionChangeInterval r;
     timeSinceDirectionChange := timeSinceDirectionChange r; direction := direction r;
     vx := vx r; vy := vy r; wingFlapSpeed := wingFlapSpeed r;
     wingFlapTime := wingFlapTime r; wingFlapState := wingFlapState r;
     movementPattern := movementPattern r; catchRadius := v;
     hasCrossedScreen := hasCrossedScreen r; shouldRemove := shouldRemove r;
     isBoss := isBoss r; health := health r; crossingPoint := crossingPoint r |}.
Definition set_hasCrossedScreen (v : bool) (r : t) : t :=
  {| image := image r; level := level r; width := width r; height := height r; x := x r;
     y := y r; baseSpeed := baseSpeed r; speed := speed r;
     directionChangeInterval := directionChangeInterval r;
     timeSinceDirectionChange := timeSinceDirectionChange r; direction := direction r;
     vx := vx r; vy := vy r; wingFlapSpeed := wingFlapSpeed r;
     wingFlapTime := wingFlapTime r; wingFlapState := wingFlapState r;
     movementPattern := movementPattern r; catchRadius := catchRadius r;
     hasCrossedScreen := v; shouldRemove := shouldRemove r; isBoss := isBoss r;
     health := health r; crossingPoint := crossingPoint r |}.
Definition set_shouldRemove (v : bool) (r : t) : t :=
  {| image := image r; level := level r; width := width r; height := height r; x := x r;
     y := y r; baseSpeed := baseSpeed r; speed := speed r;
     directionChangeInterval := directionChangeInterval r;
     timeSinceDirectionChange := timeSinceDirectionChange r; direction := direction r;
     vx := vx r; vy := vy r; wingFlapSpeed := wingFlapSpeed r;
     wingFlapTime := wingFlapTime r; wingFlapState := wingFlapState r;
     movementPattern := movementPattern r; catchRadius := catchRadius r;
     hasCrossedScreen := hasCrossedScreen r; shouldRemove := v; isBoss := isBoss r;
     health := health r; crossingPoint := crossingPoint r |}.
Definition set_isBoss (v : bool) (r : t) : t :=
  {| image := image r; level := level r; width := width r; height := height r; x := x r;
     y := y r; baseSpeed := baseSpeed r; speed := speed r;
     directionChangeInterval := directionChangeInterval r;
     timeSinceDirectionChange := timeSinceDirectionChange r; direction := direction r;
     vx := vx r; vy := vy r; wingFlapSpeed := wingFlapSpeed r;
     wingFlapTime := wingFlapTime r; wingFlapState := wingFlapState r;
     movementPattern := movementPattern r; catchRadius := catchRadius r;
     hasCrossedScreen := hasCrossedScreen r; shouldRemove := shouldRemove r; isBoss := v;
     health := health r; crossingPoint := crossingPoint r |}.
Definition set_health (v : Z) (r : t) : t :=
  {| image := image r; level := level r; width := width r; height := height r; x := x r;
     y := y r; baseSpeed := baseSpeed r; speed := speed r;
     directionChangeInterval := directionChangeInterval r;
     timeSinceDirectionChange := timeSinceDirectionChange r; direction := direction r;
     vx := vx r; vy := vy r; wingFlapSpeed := wingFlapSpeed r;
     wingFlapTime := wingFlapTime r; wingFlapState := wingFlapState r;
     movementPattern := movementPattern r; catchRadius := catchRadius r;
     hasCrossedScreen := hasCrossedScreen r; shouldRemove := shouldRemove r;
     isBoss := isBoss r; health := v; crossingPoint := crossingPoint r |}.
Definition set_crossingPoint (v : option (R * R)) (r : t) : t :=
  {| image := image r; level := level r; width := width r; height := height r; x := x r;
     y := y r; baseSpeed := baseSpeed r; speed := speed r;
     directionChangeInterval := directionChangeInterval r;
     timeSinceDirectionChange := timeSinceDirectionChange r; direction := direction r;
     vx := vx r; vy := vy r; wingFlapSpeed := wingFlapSpeed r;
     wingFlapTime := wingFlapTime r; wingFlapState := wingFlapState r;
     movementPattern := movementPattern r; catchRadius := catchRadius r;
     hasCrossedScreen := hasCrossedScreen r; shouldRemove := shouldRemove r;
     isBoss := isBoss r; health := health r; crossingPoint := v |}.

(** [constructor(game, image, level)] *)
Definition new (img : option nat) (lvl : Z) : t :=
  let baseSize := 50 in
  let sizeFactor := Math.max (1.2 - IZR lvl * 0.05) 0.7 in
  {| image := img;
     level := lvl;
     width := baseSize * sizeFactor;
     height := baseSize * sizeFactor;
     x := 0;
     y := 0;
     baseSpeed := 80 + IZR lvl * 15;
     speed := 80 + IZR lvl * 15;
     directionChangeInterval := Math.max (2.5 - IZR lvl * 0.2) 0.3;
     timeSinceDirectionChange := 0;
     direction := 0;
     vx := 0;
     vy := 0;
     wingFlapSpeed := 0.08 + IZR lvl * 0.008;
     wingFlapTime := 0;
     wingFlapState := 0;
     movementPattern := "linear";
     catchRadius := Math.max (40 - IZR lvl * 3) 15;
     hasCrossedScreen := false;
     shouldRemove := false;
     isBoss := false;
     health := 1;
     crossingPoint := None |}.

Section Methods.
(** The results of the successive calls of [Math.random()]. *)
Variable random : nat -> R.

(** The host objects a butterfly reaches through [this.game]. *)
Variable canvas : Canvas.t.
Variable player : Player.t.

(** [this.vx = Math.cos(this.direction) * this.speed; this.vy = ...] *)
Definition setVelocity (b : t) : t :=
  let b := set_vx (cos (direction b) * speed b) b in
  set_vy (sin (direction b) * speed b) b.

(** [update(deltaTime)], block by block.  First the wing-flap animation. *)
Definition flapWings (deltaTime : R) (b : t) : t :=
  let b := set_wingFlapTime (wingFlapTime b + deltaTime) b in
  set_wingFlapState (Math.abs (sin (wingFlapTime b / wingFlapSpeed b * PI))) b.

(** The occasional small change of heading of the 'direct' pattern; [k] is
    the number of [Math.random()] calls made so far. *)
Definition wobble (b : t) (k : nat) : t * nat :=
  if String.eqb (movementPattern b) "direct" then
    if bool_decide (random k < 0.05) then
      let b := set_direction (direction b + (random (S k) - 0.5) * 0.1) b in
      (setVelocity b, S (S k))
    else (b, S k)
  else (b, k).

(** [this.x += this.vx * deltaTime; this.y += this.vy * deltaTime;] *)
Definition advance (deltaTime : R) (b : t) : t :=
  let b := set_x (x b + vx b * deltaTime) b in
  set_y (y b + vy b * deltaTime) b.

(** The one-way [hasCrossedScreen] flag and its 5% boost. *)
Definition trackCrossing (b : t) : t :=
  if negb (hasCrossedScreen b) then
    let isVisible :=
      bool_decide (x b > 0) && bool_decide (x b < Canvas.width canvas) &&
      bool_decide (y b > 0) && bool_decide (y b < Canvas.height canvas) in
    if isVisible then
      let b := set_hasCrossedScreen true b in
      let b := set_speed (speed b * 1.05) b in
      setVelocity b
    else b
  else b.

(** Removal once the butterfly is way off screen. *)
Definition pruneOffScreen (b : t) : t :=
  let margin := 100 in
  if bool_decide (x b < - margin) ||
     bool_decide (x b > Canvas.width canvas + margin) ||
     bool_decide (y b < - margin) ||
     bool_decide (y b > Canvas.height canvas + margin)
  then
    if hasCrossedScreen b then set_shouldRemove true b else b
  else b.

(** [update(deltaTime)]: the blocks above, in the order of the source; the
    second component is the number of [Math.random()] calls after it. *)
Definition update (deltaTime : R) (b : t) (k : nat) : t * nat :=
  let b := flapWings deltaTime b in
  let '(b, k) := wobble b k in
  let b := advance deltaTime b in
  let b := trackCrossing b in
  let b := pruneOffScreen b in
  (b, k).

(** The distance test that opens [checkCatch(x, y)]. *)
Definition isCaught (px py : R) (b : t) : bool :=
  let centerX := x b + width b / 2 in
  let centerY := y b + height b / 2 in
  let dist := Utils.distance centerX centerY px py in
  bool_decide (dist <= catchRadius b + Player.netRadius player).

(** [checkCatch(x, y)]: the returned flag, the butterfly after the call and
    the number of [Math.random()] calls after it. *)
Definition checkCatch (px py : R) (b : t) (k : nat) : bool * t * nat :=
  let isCaught := isCaught px py b in
  if isCaught && isBoss b && negb (health b =? 0)%Z then
    let b := set_health (health b - 1)%Z b in
    if (health b <=? 0)%Z then (true, b, k)
    else
      let b := set_speed (speed b * 1.1) b in
      let b := set_direction (random k * PI * 2) b in
      let b := setVelocity b in
      (false, b, S k)
  else (isCaught, b, k).

(** Successive [checkCatch] calls on one butterfly, at the points
    [clicks]; the flags are returned in call order. *)
Fixpoint checkCatches (clicks : list (R * R)) (b : t) (k : nat)
  : list bool * t * nat :=
  match clicks with
  | [] => ([], b, k)
  | (px, py) :: rest =>
      let '(flag, b, k) := checkCatch px py b k in
      let '(flags, b, k) := checkCatches rest b k in
      (flag :: flags, b, k)
  end.

(** The flag a [checkCatch(px, py)] call returns for [b]; it does not depend on
    the random numbers drawn. *)
Definition catches (px py : R) (b : t) : bool := (checkCatch px py b 0).1.1.

(** Successive [update] calls on one butterfly, one per frame time. *)
Fixpoint updates (deltaTimes : list R) (b : t) (k : nat) : t * nat :=
  match deltaTimes with
  | [] => (b, k)
  | deltaTime :: rest =>
      let '(b, k) := update deltaTime b k in
      updates rest b k
  end.

(** The test of the last block of [update]: the position is beyond the
    canvas by more than the margin on some side. *)
Definition beyondMargin (b : t) : Prop :=
  x b < - 100 \/ x b > Canvas.width canvas + 100 \/
  y b < - 100 \/ y b > Canvas.height canvas + 100.

(** [setRandomPosition()] *)
Definition setRandomPosition (b : t) (k : nat) : t * nat :=
  let edge := Math.floor (random k * 4) in
  let k := S k in
  if (edge =? 0)%Z then
    let b := set_x (random k * Canvas.width canvas) b in
    (set_y (- height b) b, S k)
  else if (edge =? 1)%Z then
    let b := set_x (Canvas.width canvas + width b) b in
    (set_y (random k * Canvas.height canvas) b, S k)
  else if (edge =? 2)%Z then
    let b := set_x (random k * Canvas.width canvas) b in
    (set_y (Canvas.height canvas + height b) b, S k)
  else if (edge =? 3)%Z then
    let b := set_x (- width b) b in
    (set_y (random k * Canvas.height canvas) b, S k)
  else (b, k).

(** [setRandomDirection()] *)
Definition setRandomDirection (b : t) (k : nat) : t * nat :=
  let b := set_direction (random k * PI * 2) b in
  let k := S k in
  let '(b, k) :=
    if bool_decide (x b < 0) &&
       (bool_decide (direction b > PI / 2) && bool_decide (direction b < PI * 1.5))
    then
      let '(d, k) := Utils.randomBetween random (- PI / 4) (PI / 4) k in
      (set_direction (IZR d) b, k)
    else if bool_decide (x b > Canvas.width canvas) &&
            (bool_decide (direction b < PI / 2) || bool_decide (direction b > PI * 1.5))
    then
      let '(d, k) := Utils.randomBetween random (PI * 0.75) (PI * 1.25) k in
      (set_direction (IZR d) b, k)
    else if bool_decide (y b < 0) && bool_decide (direction b > PI) then
      let '(d, k) := Utils.randomBetween random 0 PI k in
      (set_direction (IZR d) b, k)
    else if bool_decide (y b > Canvas.height canvas) && bool_decide (direction b < PI) then
      let '(d, k) := Utils.randomBetween random PI (PI * 2) k in
      (set_direction (IZR d) b, k)
    else (b, k) in
  (setVelocity b, k).

(** [getMovementPattern()]; [None] is the [undefined] of an index outside
    the array. *)
Definition getMovementPattern (b : t) (k : nat) : option string * nat :=
  match level b with
  | 1 => (Some "linear", k)
  | 2 => (Some "zigzag", k)
  | 3 => (Some "wave", k)
  | 4 => (Some "circular", k)
  | 5 => (Some "bounce", k)
  | 6 => (Some "direct", k)
  | 7 => (Some "erratic", k)
  | 8 => (Some "figure8", k)
  | 9 => (Some "spiral", k)
  | 10 => (Some "chase", k)
  | 11 => (Some "zigzag", k)
  | 12 => (Some "wave", k)
  | 13 => (Some "circular", k)
  | 14 => (Some "bounce", k)
  | 15 => (Some "chase", k)
  | _ =>
      let patterns :=
        ["zigzag"; "wave"; "circular"; "bounce"; "direct"; "erratic"; "figure8"; "spiral"] in
      let i := Math.floor (random k * IZR (Z.of_nat (length patterns))) in
      (if (i <? 0)%Z then None else patterns !! Z.to_nat i, S k)
  end%Z%string.

End Methods.

End Butterfly.

(** ** scripts/game.js: the game state *)

Module Game.

(** A value stored in [butterflyCounts]: a number, or the [NaN] that
    [undefined++] leaves behind for a key that was never initialised. *)
Inductive Count : Type :=
| Num (n : Z)
| NaN.

(** The closures handed to [setTimeout] and [setInterval]. *)
Inductive Callback : Type :=
| PushButterfly (b : Butterfly.t)  (* () => { this.butterflies.push(butterfly); } *)
| CountdownTick.                   (* the body of the interval set up by start() *)

Record Timer : Type := mkTimer {
  delay : Z;          (* milliseconds, as passed to setTimeout / setInterval *)
  repeats : bool;     (* true for setInterval *)
  callback : Callback
}.

Record t : Type := mk {
  canvas : Canvas.t;
  player : Player.t;
  isRunning : bool;
  currentLevel : Z;
  maxLevel : Z;
  score : Z;
  butterflies : list Butterfly.t;
  butterflyImages : list nat;
  currentWave : Z;
  waveTimer : Z;
  isWaveTransitioning : bool;
  countdownActive : bool;
  countdownTime : Z;
  hasPlayedInitialCountdown : bool;
  isLevelTransitioning : bool;
  showingStartScreen : bool;
  showingInstructions : bool;
  showingSummaryScreen : bool;
  showingNameInput : bool;
  gameStarted : bool;
  butterflyCounts : gmap Z Count;
  lastTimestamp : R;
  levelTimer : option R;  (* undefined until start() *)
  levelTransitionStartTime : option Z;  (* null or a Date.now() reading *)
  levelTransitionDuration : Z;
  levelTransitionComplete : option bool;  (* undefined, false or true *)
  timers : list Timer;  (* pending setTimeout / setInterval callbacks *)
  randomCalls : nat  (* number of Math.random() calls made so far *)
}.

Definition set_isRunning (v : bool) (r : t) : t :=
  {| canvas := canvas r; player := player r; isRunning := v; currentLevel := currentLevel r;
     maxLevel := maxLevel r; score := score r; butterflies := butterflies r;
     butterflyImages := butterflyImages r; currentWave := currentWave r;
     waveTimer := waveTimer r; isWaveTransitioning := isWaveTransitioning r;
     countdownActive := countdownActive r; countdownTime := countdownTime r;
     hasPlayedInitialCountdown := hasPlayedInitialCountdown r;
     isLevelTransitioning := isLevelTransitioning r;
     showingStartScreen := showingStartScreen r;
     showingInstructions := showingInstructions r;
     showingSummaryScreen := showingSummaryScreen r; showingNameInput := showingNameInput r;
     gameStarted := gameStarted r; butterflyCounts := butterflyCounts r;
     lastTimestamp := lastTimestamp r; levelTimer := levelTimer r;
     levelTransitionStartTime := levelTransitionStartTime r;
     levelTransitionDuration := levelTransitionDuration r;
     levelTransitionComplete := levelTransitionComplete r; timers := timers r;
     randomCalls := randomCalls r |}.
Definition set_currentLevel (v : Z) (r : t) : t :=
  {| canvas := canvas r; player := player r; isRunning := isRunning r; currentLevel := v;
     maxLevel := maxLevel r; score := score r; butterflies := butterflies r;
     butterflyImages := butterflyImages r; currentWave := currentWave r;
     waveTimer := waveTimer r; isWaveTransitioning := isWaveTransitioning r;
     countdownActive := countdownActive r; countdownTime := countdownTime r;
     hasPlayedInitialCountdown := hasPlayedInitialCountdown r;
     isLevelTransitioning := isLevelTransitioning r;
     showingStartScreen := showingStartScreen r;
     showingInstructions := showingInstructions r;
     showingSummaryScreen := showingSummaryScreen r; showingNameInput := showingNameInput r;
     gameStarted := gameStarted r; butterflyCounts := butterflyCounts r;
     lastTimestamp := lastTimestamp r; levelTimer := levelTimer r;
     levelTransitionStartTime := levelTransitionStartTime r;
     levelTransitionDuration := levelTransitionDuration r;
     levelTransitionComplete := levelTransitionComplete r; timers := timers r;
     randomCalls := randomCalls r |}.
Definition set_score (v : Z) (r : t) : t :=
  {| canvas := canvas r; player := player r; isRunning := isRunning r;
     currentLevel := currentLevel r; maxLevel := maxLevel r; score := v;
     butterflies := butterflies r; butterflyImages := butterflyImages r;
     currentWave := currentWave r; waveTimer := waveTimer r;
     isWaveTransitioning := isWaveTransitioning r; countdownActive := countdownActive r;
     countdownTime := countdownTime r;
     hasPlayedInitialCountdown := hasPlayedInitialCountdown r;
     isLevelTransitioning := isLevelTransitioning r;
     showingStartScreen := showingStartScreen r;
     showingInstructions := showingInstructions r;
     showingSummaryScreen := showingSummaryScreen r; showingNameInput := showingNameInput r;
     gameStarted := gameStarted r; butterflyCounts := butterflyCounts r;
     lastTimestamp := lastTimestamp r; levelTimer := levelTimer r;
     levelTransitionStartTime := levelTransitionStartTime r;
     levelTransitionDuration := levelTransitionDuration r;
     levelTransitionComplete := levelTransitionComplete r; timers := timers r;
     randomCalls := randomCalls r |}.
Definition set_butterflies (v : list Butterfly.t) (r : t) : t :=
  {| canvas := canvas r; player := player r; isRunning := isRunning r;
     currentLevel := currentLevel r; maxLevel := maxLevel r; score := score r;
     butterflies := v; butterflyImages := butterflyImages r; currentWave := currentWave r;
     waveTimer := waveTimer r; isWaveTransitioning := isWaveTransitioning r;
     countdownActive := countdownActive r; countdownTime := countdownTime r;
     hasPlayedInitialCountdown := hasPlayedInitialCountdown r;
     isLevelTransitioning := isLevelTransitioning r;
     showingStartScreen := showingStartScreen r;
     showingInstructions := showingInstructions r;
     showingSummaryScreen := showingSummaryScreen r; showingNameInput := showingNameInput r;
     gameStarted := gameStarted r; butterflyCounts := butterflyCounts r;
     lastTimestamp := lastTimestamp r; levelTimer := levelTimer r;
     levelTransitionStartTime := levelTransitionStartTime r;
     levelTransitionDuration := levelTransitionDuration r;
     levelTransitionComplete := levelTransitionComplete r; timers := timers r;
     randomCalls := randomCalls r |}.
Definition set_butterflyImages (v : list nat) (r : t) : t :=
  {| canvas := canvas r; player := player r; isRunning := isRunning r;
     currentLevel := currentLevel r; maxLevel := maxLevel r; score := score r;
     butterflies := butterflies r; butterflyImages := v; currentWave := currentWave r;
     waveTimer := waveTimer r; isWaveTransitioning := isWaveTransitioning r;
     countdownActive := countdownActive r; countdownTime := countdownTime r;
     hasPlayedInitialCountdown := hasPlayedInitialCountdown r;
     isLevelTransitioning := isLevelTransitioning r;
     showingStartScreen := showingStartScreen r;
     showingInstructions := showingInstructions r;
     showingSummaryScreen := showingSummaryScreen r; showingNameInput := showingNameInput r;
     gameStarted := gameStarted r; butterflyCounts := butterflyCounts r;
     lastTimestamp := lastTimestamp r; levelTimer := levelTimer r;
     levelTransitionStartTime := levelTransitionStartTime r;
     levelTransitionDuration := levelTransitionDuration r;
     levelTransitionComplete := levelTransitionComplete r; timers := timers r;
     randomCalls := randomCalls r |}.
Definition set_currentWave (v : Z) (r : t) : t :=
  {| canvas := canvas r; player := player r; isRunning := isRunning r;
     currentLevel := currentLevel r; maxLevel := maxLevel r; score := score r;
     butterflies := butterflies r; butterflyImages := butterflyImages r; currentWave := v;
     waveTimer := waveTimer r; isWaveTransitioning := isWaveTransitioning r;
     countdownActive := countdownActive r; countdownTime := countdownTime r;
     hasPlayedInitialCountdown := hasPlayedInitialCountdown r;
     isLevelTransitioning := isLevelTransitioning r;
     showingStartScreen := showingStartScreen r;
     showingInstructions := showingInstructions r;
     showingSummaryScreen := showingSummaryScreen r; showingNameInput := showingNameInput r;
     gameStarted := gameStarted r; butterflyCounts := butterflyCounts r;
     lastTimestamp := lastTimestamp r; levelTimer := levelTimer r;
     levelTransitionStartTime := levelTransitionStartTime r;
     levelTransitionDuration := levelTransitionDuration r;
     levelTransitionComplete := levelTransitionComplete r; timers := timers r;
     randomCalls := randomCalls r |}.
Definition set_waveTimer (v : Z) (r : t) : t :=
  {| canvas := canvas r; player := player r; isRunning := isRunning r;
     currentLevel := currentLevel r; maxLevel := maxLevel r; score := score r;
     butterflies := butterflies r; butterflyImages := butterflyImages r;
     currentWave := currentWave r; waveTimer := v;
     isWaveTransitioning := isWaveTransitioning r; countdownActive := countdownActive r;
     countdownTime := countdownTime r;
     hasPlayedInitialCountdown := hasPlayedInitialCountdown r;
     isLevelTransitioning := isLevelTransitioning r;
     showingStartScreen := showingStartScreen r;
     showingInstructions := showingInstructions r;
     showingSummaryScreen := showingSummaryScreen r; showingNameInput := showingNameInput r;
     gameStarted := gameStarted r; butterflyCounts := butterflyCounts r;
     lastTimestamp := lastTimestamp r; levelTimer := levelTimer r;
     levelTransitionStartTime := levelTransitionStartTime r;
     levelTransitionDuration := levelTransitionDuration r;
     levelTransitionComplete := levelTransitionComplete r; timers := timers r;
     randomCalls := randomCalls r |}.
Definition set_isWaveTransitioning (v : bool) (r : t) : t :=
  {| canvas := canvas r; player := player r; isRunning := isRunning r;
     currentLevel := currentLevel r; maxLevel := maxLevel r; score := score r;
     butterflies := butterflies r; butterflyImages := butterflyImages r;
     currentWave := currentWave r; waveTimer := waveTimer r; isWaveTransitioning := v;
     countdownActive := countdownActive r; countdownTime := countdownTime r;
     hasPlayedInitialCountdown := hasPlayedInitialCountdown r;
     isLevelTransitioning := isLevelTransitioning r;
     showingStartScreen := showingStartScreen r;
     showingInstructions := showingInstructions r;
     showingSummaryScreen := showingSummaryScreen r; showingNameInput := showingNameInput r;
     gameStarted := gameStarted r; butterflyCounts := butterflyCounts r;
     lastTimestamp := lastTimestamp r; levelTimer := levelTimer r;
     levelTransitionStartTime := levelTransitionStartTime r;
     levelTransitionDuration := levelTransitionDuration r;
     levelTransitionComplete := levelTransitionComplete r; timers := timers r;
     randomCalls := randomCalls r |}.
Definition set_countdownActive (v : bool) (r : t) : t :=
  {| canvas := canvas r; player := player r; isRunning := isRunning r;
     currentLevel := currentLevel r; maxLevel := maxLevel r; score := score r;
     butterflies := butterflies r; butterflyImages := butterflyImages r;
     currentWave := currentWave r; waveTimer := waveTimer r;
     isWaveTransitioning := isWaveTransitioning r; countdownActive := v;
     countdownTime := countdownTime r;
     hasPlayedInitialCountdown := hasPlayedInitialCountdown r;
     isLevelTransitioning := isLevelTransitioning r;
     showingStartScreen := showingStartScreen r;
     showingInstructions := showingInstructions r;
     showingSummaryScreen := showingSummaryScreen r; showingNameInput := showingNameInput r;
     gameStarted := gameStarted r; butterflyCounts := butterflyCounts r;
     lastTimestamp := lastTimestamp r; levelTimer := levelTimer r;
     levelTransitionStartTime := levelTransitionStartTime r;
     levelTransitionDuration := levelTransitionDuration r;
     levelTransitionComplete := levelTransitionComplete r; timers := timers r;
     randomCalls := randomCalls r |}.
Definition set_countdownTime (v : Z) (r : t) : t :=
  {| canvas := canvas r; player := player r; isRunning := isRunning r;
     currentLevel := currentLevel r; maxLevel := maxLevel r; score := score r;
     butterflies := butterflies r; butterflyImages := butterflyImages r;
     currentWave := currentWave r; waveTimer := waveTimer r;
     isWaveTransitioning := isWaveTransitioning r; countdownActive := countdownActive r;
     countdownTime := v; hasPlayedInitialCountdown := hasPlayedInitialCountdown r;
     isLevelTransitioning := isLevelTransitioning r;
     showingStartScreen := showingStartScreen r;
     showingInstructions := showingInstructions r;
     showingSummaryScreen := showingSummaryScreen r; showingNameInput := showingNameInput r;
     gameStarted := gameStarted r; butterflyCounts := butterflyCounts r;
     lastTimestamp := lastTimestamp r; levelTimer := levelTimer r;
     levelTransitionStartTime := levelTransitionStartTime r;
     levelTransitionDuration := levelTransitionDuration r;
     levelTransitionComplete := levelTransitionComplete r; timers := timers r;
     randomCalls := randomCalls r |}.
Definition set_hasPlayedInitialCountdown (v : bool) (r : t) : t :=
  {| canvas := canvas r; player := player r; isRunning := isRunning r;
     currentLevel := currentLevel r; maxLevel := maxLevel r; score := score r;
     butterflies := butterflies r; butterflyImages := butterflyImages r;
     currentWave := currentWave r; waveTimer := waveTimer r;
     isWaveTransitioning := isWaveTransitioning r; countdownActive := countdownActive r;
     countdownTime := countdownTime r; hasPlayedInitialCountdown := v;
     isLevelTransitioning := isLevelTransitioning r;
     showingStartScreen := showingStartScreen r;
     showingInstructions := showingInstructions r;
     showingSummaryScreen := showingSummaryScreen r; showingNameInput := showingNameInput r;
     gameStarted := gameStarted r; butterflyCounts := butterflyCounts r;
     lastTimestamp := lastTimestamp r; levelTimer := levelTimer r;
     levelTransitionStartTime := levelTransitionStartTime r;
     levelTransitionDuration := levelTransitionDuration r;
     levelTransitionComplete := levelTransitionComplete r; timers := timers r;
     randomCalls := randomCalls r |}.
Definition set_isLevelTransitioning (v : bool) (r : t) : t :=
  {| canvas := canvas r; player := player r; isRunning := isRunning r;
     currentLevel := currentLevel r; maxLevel := maxLevel r; score := score r;
     butterflies := butterflies r; butterflyImages := butterflyImages r;
     currentWave := currentWave r; waveTimer := waveTimer r;
     isWaveTransitioning := isWaveTransitioning r; countdownActive := countdownActive r;
     countdownTime := countdownTime r;
     hasPlayedInitialCountdown := hasPlayedInitialCountdown r; isLevelTransitioning := v;
     showingStartScreen := showingStartScreen r;
     showingInstructions := showingInstructions r;
     showingSummaryScreen := showingSummaryScreen r; showingNameInput := showingNameInput r;
     gameStarted := gameStarted r; butterflyCounts := butterflyCounts r;
     lastTimestamp := lastTimestamp r; levelTimer := levelTimer r;
     levelTransitionStartTime := levelTransitionStartTime r;
     levelTransitionDuration := levelTransitionDuration r;
     levelTransitionComplete := levelTransitionComplete r; timers := timers r;
     randomCalls := randomCalls r |}.
Definition set_showingStartScreen (v : bool) (r : t) : t :=
  {| canvas := canvas r; player := player r; isRunning := isRunning r;
     currentLevel := currentLevel r; maxLevel := maxLevel r; score := score r;
     butterflies := butterflies r; butterflyImages := butterflyImages r;
     currentWave := currentWave r; waveTimer := waveTimer r;
     isWaveTransitioning := isWaveTransitioning r; countdownActive := countdownActive r;
     countdownTime := countdownTime r;
     hasPlayedInitialCountdown := hasPlayedInitialCountdown r;
     isLevelTransitioning := isLevelTransitioning r; showingStartScreen := v;
     showingInstructions := showingInstructions r;
     showingSummaryScreen := showingSummaryScreen r; showingNameInput := showingNameInput r;
     gameStarted := gameStarted r; butterflyCounts := butterflyCounts r;
     lastTimestamp := lastTimestamp r; levelTimer := levelTimer r;
     levelTransitionStartTime := levelTransitionStartTime r;
     levelTransitionDuration := levelTransitionDuration r;
     levelTransitionComplete := levelTransitionComplete r; timers := timers r;
     randomCalls := randomCalls r |}.
Definition set_showingInstructions (v : bool) (r : t) : t :=
  {| canvas := canvas r; player := player r; isRunning := isRunning r;
     currentLevel := currentLevel r; maxLevel := maxLevel r; score := score r;
     butterflies := butterflies r; butterflyImages := butterflyImages r;
     currentWave := currentWave r; waveTimer := waveTimer r;
     isWaveTransitioning := isWaveTransitioning r; countdownActive := countdownActive r;
     countdownTime := countdownTime r;
     hasPlayedInitialCountdown := hasPlayedInitialCountdown r;
     isLevelTransitioning := isLevelTransitioning r;
     showingStartScreen := showingStartScreen r; showingInstructions := v;
     showingSummaryScreen := showingSummaryScreen r; showingNameInput := showingNameInput r;
     gameStarted := gameStarted r; butterflyCounts := butterflyCounts r;
     lastTimestamp := lastTimestamp r; levelTimer := levelTimer r;
     levelTransitionStartTime := levelTransitionStartTime r;
     levelTransitionDuration := levelTransitionDuration r;
     levelTransitionComplete := levelTransitionComplete r; timers := timers r;
     randomCalls := randomCalls r |}.
Definition set_showingSummaryScreen (v : bool) (r : t) : t :=
  {| canvas := canvas r; player := player r; isRunning := isRunning r;
     currentLevel := currentLevel r; maxLevel := maxLevel r; score := score r;
     butterflies := butterflies r; butterflyImages := butterflyImages r;
     currentWave := currentWave r; waveTimer := waveTimer r;
     isWaveTransitioning := isWaveTransitioning r; countdownActive := countdownActive r;
     countdownTime := countdownTime r;
     hasPlayedInitialCountdown := hasPlayedInitialCountdown r;
     isLevelTransitioning := isLevelTransitioning r;
     showingStartScreen := showingStartScreen r;
     showingInstructions := showingInstructions r; showingSummaryScreen := v;
     showingNameInput := showingNameInput r; gameStarted := gameStarted r;
     butterflyCounts := butterflyCounts r; lastTimestamp := lastTimestamp r;
     levelTimer := levelTimer r; levelTransitionStartTime := levelTransitionStartTime r;
     levelTransitionDuration := levelTransitionDuration r;
     levelTransitionComplete := levelTransitionComplete r; timers := timers r;
     randomCalls := randomCalls r |}.
Definition set_gameStarted (v : bool) (r : t) : t :=
  {| canvas := canvas r; player := player r; isRunning := isRunning r;
     currentLevel := currentLevel r; maxLevel := maxLevel r; score := score r;
     butterflies := butterflies r; butterflyImages := butterflyImages r;
     currentWave := currentWave r; waveTimer := waveTimer r;
     isWaveTransitioning := isWaveTransitioning r; countdownActive := countdownActive r;
     countdownTime := countdownTime r;
     hasPlayedInitialCountdown := hasPlayedInitialCountdown r;
     isLevelTransitioning := isLevelTransitioning r;
     showingStartScreen := showingStartScreen r;
     showingInstructions := showingInstructions r;
     showingSummaryScreen := showingSummaryScreen r; showingNameInput := showingNameInput r;
     gameStarted := v; butterflyCounts := butterflyCounts r;
     lastTimestamp := lastTimestamp r; levelTimer := levelTimer r;
     levelTransitionStartTime := levelTransitionStartTime r;
     levelTransitionDuration := levelTransitionDuration r;
     levelTransitionComplete := levelTransitionComplete r; timers := timers r;
     randomCalls := randomCalls r |}.
Definition set_butterflyCounts (v : gmap Z Count) (r : t) : t :=
  {| canvas := canvas r; player := player r; isRunning := isRunning r;
     currentLevel := currentLevel r; maxLevel := maxLevel r; score := score r;
     butterflies := butterflies r; butterflyImages := butterflyImages r;
     currentWave := currentWave r; waveTimer := waveTimer r;
     isWaveTransitioning := isWaveTransitioning r; countdownActive := countdownActive r;
     countdownTime := countdownTime r;
     hasPlayedInitialCountdown := hasPlayedInitialCountdown r;
     isLevelTransitioning := isLevelTransitioning r;
     showingStartScreen := showingStartScreen r;
     showingInstructions := showingInstructions r;
     showingSummaryScreen := showingSummaryScreen r; showingNameInput := showingNameInput r;
     gameStarted := gameStarted r; butterflyCounts := v; lastTimestamp := lastTimestamp r;
     levelTimer := levelTimer r; levelTransitionStartTime := levelTransitionStartTime r;
     levelTransitionDuration := levelTransitionDuration r;
     levelTransitionComplete := levelTransitionComplete r; timers := timers r;
     randomCalls := randomCalls r |}.
Definition set_lastTimestamp (v : R) (r : t) : t :=
  {| canvas := canvas r; player := player r; isRunning := isRunning r;
     currentLevel := currentLevel r; maxLevel := maxLevel r; score := score r;
     butterflies := butterflies r; butterflyImages := butterflyImages r;
     currentWave := currentWave r; waveTimer := waveTimer r;
     isWaveTransitioning := isWaveTransitioning r; countdownActive := countdownActive r;
     countdownTime := countdownTime r;
     hasPlayedInitialCountdown := hasPlayedInitialCountdown r;
     isLevelTransitioning := isLevelTransitioning r;
     showingStartScreen := showingStartScreen r;
     showingInstructions := showingInstructions r;
     showingSummaryScreen := showingSummaryScreen r; showingNameInput := showingNameInput r;
     gameStarted := gameStarted r; butterflyCounts := butterflyCounts r; lastTimestamp := v;
     levelTimer := levelTimer r; levelTransitionStartTime := levelTransitionStartTime r;
     levelTransitionDuration := levelTransitionDuration r;
     levelTransitionComplete := levelTransitionComplete r; timers := timers r;
     randomCalls := randomCalls r |}.
Definition set_levelTimer (v : option R) (r : t) : t :=
  {| canvas := canvas r; player := player r; isRunning := isRunning r;
     currentLevel := currentLevel r; maxLevel := maxLevel r; score := score r;
     butterflies := butterflies r; butterflyImages := butterflyImages r;
     currentWave := currentWave r; waveTimer := waveTimer r;
     isWaveTransitioning := isWaveTransitioning r; countdownActive := countdownActive r;
     countdownTime := countdownTime r;
     hasPlayedInitialCountdown := hasPlayedInitialCountdown r;
     isLevelTransitioning := isLevelTransitioning r;
     showingStartScreen := showingStartScreen r;
     showingInstructions := showingInstructions r;
     showingSummaryScreen := showingSummaryScreen r; showingNameInput := showingNameInput r;
     gameStarted := gameStarted r; butterflyCounts := butterflyCounts r;
     lastTimestamp := lastTimestamp r; levelTimer := v;
     levelTransitionStartTime := levelTransitionStartTime r;
     levelTransitionDuration := levelTransitionDuration r;
     levelTransitionComplete := levelTransitionComplete r; timers := timers r;
     randomCalls := randomCalls r |}.
Definition set_levelTransitionStartTime (v : option Z) (r : t) : t :=
  {| canvas := canvas r; player := player r; isRunning := isRunning r;
     currentLevel := currentLevel r; maxLevel := maxLevel r; score := score r;
     butterflies := butterflies r; butterflyImages := butterflyImages r;
     currentWave := currentWave r; waveTimer := waveTimer r;
     isWaveTransitioning := isWaveTransitioning r; countdownActive := countdownActive r;
     countdownTime := countdownTime r;
     hasPlayedInitialCountdown := hasPlayedInitialCountdown r;
     isLevelTransitioning := isLevelTransitioning r;
     showingStartScreen := showingStartScreen r;
     showingInstructions := showingInstructions r;
     showingSummaryScreen := showingSummaryScreen r; showingNameInput := showingNameInput r;
     gameStarted := gameStarted r; butterflyCounts := butterflyCounts r;
     lastTimestamp := lastTimestamp r; levelTimer := levelTimer r;
     levelTransitionStartTime := v; levelTransitionDuration := levelTransitionDuration r;
     levelTransitionComplete := levelTransitionComplete r; timers := timers r;
     randomCalls := randomCalls r |}.
Definition set_levelTransitionDuration (v : Z) (r : t) : t :=
  {| canvas := canvas r; player := player r; isRunning := isRunning r;
     currentLevel := currentLevel r; maxLevel := maxLevel r; score := score r;
     butterflies := butterflies r; butterflyImages := butterflyImages r;
     currentWave := currentWave r; waveTimer := waveTimer r;
     isWaveTransitioning := isWaveTransitioning r; countdownActive := countdownActive r;
     countdownTime := countdownTime r;
     hasPlayedInitialCountdown := hasPlayedInitialCountdown r;
     isLevelTransitioning := isLevelTransitioning r;
     showingStartScreen := showingStartScreen r;
     showingInstructions := showingInstructions r;
     showingSummaryScreen := showingSummaryScreen r; showingNameInput := showingNameInput r;
     gameStarted := gameStarted r; butterflyCounts := butterflyCounts r;
     lastTimestamp := lastTimestamp r; levelTimer := levelTimer r;
     levelTransitionStartTime := levelTransitionStartTime r; levelTransitionDuration := v;
     levelTransitionComplete := levelTransitionComplete r; timers := timers r;
     randomCalls := randomCalls r |}.
Definition set_levelTransitionComplete (v : option bool) (r : t) : t :=
  {| canvas := canvas r; player := player r; isRunning := isRunning r;
     currentLevel := currentLevel r; maxLevel := maxLevel r; score := score r;
     butterflies := butterflies r; butterflyImages := butterflyImages r;
     currentWave := currentWave r; waveTimer := waveTimer r;
     isWaveTransitioning := isWaveTransitioning r; countdownActive := countdownActive r;
     countdownTime := countdownTime r;
     hasPlayedInitialCountdown := hasPlayedInitialCountdown r;
     isLevelTransitioning := isLevelTransitioning r;
     showingStartScreen := showingStartScreen r;
     showingInstructions := showingInstructions r;
     showingSummaryScreen := showingSummaryScreen r; showingNameInput := showingNameInput r;
     gameStarted := gameStarted r; butterflyCounts := butterflyCounts r;
     lastTimestamp := lastTimestamp r; levelTimer := levelTimer r;
     levelTransitionStartTime := levelTransitionStartTime r;
     levelTransitionDuration := levelTransitionDuration r; levelTransitionComplete := v;
     timers := timers r; randomCalls := randomCalls r |}.
Definition set_timers (v : list Timer) (r : t) : t :=
  {| canvas := canvas r; player := player r; isRunning := isRunning r;
     currentLevel := currentLevel r; maxLevel := maxLevel r; score := score r;
     butterflies := butterflies r; butterflyImages := butterflyImages r;
     currentWave := currentWave r; waveTimer := waveTimer r;
     isWaveTransitioning := isWaveTransitioning r; countdownActive := countdownActive r;
     countdownTime := countdownTime r;
     hasPlayedInitialCountdown := hasPlayedInitialCountdown r;
     isLevelTransitioning := isLevelTransitioning r;
     showingStartScreen := showingStartScreen r;
     showingInstructions := showingInstructions r;
     showingSummaryScreen := showingSummaryScreen r; showingNameInput := showingNameInput r;
     gameStarted := gameStarted r; butterflyCounts := butterflyCounts r;
     lastTimestamp := lastTimestamp r; levelTimer := levelTimer r;
     levelTransitionStartTime := levelTransitionStartTime r;
     levelTransitionDuration := levelTransitionDuration r;
     levelTransitionComplete := levelTransitionComplete r; timers := v;
     randomCalls := randomCalls r |}.
Definition set_randomCalls (v : nat) (r : t) : t :=
  {| canvas := canvas r; player := player r; isRunning := isRunning r;
     currentLevel := currentLevel r; maxLevel := maxLevel r; score := score r;
     butterflies := butterflies r; butterflyImages := butterflyImages r;
     currentWave := currentWave r; waveTimer := waveTimer r;
     isWaveTransitioning := isWaveTransitioning r; countdownActive := countdownActive r;
     countdownTime := countdownTime r;
     hasPlayedInitialCountdown := hasPlayedInitialCountdown r;
     isLevelTransitioning := isLevelTransitioning r;
     showingStartScreen := showingStartScreen r;
     showingInstructions := showingInstructions r;
     showingSummaryScreen := showingSummaryScreen r; showingNameInput := showingNameInput r;
     gameStarted := gameStarted r; butterflyCounts := butterflyCounts r;
     lastTimestamp := lastTimestamp r; levelTimer := levelTimer r;
     levelTransitionStartTime := levelTransitionStartTime r;
     levelTransitionDuration := levelTransitionDuration r;
     levelTransitionComplete := levelTransitionComplete r; timers := timers r;
     randomCalls := v |}.

(** A [for (let i = lo; i < lo + n; i++) body] loop over a state. *)
Fixpoint for_range {St : Type} (n : nat) (i : Z) (body : Z -> St -> St) (s : St) : St :=
  match n with
  | O => s
  | S n' => for_range n' (i + 1)%Z body (body i s)
  end.

(** [for (let i = 1; i <= this.maxLevel; i++) this.butterflyCounts[i] = 0;] *)
Definition resetCounts (maxLvl : Z) (m : gmap Z Count) : gmap Z Count :=
  for_range (Z.to_nat maxLvl) 1%Z (fun i m => <[i := Num 0]> m) m.

(** [this.butterflyCounts[lvl]++] *)
Definition incrementCount (lvl : Z) (m : gmap Z Count) : gmap Z Count :=
  match m !! lvl with
  | Some (Num n) => <[lvl := Num (n + 1)]> m
  | Some NaN | None => <[lvl := NaN]> m
  end.

Definition setTimeout (cb : Callback) (ms : Z) (g : t) : t :=
  set_timers (timers g ++ [mkTimer ms false cb]) g.

Definition setInterval (cb : Callback) (ms : Z) (g : t) : t :=
  set_timers (timers g ++ [mkTimer ms true cb]) g.

(** [clearInterval] of the timer registered at position [k]. *)
Definition clearInterval (k : nat) (g : t) : t :=
  set_timers (delete k (timers g)) g.

(** [arr[i]] for a JavaScript index [i]; [None] is [undefined]. *)
Definition at_index {A : Type} (l : list A) (i : Z) : option A :=
  if (i <? 0)%Z then None else l !! Z.to_nat i.

(** [constructor()], for a canvas already sized by [resizeCanvas()]. *)
Definition new (cv : Canvas.t) : t :=
  {| canvas := cv;
     player := Player.new cv;
     isRunning := false;
     currentLevel := 1;
     maxLevel := 10;
     score := 0;
     butterflies := [];
     butterflyImages := [];
     currentWave := 0;
     waveTimer := 0;
     isWaveTransitioning := false;
     countdownActive := false;
     countdownTime := 3;
     hasPlayedInitialCountdown := false;
     isLevelTransitioning := false;
     showingStartScreen := true;
     showingInstructions := false;
     showingSummaryScreen := false;
     showingNameInput := false;
     gameStarted := false;
     butterflyCounts := resetCounts 10 ∅;
     lastTimestamp := 0;
     levelTimer := None;
     levelTransitionStartTime := None;
     levelTransitionDuration := 0;
     levelTransitionComplete := None;
     timers := [];
     randomCalls := 0 |}.

(** The butterfly part of [loadAssets()]: one image per level, pushed in
    level order; the handle of the image of level [i] is [i]. *)
Definition loadAssets (g : t) : t :=
  for_range (Z.to_nat (maxLevel g)) 1%Z
    (fun i g => set_butterflyImages (butterflyImages g ++ [Z.to_nat i]) g) g.

Section Methods.
Local Open Scope R_scope.

(** The results of the successive calls of [Math.random()]. *)
Variable random : nat -> R.

(** One call of [Math.random()]. *)
Definition nextRandom (g : t) : R * t :=
  (random (randomCalls g), set_randomCalls (S (randomCalls g)) g).

(** [positionButterflyInFormation(butterfly, formation, index, count, spawnSide)];
    [spawnSide = None] is the omitted argument. *)
Definition positionButterflyInFormation
    (b : Butterfly.t) (formation : string) (index count : Z)
    (spawnSide : option Z) (g : t) : Butterfly.t * t :=
  let width := Canvas.width (canvas g) in
  let height := Canvas.height (canvas g) in
  let '(edge, g) :=
    match spawnSide with
    | Some side => (side, g)
    | None => let '(r, g) := nextRandom g in (Math.floor (r * 4), g)
    end in
  let '(rx, g) := nextRandom g in
  let crossingX := width * (0.2 + rx * 0.6) in
  let '(ry, g) := nextRandom g in
  let crossingY := height * (0.2 + ry * 0.6) in
  let '(b, g) :=
    if (edge =? 0)%Z then
      let '(r, g) := nextRandom g in
      let b := Butterfly.set_x (width * r) b in
      (Butterfly.set_y (- Butterfly.height b * 2) b, g)
    else if (edge =? 1)%Z then
      let b := Butterfly.set_x (width + Butterfly.width b) b in
      let '(r, g) := nextRandom g in
      (Butterfly.set_y (height * r) b, g)
    else if (edge =? 2)%Z then
      let '(r, g) := nextRandom g in
      let b := Butterfly.set_x (width * r) b in
      (Butterfly.set_y (height + Butterfly.height b) b, g)
    else if (edge =? 3)%Z then
      let b := Butterfly.set_x (- Butterfly.width b * 2) b in
      let '(r, g) := nextRandom g in
      (Butterfly.set_y (height * r) b, g)
    else (b, g) in
  let dx := crossingX - Butterfly.x b in
  let dy := crossingY - Butterfly.y b in
  let b := Butterfly.set_direction (Math.atan2 dy dx) b in
  let '(r, g) := nextRandom g in
  let b := Butterfly.set_direction (Butterfly.direction b + (r - 0.5) * PI / 4) b in
  let b := Butterfly.setVelocity b in
  let b := Butterfly.set_crossingPoint (Some (crossingX, crossingY)) b in
  let b := Butterfly.set_movementPattern "direct" b in
  (b, g).

(** The placement the specification words as "offset by twice its own size
    beyond the boundary", for a butterfly of size [w] x [h] put at edge
    [edge] of the canvas and ending up as [b']. *)
Definition placedTwiceItsSizeOutside (cv : Canvas.t) (edge : Z) (w h : R)
    (b' : Butterfly.t) : Prop :=
  (edge = 0%Z -> Butterfly.y b' = - (2 * h)) /\
  (edge = 1%Z -> Butterfly.x b' = Canvas.width cv + 2 * w) /\
  (edge = 2%Z -> Butterfly.y b' = Canvas.height cv + 2 * h) /\
  (edge = 3%Z -> Butterfly.x b' = - (2 * w)).

(** [spawnBossButterfly()] *)
Definition spawnBossButterfly (g : t) : t :=
  let bossButterfly := Butterfly.new (at_index (butterflyImages g) 9) 10 in
  let bossButterfly := Butterfly.set_width (Butterfly.width bossButterfly * 2.5) bossButterfly in
  let bossButterfly := Butterfly.set_height (Butterfly.height bossButterfly * 2.5) bossButterfly in
  let bossButterfly :=
    Butterfly.set_catchRadius (Butterfly.catchRadius bossButterfly * 0.7) bossButterfly in
  let bossButterfly := Butterfly.set_speed (Butterfly.speed bossButterfly * 0.8) bossButterfly in
  let bossButterfly := Butterfly.set_health 5 bossButterfly in
  let bossButterfly := Butterfly.set_isBoss true bossButterfly in
  let bossButterfly := Butterfly.set_x (Canvas.width (canvas g) / 2) bossButterfly in
  let bossButterfly := Butterfly.set_y (Canvas.height (canvas g) / 2) bossButterfly in
  let '(r, g) := nextRandom g in
  let bossButterfly := Butterfly.set_direction (r * PI * 2) bossButterfly in
  let bossButterfly := Butterfly.setVelocity bossButterfly in
  let g := setTimeout (PushButterfly bossButterfly) 1000 g in
  let g :=
    for_range 8 0%Z (fun i g =>
      let minion := Butterfly.new (at_index (butterflyImages g) 8) 9 in
      let angle := IZR i / 8 * PI * 2 in
      let distance := 150 in
      let minion :=
        Butterfly.set_x (Canvas.width (canvas g) / 2 + cos angle * distance) minion in
      let minion :=
        Butterfly.set_y (Canvas.height (canvas g) / 2 + sin angle * distance) minion in
      let minion := Butterfly.set_direction angle minion in
      let minion := Butterfly.setVelocity minion in
      setTimeout (PushButterfly minion) (500 + i * 100)%Z g) g in
  set_levelTimer (Some 0) g.

(** [actuallySpawnButterflies(wave = 0)] *)
Definition actuallySpawnButterflies (wave : Z) (g : t) : t :=
  let safeLevel := Z.min (Z.max (currentLevel g) 1) (maxLevel g) in
  if (safeLevel =? 10)%Z then spawnBossButterfly g
  else
    let butterflyCount := 15%Z in
    let imageIndex :=
      Z.min (safeLevel - 1) (Z.of_nat (length (butterflyImages g)) - 1) in
    if (imageIndex <? 0)%Z || (imageIndex >=? Z.of_nat (length (butterflyImages g)))%Z
    then g
    else
      let g :=
        for_range (Z.to_nat butterflyCount) 0%Z (fun i g =>
          let butterfly := Butterfly.new (at_index (butterflyImages g) imageIndex) safeLevel in
          let formations := ["line"; "v"; "circle"; "grid"; "random"]%string in
          let formationIndex := Z.rem (safeLevel - 1) (Z.of_nat (length formations)) in
          let formation := default "undefined"%string (at_index formations formationIndex) in
          let '(butterfly, g) :=
            positionButterflyInFormation butterfly formation i butterflyCount None g in
          let levelSpeedBonus := 1 + IZR (safeLevel - 1) * 0.1 in
          let '(r, g) := nextRandom g in
          let speedVariation := (0.8 + r * 0.4) * levelSpeedBonus in
          let butterfly :=
            Butterfly.set_speed (Butterfly.speed butterfly * speedVariation) butterfly in
          let butterfly := Butterfly.setVelocity butterfly in
          setTimeout (PushButterfly butterfly) (i * 50)%Z g) g in
      set_levelTimer (Some 0) g.

(** [spawnButterflies(wave = 0)] *)
Definition spawnButterflies (wave : Z) (g : t) : t :=
  let g := set_hasPlayedInitialCountdown true g in
  actuallySpawnButterflies wave g.

(** The callback of the [setInterval] of [start()], registered at position [k]. *)
Definition countdownTick (k : nat) (g : t) : t :=
  let g := set_countdownTime (countdownTime g - 1)%Z g in
  if (countdownTime g <=? 0)%Z then
    let g := clearInterval k g in
    let g := set_countdownActive false g in
    let g := set_levelTimer (Some 0) g in
    spawnButterflies 0 g
  else g.

(** [start()] *)
Definition start (g : t) : t :=
  let g := set_butterflies [] g in
  let g := set_showingStartScreen false g in
  let g := set_showingInstructions false g in
  let g := set_isRunning true g in
  let g := set_gameStarted true g in
  let g := set_currentLevel 1 g in
  let g := set_currentWave 0 g in
  let g := set_score 0 g in
  let g := set_levelTimer (Some 0) g in
  let g := set_butterflyCounts (resetCounts (maxLevel g) (butterflyCounts g)) g in
  let g := set_isWaveTransitioning false g in
  let g := set_waveTimer 0 g in
  let g := set_isLevelTransitioning false g in
  let g := set_hasPlayedInitialCountdown false g in
  let g := set_countdownActive true g in
  let g := set_countdownTime 3 g in
  setInterval CountdownTick 1000 g.

(** [gameComplete()].  Its last statement,
    [this.setupSummaryScreenListeners()], registers on the canvas the click
    listener of the summary screen's buttons (Play Again, Save Record, View
    Records).  That listener, the button geometry it tests and the screens
    it leads to belong to the screen flow, which is not modelled: the
    listeners registered on the canvas are not part of the state. *)
Definition gameComplete (g : t) : t :=
  let g := set_isRunning false g in
  set_showingSummaryScreen true g.

(** [levelComplete(fastTransition = false)]; [now] is the reading of
    [Date.now()]. *)
Definition levelComplete (fastTransition : bool) (now : Z) (g : t) : t :=
  if isLevelTransitioning g then g
  else
    let g := set_isLevelTransitioning true g in
    if (currentLevel g <? maxLevel g)%Z then
      let g := set_currentLevel (currentLevel g + 1)%Z g in
      let g := set_levelTransitionStartTime (Some now) g in
      let g := set_levelTransitionDuration 1000 g in
      set_levelTransitionComplete (Some false) g
    else gameComplete g.

(** [startNextLevel()] *)
Definition startNextLevel (g : t) : t :=
  let g := set_currentWave 0 g in
  let g := set_isWaveTransitioning false g in
  let g := set_waveTimer 0 g in
  let g := set_levelTimer (Some 0) g in
  let g := spawnButterflies 0 g in
  let g := set_isLevelTransitioning false g in
  let g := set_levelTransitionComplete (Some true) g in
  set_levelTransitionStartTime None g.

(** The first loop of [update]: [i] runs from [n - 1] down to [0]. *)
Fixpoint updateButterflies (deltaTime : R) (n : nat) (g : t) : t :=
  match n with
  | O => g
  | S i =>
      match butterflies g !! i with
      | Some butterfly =>
          let '(butterfly, k) :=
            Butterfly.update random (canvas g) deltaTime butterfly (randomCalls g) in
          let g := set_randomCalls k g in
          let g := set_butterflies (<[i := butterfly]> (butterflies g)) g in
          let g :=
            if Butterfly.shouldRemove butterfly
            then set_butterflies (delete i (butterflies g)) g
            else g in
          updateButterflies deltaTime i g
      | None => g
      end
  end.

(** The last block of [update]: the occasional extra group. *)
Definition spawnExtraGroup (g : t) : t :=
  if negb (isLevelTransitioning g) && bool_decide (length (butterflies g) < 20)%nat then
    let '(r, g) := nextRandom g in
    if bool_decide (r < 0.01) then
      let formations := ["line"; "v"; "circle"; "grid"; "random"]%string in
      let '(r, g) := nextRandom g in
      let formation :=
        default "undefined"%string
          (at_index formations (Math.floor (r * IZR (Z.of_nat (length formations))))) in
      let '(r, g) := nextRandom g in
      let count := (3 + Math.floor (r * 3))%Z in
      let '(r, g) := nextRandom g in
      let spawnSide := Math.floor (r * 4) in
      let imageIndex :=
        Z.min (currentLevel g - 1) (Z.of_nat (length (butterflyImages g)) - 1) in
      for_range (Z.to_nat count) 0%Z (fun i g =>
        let butterfly :=
          Butterfly.new (at_index (butterflyImages g) imageIndex) (currentLevel g) in
        let '(butterfly, g) :=
          positionButterflyInFormation butterfly formation i count (Some spawnSide) g in
        let butterfly := Butterfly.set_speed (Butterfly.speed butterfly * 1.2) butterfly in
        let butterfly := Butterfly.setVelocity butterfly in
        set_butterflies (butterflies g ++ [butterfly]) g) g
    else g
  else g.

(** [update(deltaTime)] *)
Definition update (deltaTime : R) (now : Z) (g : t) : t :=
  if isLevelTransitioning g then g
  else if countdownActive g then g
  else
    let g := updateButterflies deltaTime (length (butterflies g)) g in
    let g := match levelTimer g with None => set_levelTimer (Some 0) g | Some _ => g end in
    let g := set_levelTimer (Some (default 0 (levelTimer g) + deltaTime)) g in
    let allowLevelProgression :=
      bool_decide (length (butterflies g) > 0)%nat ||
      bool_decide (default 0 (levelTimer g) >= 2) in
    if allowLevelProgression &&
       (bool_decide (default 0 (levelTimer g) >= 10) && negb (isLevelTransitioning g))
    then
      let g := levelComplete true now g in
      set_levelTimer (Some 0) g
    else
      let g :=
        if allowLevelProgression &&
           (bool_decide (length (butterflies g) = 0)%nat && negb (isLevelTransitioning g))
        then
          let g := levelComplete true now g in
          set_levelTimer (Some 0) g
        else g in
      spawnExtraGroup g.

(** The hit-test loop of [handleClick]: [i] runs from [n - 1] down to [0]
    and stops at the first catch. *)
Fixpoint catchLoop (px py : R) (n : nat) (g : t) : t :=
  match n with
  | O => g
  | S i =>
      match butterflies g !! i with
      | Some butterfly =>
          let '(caught, butterfly, k) :=
            Butterfly.checkCatch random (player g) px py butterfly (randomCalls g) in
          let g := set_randomCalls k g in
          let g := set_butterflies (<[i := butterfly]> (butterflies g)) g in
          if caught then
            let g := set_score (score g + Butterfly.level butterfly * 10)%Z g in
            let g :=
              set_butterflyCounts
                (incrementCount (Butterfly.level butterfly) (butterflyCounts g)) g in
            set_butterflies (delete i (butterflies g)) g
          else catchLoop px py i g
      | None => g
      end
  end.

(** What the hit-test loop does to a run [l] of butterflies none of which is
    caught: each gets its [checkCatch] call, the last one first. *)
Fixpoint sweep (px py : R) (pl : Player.t) (l : list Butterfly.t) (k : nat)
    : list Butterfly.t * nat :=
  match l with
  | [] => ([], k)
  | c :: rest =>
      let '(rest', k) := sweep px py pl rest k in
      let '(_, c', k) := Butterfly.checkCatch random pl px py c k in
      (c' :: rest', k)
  end.

(** [handleClick(e)], with [px = e.clientX - rect.left] and
    [py = e.clientY - rect.top]. *)
Definition handleClick (px py : R) (g : t) : t :=
  if isLevelTransitioning g || countdownActive g then g
  else if showingStartScreen g || showingInstructions g || showingSummaryScreen g then g
  else catchLoop px py (length (butterflies g)) g.

(** The tail of [gameLoop]: the regular frame, reached when no transition
    animation is being shown. *)
Definition regularFrame (timestamp : R) (now : Z) (g : t) : t :=
  if isRunning g && negb (isLevelTransitioning g) then
    let deltaTime := (timestamp - lastTimestamp g) / 1000 in
    let g := set_lastTimestamp timestamp g in
    update deltaTime now g
  else set_lastTimestamp timestamp g.

(** [gameLoop(timestamp)]; [perfNow] and [now] are the readings of
    [performance.now()] and [Date.now()] during the call. *)
Definition gameLoop (timestamp perfNow : R) (now : Z) (g : t) : t :=
  let timestamp := if bool_decide (timestamp = 0) then perfNow else timestamp in
  if showingNameInput g then g
  else if showingSummaryScreen g then g
  else
    match levelTransitionStartTime g with
    | Some startTime =>
        if isLevelTransitioning g && negb (startTime =? 0)%Z then
          let elapsed := (now - startTime)%Z in
          let progress := Math.min 1 (IZR elapsed / IZR (levelTransitionDuration g)) in
          if bool_decide (progress < 1) then g
          else if bool_decide (levelTransitionComplete g = Some false) then
            let g := set_levelTransitionComplete (Some true) g in
            let g := startNextLevel g in
            set_levelTransitionStartTime None g
          else regularFrame timestamp now g
        else regularFrame timestamp now g
    | None => regularFrame timestamp now g
    end.

(** Normal play: none of the guards that open [handleClick] holds. *)
Definition playing (g : t) : Prop :=
  isLevelTransitioning g = false /\ countdownActive g = false /\
  showingStartScreen g = false /\ showingInstructions g = false /\
  showingSummaryScreen g = false.

(** A pending timer fires: the host runs the callback registered at
    position [k]; a one-shot timer is then gone. *)
Definition fire (k : nat) (g : t) : t :=
  match timers g !! k with
  | None => g
  | Some tm =>
      match callback tm with
      | PushButterfly b =>
          let g := set_timers (delete k (timers g)) g in
          set_butterflies (butterflies g ++ [b]) g
      | CountdownTick => countdownTick k g
      end
  end.

(** What the host can deliver to a running game: a frame, a click as
    [handleClick] receives it, a timer that is due.  [handleClick] is the
    only click listener of play; the start, instructions and summary
    screens register listeners of their own ([showStartScreen],
    [showInstructions], [setupSummaryScreenListeners]), which are not
    modelled.  A [Click] is therefore a click as far as the play handler
    takes part in it: while one of those screens is showing the page does
    more with it than [step] says. *)
Inductive Event : Type :=
| Frame (timestamp perfNow : R) (now : Z)   (* requestAnimationFrame callback *)
| Click (px py : R)                         (* click on the canvas *)
| Timeout (k : nat).                        (* the k-th pending timer is due *)

Definition step (g : t) (e : Event) : t :=
  match e with
  | Frame timestamp perfNow now => gameLoop timestamp perfNow now g
  | Click px py => handleClick px py g
  | Timeout k => fire k g
  end.

Definition run (es : list Event) (g : t) : t := foldl step g es.

(** [getFormationForWave(wave, level)]; [None] is the [undefined] of an
    index outside the array. *)
Definition getFormationForWave (wave level : Z) (g : t) : option string * t :=
  let formations := ["line"; "v"; "circle"; "grid"; "random"]%string in
  if (level <=? 3)%Z then
    let '(r, g) := nextRandom g in
    (at_index formations (Math.floor (r * 2)), g)
  else if (level <=? 6)%Z then
    let '(r, g) := nextRandom g in
    (at_index formations (Math.floor (r * 4)), g)
  else
    let '(r, g) := nextRandom g in
    let idx := Math.floor (r * 5) in
    (at_index formations (if (idx >=? 3)%Z then idx else (idx + 2)%Z), g).

End Methods.

(** The [mousemove] listener registered by the constructor:
    [(e) => this.player.updatePosition(e)]. *)
Definition mouseMove (clientX clientY left top : R) (g : t) : t :=
  {| canvas := canvas g;
     player := Player.updatePosition clientX clientY left top (player g);
     isRunning := isRunning g;
     currentLevel := currentLevel g;
     maxLevel := maxLevel g;
     score := score g;
     butterflies := butterflies g;
     butterflyImages := butterflyImages g;
     currentWave := currentWave g;
     waveTimer := waveTimer g;
     isWaveTransitioning := isWaveTransitioning g;
     countdownActive := countdownActive g;
     countdownTime := countdownTime g;
     hasPlayedInitialCountdown := hasPlayedInitialCountdown g;
     isLevelTransitioning := isLevelTransitioning g;
     showingStartScreen := showingStartScreen g;
     showingInstructions := showingInstructions g;
     showingSummaryScreen := showingSummaryScreen g;
     showingNameInput := showingNameInput g;
     gameStarted := gameStarted g;
     butterflyCounts := butterflyCounts g;
     lastTimestamp := lastTimestamp g;
     levelTimer := levelTimer g;
     levelTransitionStartTime := levelTransitionStartTime g;
     levelTransitionDuration := levelTransitionDuration g;
     levelTransitionComplete := levelTransitionComplete g;
     timers := timers g;
     randomCalls := randomCalls g |}.

(** The total shown by [renderSummaryScreen()]:
    [for (let i = 1; i <= this.maxLevel; i++) totalCaught += this.butterflyCounts[i] || 0;] *)
Definition totalCaught (g : t) : Z :=
  for_range (Z.to_nat (maxLevel g)) 1%Z
    (fun i total =>
       (total + match butterflyCounts g !! i with
                | Some (Num n) => n
                | Some NaN | None => 0
                end)%Z) 0%Z.

(** Ten points per level for every catch the counters of levels 1 to
    [maxLevel] hold: the score that the catch counts account for. *)
Definition pointsOfCounts (g : t) : Z :=
  for_range (Z.to_nat (maxLevel g)) 1%Z
    (fun i total =>
       (total + 10 * i * match butterflyCounts g !! i with
                         | Some (Num n) => n
                         | Some NaN | None => 0
                         end)%Z) 0%Z.

(** JavaScript's [+] on two catch counts. *)
Definition addCount (a b : Count) : Count :=
  match a, b with
  | Num x, Num y => Num (x + y)
  | _, _ => NaN
  end.

(** The records [saveGameRecords] keeps in [localStorage]. *)
Module GameRecord.
Record t : Type := mk {
  playerName : string;
  date : string;
  score : Z;
  butterflyCounts : gmap Z Count;
  totalCaught : Count
}.
End GameRecord.

(** An element of the array kept under the key [butterflyGameRecords]: a
    value that was already stored, of which the code only knows that it is
    an element of the parsed array and which is kept here as its JSON text,
    or the record object that this call builds. *)
Inductive Entry : Type :=
| Old (json : string)
| New (record : GameRecord.t).

(** What [localStorage.getItem('butterflyGameRecords')] and [JSON.parse]
    give: no text (the key is absent or holds the empty string); a text that
    [JSON.parse] rejects, or a [getItem] that throws; a text that parses to
    a value that is not an array (a number, a string, a boolean, [null], an
    object); or a text that parses to an array.  The JSON text itself is not
    modelled. *)
Inductive Stored : Type :=
| Absent
| Unparsable
| NotAnArray
| Parsed (entries : list Entry).

(** The [record] object that [saveGameRecords] builds first; [date] is
    [new Date().toLocaleString()]. *)
Definition record (playerName date : string) (g : t) : GameRecord.t :=
  {| GameRecord.playerName := playerName;
     GameRecord.date := date;
     GameRecord.score := score g;
     GameRecord.butterflyCounts := butterflyCounts g;
     GameRecord.totalCaught :=
       map_fold (fun _ count sum => addCount sum count) (Num 0) (butterflyCounts g) |}.

(** [saveGameRecords(playerName)]; [setItemOk] tells whether
    [localStorage.setItem] succeeds.  [None] is the [TypeError] of
    [records.push(record)] when what was parsed is not an array: that
    statement is outside the [try] blocks, so the call ends there and
    writes nothing.  Otherwise the result is the content of the key
    afterwards.  The call of [window.highScoreSystem] that ends the method
    touches none of this and is left out. *)
Definition saveGameRecords (playerName date : string) (setItemOk : bool)
    (stored : Stored) (g : t) : option Stored :=
  let record := record playerName date g in
  let parsed :=
    match stored with
    | Parsed entries => Some entries
    | NotAnArray => None
    | Absent | Unparsable => Some []
    end in
  match parsed with
  | None => None
  | Some records =>
      let records := records ++ [New record] in
      let records :=
        if bool_decide (length records > 10)%nat
        then drop (length records - 10) records
        else records in
      Some (if setItemOk then Parsed records else stored)
  end.

(** Views of the state that forget the fields a group of methods may write;
    two states with the same view differ at most in those fields. *)

(** Everything but the butterflies and the random-number count. *)
Definition exceptSwarm (g : t) : t :=
  set_butterflies [] (set_randomCalls 0 g).

(** Everything but what a click may change. *)
Definition exceptCatch (g : t) : t :=
  set_butterflies [] (set_score 0 (set_butterflyCounts ∅ (set_randomCalls 0 g))).

(** Everything but what a frame without a spawn may change. *)
Definition exceptPlay (g : t) : t :=
  set_butterflies [] (set_randomCalls 0 (set_levelTimer None
    (set_isLevelTransitioning false (set_currentLevel 0
      (set_levelTransitionStartTime None (set_levelTransitionDuration 0
        (set_levelTransitionComplete None (set_isRunning false
          (set_showingSummaryScreen false (set_lastTimestamp 0 g)))))))))).

(** Everything but what a spawn may change. *)
Definition exceptSpawn (g : t) : t :=
  set_timers [] (set_randomCalls 0
    (set_levelTimer None (set_hasPlayedInitialCountdown false g))).

(** The insertions a regular-level spawn of level [lvl] schedules: fifteen
    one-shot timers, the i-th with a delay of [50 * i] ms. *)
Definition scheduledWave (lvl : Z) (ts : list Timer) : Prop :=
  length ts = 15%nat /\
  forall (i : nat) (tm : Timer),
    ts !! i = Some tm ->
    delay tm = (50 * Z.of_nat i)%Z /\
    repeats tm = false /\
    exists b, callback tm = PushButterfly b /\
              Butterfly.level b = lvl /\
              Butterfly.isBoss b = false /\
              Butterfly.health b = 1%Z.

(** From [g] to [g'] the level counter stays or goes up by one, the latter
    only below [maxLevel]; [maxLevel] itself is not touched. *)
Definition advancesByAtMostOne (g g' : t) : Prop :=
  maxLevel g' = maxLevel g /\
  (currentLevel g' = currentLevel g \/
   (currentLevel g' = currentLevel g + 1 /\ currentLevel g < maxLevel g))%Z.

(** The guard the specification asks of a deferred insertion: when the timer
    at position [k] fires in a state whose level is no longer the level
    [scheduledLevel] it was scheduled in, the live collection is left alone. *)
Definition dropsStaleInsertion (random : nat -> R) (scheduledLevel : Z) (k : nat) (g : t)
    : Prop :=
  currentLevel g <> scheduledLevel ->
  butterflies (fire random k g) = butterflies g.

(** Every insertion still pending, of this session or of an earlier one,
    carries a butterfly of one of the ten levels. *)
Definition validTimers (g : t) : Prop :=
  Forall (fun tm => forall b, callback tm = PushButterfly b ->
                              (1 <= Butterfly.level b <= 10)%Z) (timers g).

(** What holds of every state of a session: the level is one of the ten,
    every level has a numeric catch count, and every butterfly, live or
    pending, is of one of the ten levels. *)
Definition wellFormed (g : t) : Prop :=
  maxLevel g = 10%Z /\
  (1 <= currentLevel g <= 10)%Z /\
  (forall lvl, (1 <= lvl <= 10)%Z -> exists n, butterflyCounts g !! lvl = Some (Num n)) /\
  Forall (fun b => (1 <= Butterfly.level b <= 10)%Z) (butterflies g) /\
  validTimers g.

(** A butterfly of a level between 1 and [top] that carries the image
    loaded for its own level, [imgs] being the images in level order. *)
Definition ofLevelUpTo (imgs : list nat) (top : Z) (b : Butterfly.t) : Prop :=
  (1 <= Butterfly.level b <= top)%Z /\
  Butterfly.image b = imgs !! Z.to_nat (Butterfly.level b - 1).

(** A page that loaded its ten images in level order, in a state where no
    butterfly, live or pending, is of a level above the current one or
    carries the image of another level. *)
Definition ownSprites (imgs : list nat) (g : t) : Prop :=
  maxLevel g = 10%Z /\
  (1 <= currentLevel g <= 10)%Z /\
  butterflyImages g = imgs /\
  length imgs = 10%nat /\
  Forall (ofLevelUpTo imgs (currentLevel g)) (butterflies g) /\
  Forall (fun tm => forall b, callback tm = PushButterfly b ->
                              ofLevelUpTo imgs (currentLevel g) b) (timers g).

(** A pending one-shot insertion of butterfly [b]. *)
Definition isInsertion (tm : Timer) : Prop :=
  repeats tm = false /\ exists b, callback tm = PushButterfly b.

End Game.

(** ** A concrete page, used for the examples at the end *)

Module Sample.
Local Open Scope R_scope.

(** A [Math.random()] that returns 0 every time. *)
Definition zeros : nat -> R := fun _ => 0.

(** An 800 x 600 canvas, the freshly constructed game on it, and the game
    once its ten butterfly images are loaded. *)
Definition canvas : Canvas.t := Canvas.mk 800 600.
Definition fresh : Game.t := Game.new canvas.
Definition loaded : Game.t := Game.loadAssets fresh.

(** A level-1 butterfly left at the origin and one far to the left. *)
Definition near : Butterfly.t := Butterfly.new (Some 1%nat) 1.
Definition far : Butterfly.t := Butterfly.set_x (- 5000) near.

(** A boss as [spawnBossButterfly] makes it, before it is positioned. *)
Definition queen : Butterfly.t :=
  Butterfly.set_isBoss true (Butterfly.set_health 5 (Butterfly.new (Some 10%nat) 10)).

(** The centre of a butterfly, where a click is sure to be in range. *)
Definition centreX (b : Butterfly.t) : R := Butterfly.x b + Butterfly.width b / 2.
Definition centreY (b : Butterfly.t) : R := Butterfly.y b + Butterfly.height b / 2.

(** A running level-1 state with two butterflies on screen, [near] being the
    most recently spawned. *)
Definition twoOnScreen : Game.t :=
  Game.set_butterflies [far; near]
    (Game.set_countdownActive false (Game.start loaded)).

(** The same with the boss spawned after them. *)
Definition withQueen : Game.t :=
  Game.set_butterflies [far; near; queen]
    (Game.set_countdownActive false (Game.start loaded)).

(** The events of a session whose first level times out before any of its
    insertions has fired: three countdown ticks, then a frame more than ten
    seconds after the previous one, then a frame after the transition. *)
Definition countdownTicks : list Game.Event :=
  [Game.Timeout 0; Game.Timeout 0; Game.Timeout 0].
Definition lateFrames : list Game.Event :=
  [Game.Frame 13100 13100 1000000; Game.Frame 14200 14200 1001100].

(** The sample page with the insertion of a level-1 butterfly left pending
    by an earlier session, and the events of a new session in which that
    insertion fires, the countdown runs out and a click on the butterfly
    follows. *)
Definition pending : Game.t :=
  Game.set_timers [Game.mkTimer 0 false (Game.PushButterfly near)] loaded.
Definition untilPlay : list Game.Event :=
  [Game.Timeout 0; Game.Timeout 0; Game.Timeout 0; Game.Timeout 0].
Definition catchClick : Game.Event := Game.Click (centreX near) (centreY near).

End Sample.

(** * Properties of a single butterfly *)

Section ButterflyFacts.
Local Open Scope R_scope.

Variable random : nat -> R.
Variable canvas : Canvas.t.
Variable player : Player.t.

Local Abbreviation checkCatch := (Butterfly.checkCatch random player).
Local Abbreviation checkCatches := (Butterfly.checkCatches random player).
Local Abbreviation isCaught := (Butterfly.isCaught player).
Local Abbreviation update := (Butterfly.update random canvas).
Local Abbreviation updates := (Butterfly.updates random canvas).
Local Abbreviation beyondMargin := (Butterfly.beyondMargin canvas).

(** A hit on a boss that still has more than one hit point. *)
Lemma checkCatch_boss_hit (px py : R) (b : Butterfly.t) (k : nat) :
  isCaught px py b = true ->
  Butterfly.isBoss b = true ->
  (1 < Butterfly.health b)%Z ->
  exists b',
    checkCatch px py b k = (false, b', S k) /\
    Butterfly.health b' = (Butterfly.health b - 1)%Z /\
    Butterfly.speed b' = Butterfly.speed b * 1.1 /\
    Butterfly.direction b' = random k * PI * 2 /\
    Butterfly.vx b' = cos (Butterfly.direction b') * Butterfly.speed b' /\
    Butterfly.vy b' = sin (Butterfly.direction b') * Butterfly.speed b' /\
    Butterfly.isBoss b' = true /\
    (forall qx qy, isCaught qx qy b' = isCaught qx qy b).
Proof.
  intros Hin Hboss Hh.
  unfold Butterfly.checkCatch. rewrite Hin, Hboss. simpl.
  destruct (Z.eqb_spec (Butterfly.health b) 0) as [E | _]; [lia |]. simpl.
  destruct (Z.leb_spec (Butterfly.health b - 1) 0) as [E | _]; [lia |].
  eexists. split; [reflexivity |]. simpl. repeat split; auto.
Qed.

(** The hit that takes the last hit point. *)
Lemma checkCatch_boss_last (px py : R) (b : Butterfly.t) (k : nat) :
  isCaught px py b = true ->
  Butterfly.isBoss b = true ->
  Butterfly.health b = 1%Z ->
  checkCatch px py b k = (true, Butterfly.set_health 0 b, k).
Proof.
  intros Hin Hboss Hh.
  unfold Butterfly.checkCatch. rewrite Hin, Hboss, Hh. reflexivity.
Qed.

(** Anything but a boss answers with the distance test and is not touched. *)
Lemma checkCatch_not_boss (px py : R) (b : Butterfly.t) (k : nat) :
  Butterfly.isBoss b = false ->
  checkCatch px py b k = (isCaught px py b, b, k).
Proof.
  intros Hboss. unfold Butterfly.checkCatch. rewrite Hboss.
  now rewrite andb_false_r.
Qed.

(** A miss changes nothing, boss or not. *)
Lemma checkCatch_miss (px py : R) (b : Butterfly.t) (k : nat) :
  isCaught px py b = false ->
  checkCatch px py b k = (false, b, k).
Proof.
  intros Hout. unfold Butterfly.checkCatch. now rewrite Hout.
Qed.

Lemma checkCatches_app (l1 l2 : list (R * R)) :
  forall (b : Butterfly.t) (k : nat),
    checkCatches (l1 ++ l2) b k =
    let '(f1, b1, k1) := checkCatches l1 b k in
    let '(f2, b2, k2) := checkCatches l2 b1 k1 in
    (f1 ++ f2, b2, k2).
Proof.
  induction l1 as [| [px py] l1 IH]; intros b k; simpl.
  - now destruct (checkCatches l2 b k) as [[f2 b2] k2].
  - destruct (checkCatch px py b k) as [[flag b1] k1].
    rewrite IH.
    destruct (checkCatches l1 b1 k1) as [[f1 b1'] k1'].
    now destruct (checkCatches l2 b1' k1') as [[f2 b2] k2].
Qed.

(** [j] hits on a boss with more than [j] hit points: none of them catches
    it, each costs one hit point, speeds it up by 10% and draws one random
    number; where it can be caught from does not change. *)
Lemma boss_survives (j : nat) :
  forall (clicks : list (R * R)) (b : Butterfly.t) (k : nat),
    Butterfly.isBoss b = true ->
    (Z.of_nat j < Butterfly.health b)%Z ->
    length clicks = j ->
    Forall (fun p => isCaught p.1 p.2 b = true) clicks ->
    exists b',
      checkCatches clicks b k = (replicate j false, b', (k + j)%nat) /\
      Butterfly.health b' = (Butterfly.health b - Z.of_nat j)%Z /\
      Butterfly.speed b' = Butterfly.speed b * 1.1 ^ j /\
      Butterfly.isBoss b' = true /\
      (forall qx qy, isCaught qx qy b' = isCaught qx qy b).
Proof.
  induction j as [| j IH]; intros clicks b k Hboss Hh Hlen Hin.
  - destruct clicks; try discriminate. exists b. simpl.
    rewrite Nat.add_0_r, Z.sub_0_r. repeat split; auto. lra.
  - destruct clicks as [| [px py] rest]; try discriminate.
    apply Forall_cons in Hin as [Hin Hrest]. simpl in Hin.
    destruct (checkCatch_boss_hit px py b k Hin Hboss ltac:(lia))
      as (b1 & Hc & Hh1 & Hs1 & _ & _ & _ & Hb1 & Hsame).
    destruct (IH rest b1 (S k) Hb1 ltac:(lia) ltac:(simpl in Hlen; lia))
      as (b' & Hcs & Hh' & Hs' & Hb' & Hsame').
    { eapply Forall_impl; [exact Hrest |]. intros [qx qy] Hq. simpl in *.
      now rewrite Hsame. }
    exists b'. simpl. rewrite Hc, Hcs.
    split; [f_equal; lia |]. split; [lia |]. split; [rewrite Hs', Hs1; simpl; lra |].
    split; [assumption |]. intros qx qy. now rewrite Hsame', Hsame.
Qed.

(** A boss with [n + 1] hit points answers [n] hits with "not caught" and the
    next one with "caught"; every surviving hit costs one hit point, makes
    it 10% faster and draws one new heading. *)
Lemma boss_drain (n : nat) :
  forall (clicks : list (R * R)) (b : Butterfly.t) (k : nat),
    Butterfly.isBoss b = true ->
    Butterfly.health b = Z.of_nat (S n) ->
    length clicks = S n ->
    Forall (fun p => isCaught p.1 p.2 b = true) clicks ->
    exists b',
      checkCatches clicks b k = (replicate n false ++ [true], b', (k + n)%nat) /\
      Butterfly.health b' = 0%Z /\
      Butterfly.speed b' = Butterfly.speed b * 1.1 ^ n.
Proof.
  induction n as [| n IH]; intros clicks b k Hboss Hh Hlen Hin.
  - destruct clicks as [| [px py] [| ? ?]]; try discriminate.
    apply Forall_cons in Hin as [Hin _]. simpl in Hin.
    simpl. rewrite checkCatch_boss_last by assumption.
    eexists. split; [now rewrite Nat.add_0_r |]. simpl. split; [reflexivity | lra].
  - destruct clicks as [| [px py] rest]; try discriminate.
    apply Forall_cons in Hin as [Hin Hrest]. simpl in Hin.
    destruct (checkCatch_boss_hit px py b k Hin Hboss ltac:(lia))
      as (b1 & Hc & Hh1 & Hs1 & _ & _ & _ & Hb1 & Hsame).
    destruct (IH rest b1 (S k) Hb1 ltac:(lia) ltac:(simpl in Hlen; lia)) as (b' & Hcs & Hh' & Hs').
    { eapply Forall_impl; [exact Hrest |]. intros [qx qy] Hq. simpl in *.
      now rewrite Hsame. }
    exists b'. simpl. rewrite Hc, Hcs.
    split; [f_equal; lia |]. split; [assumption |].
    rewrite Hs', Hs1. simpl. lra.
Qed.

(** C4 -- boss health drain.  A boss butterfly with [health = 5] that is hit
    five times within catch range answers the first four calls of
    [checkCatch] with [false] and the fifth with [true].  Each of the first
    four calls takes one hit point, multiplies [speed] by 1.1, draws one new
    random number for [direction] and recomputes [vx] and [vy] from the new
    direction and speed.  A butterfly that is not a boss returns the result
    of the distance test and is left as it was. *)
Theorem boss_health_drain (b : Butterfly.t) (k : nat) (clicks : list (R * R)) :
  Butterfly.isBoss b = true ->
  Butterfly.health b = 5%Z ->
  length clicks = 5%nat ->
  Forall (fun p => isCaught p.1 p.2 b = true) clicks ->
  (checkCatches clicks b k).1.1 = [false; false; false; false; true] /\
  (forall (j : nat) (px py : R),
      (j < 4)%nat ->
      clicks !! j = Some (px, py) ->
      exists bj b',
        checkCatches (take j clicks) b k = (replicate j false, bj, (k + j)%nat) /\
        checkCatch px py bj (k + j)%nat = (false, b', S (k + j)) /\
        Butterfly.health bj = (5 - Z.of_nat j)%Z /\
        Butterfly.health b' = (Butterfly.health bj - 1)%Z /\
        Butterfly.speed b' = Butterfly.speed bj * 1.1 /\
        Butterfly.direction b' = random (k + j)%nat * PI * 2 /\
        Butterfly.vx b' = cos (Butterfly.direction b') * Butterfly.speed b' /\
        Butterfly.vy b' = sin (Butterfly.direction b') * Butterfly.speed b') /\
  (forall (nb : Butterfly.t) (px py : R) (k' : nat),
      Butterfly.isBoss nb = false ->
      checkCatch px py nb k' = (isCaught px py nb, nb, k')).
Proof.
  intros Hboss Hh Hlen Hin. split; [| split].
  - destruct (boss_drain 4 clicks b k Hboss Hh Hlen Hin) as (b' & Hc & _).
    now rewrite Hc.
  - intros j px py Hj Hlook.
    destruct (boss_survives j (take j clicks) b k Hboss ltac:(lia))
      as (bj & Hc & Hhj & _ & Hbj & Hsame).
    { rewrite length_take. lia. }
    { now apply Forall_take. }
    assert (Hhit : isCaught px py bj = true).
    { rewrite Hsame. rewrite Forall_lookup in Hin. exact (Hin j (px, py) Hlook). }
    destruct (checkCatch_boss_hit px py bj (k + j) Hhit Hbj ltac:(lia))
      as (b' & Hc' & Hh' & Hs' & Hd' & Hvx & Hvy & _).
    exists bj, b'. repeat split; try assumption. lia.
  - intros nb px py k' Hnb. now apply checkCatch_not_boss.
Qed.

(** ** Off-screen pruning *)

Ltac split_ifs :=
  repeat match goal with
         | |- context [if ?c then _ else _] =>
             let E := fresh "E" in destruct c eqn:E; simpl
         end.

Ltac bool_hyp H :=
  repeat progress
    rewrite ?orb_true_iff, ?orb_false_iff, ?andb_true_iff, ?andb_false_iff,
      ?negb_true_iff, ?negb_false_iff, ?bool_decide_eq_true, ?bool_decide_eq_false in H.

Ltac bool_hyps :=
  repeat match goal with
         | H : _ = true |- _ => progress bool_hyp H
         | H : _ = false |- _ => progress bool_hyp H
         end.

(** The last block raises the flag exactly for a butterfly that has crossed
    and is beyond the margin; it moves nothing. *)
Lemma pruneOffScreen_spec (b : Butterfly.t) :
  (Butterfly.shouldRemove (Butterfly.pruneOffScreen canvas b) = true <->
   Butterfly.shouldRemove b = true \/
   (Butterfly.hasCrossedScreen b = true /\ beyondMargin b)) /\
  Butterfly.x (Butterfly.pruneOffScreen canvas b) = Butterfly.x b /\
  Butterfly.y (Butterfly.pruneOffScreen canvas b) = Butterfly.y b /\
  Butterfly.hasCrossedScreen (Butterfly.pruneOffScreen canvas b) =
  Butterfly.hasCrossedScreen b.
Proof.
  unfold Butterfly.pruneOffScreen, Butterfly.beyondMargin.
  destruct (Butterfly.hasCrossedScreen b) eqn:Hc; split_ifs; bool_hyps;
    repeat split; try reflexivity; try assumption; intuition (try lra; try congruence).
Qed.

(** The crossing block keeps the position and the removal flag; when it
    raises [hasCrossedScreen] the butterfly is inside the canvas, hence not
    beyond the margin. *)
Lemma trackCrossing_spec (b : Butterfly.t) :
  Butterfly.x (Butterfly.trackCrossing canvas b) = Butterfly.x b /\
  Butterfly.y (Butterfly.trackCrossing canvas b) = Butterfly.y b /\
  Butterfly.shouldRemove (Butterfly.trackCrossing canvas b) = Butterfly.shouldRemove b /\
  (Butterfly.hasCrossedScreen b = true ->
   Butterfly.hasCrossedScreen (Butterfly.trackCrossing canvas b) = true) /\
  (Butterfly.hasCrossedScreen b = false ->
   Butterfly.hasCrossedScreen (Butterfly.trackCrossing canvas b) = true ->
   ~ beyondMargin b).
Proof.
  unfold Butterfly.trackCrossing, Butterfly.beyondMargin.
  destruct (Butterfly.hasCrossedScreen b) eqn:Hc; split_ifs; bool_hyps;
    repeat split; try reflexivity; try congruence; intros; try lra; try congruence;
    intuition lra.
Qed.

(** The first three blocks touch neither of the two flags. *)
Lemma advance_wobble_flap_flags (deltaTime : R) (b : Butterfly.t) (k : nat) :
  Butterfly.hasCrossedScreen
    (Butterfly.advance deltaTime
       (Butterfly.wobble random (Butterfly.flapWings deltaTime b) k).1) =
  Butterfly.hasCrossedScreen b /\
  Butterfly.shouldRemove
    (Butterfly.advance deltaTime
       (Butterfly.wobble random (Butterfly.flapWings deltaTime b) k).1) =
  Butterfly.shouldRemove b.
Proof.
  unfold Butterfly.advance, Butterfly.wobble, Butterfly.flapWings.
  split_ifs; now split.
Qed.

Lemma update_unfold (deltaTime : R) (b : Butterfly.t) (k : nat) :
  (update deltaTime b k).1 =
  Butterfly.pruneOffScreen canvas
    (Butterfly.trackCrossing canvas
       (Butterfly.advance deltaTime
          (Butterfly.wobble random (Butterfly.flapWings deltaTime b) k).1)).
Proof.
  unfold Butterfly.update.
  now destruct (Butterfly.wobble random (Butterfly.flapWings deltaTime b) k).
Qed.

(** [update] only ever raises [hasCrossedScreen]. *)
Lemma update_hasCrossedScreen_mono (deltaTime : R) (b : Butterfly.t) (k : nat) :
  Butterfly.hasCrossedScreen b = true ->
  Butterfly.hasCrossedScreen (update deltaTime b k).1 = true.
Proof.
  intros Hc. rewrite update_unfold.
  destruct (advance_wobble_flap_flags deltaTime b k) as [Hc' _].
  set (b1 := Butterfly.advance _ _) in *.
  destruct (trackCrossing_spec b1) as (_ & _ & _ & Hkeep & _).
  destruct (pruneOffScreen_spec (Butterfly.trackCrossing canvas b1)) as (_ & _ & _ & Hp).
  rewrite Hp. apply Hkeep. congruence.
Qed.

(** A butterfly that had not crossed the screen before the call keeps its
    [shouldRemove] flag, wherever the call moves it. *)
Lemma update_not_crossed (deltaTime : R) (b : Butterfly.t) (k : nat) :
  Butterfly.hasCrossedScreen b = false ->
  Butterfly.shouldRemove (update deltaTime b k).1 = Butterfly.shouldRemove b.
Proof.
  intros Hc. rewrite update_unfold.
  destruct (advance_wobble_flap_flags deltaTime b k) as [Hc' Hr'].
  set (b1 := Butterfly.advance _ _) in *.
  destruct (trackCrossing_spec b1) as (Hx & Hy & Hr & _ & Hvis).
  set (b2 := Butterfly.trackCrossing canvas b1) in *.
  destruct (pruneOffScreen_spec b2) as (Hiff & _).
  apply eq_iff_eq_true. rewrite Hiff. split.
  - intros [E | [Hc2 Hb]]; [congruence |].
    exfalso. apply Hvis; [congruence | assumption |].
    unfold Butterfly.beyondMargin in *. now rewrite <- Hx, <- Hy.
  - intros E. left. congruence.
Qed.

(** Once it has crossed, the flag is raised exactly by the margin test on
    the position reached by the call. *)
Lemma update_crossed (deltaTime : R) (b : Butterfly.t) (k : nat) :
  Butterfly.hasCrossedScreen b = true ->
  Butterfly.shouldRemove (update deltaTime b k).1 = true <->
  Butterfly.shouldRemove b = true \/ beyondMargin (update deltaTime b k).1.
Proof.
  intros Hc. rewrite update_unfold.
  destruct (advance_wobble_flap_flags deltaTime b k) as [Hc' Hr'].
  set (b1 := Butterfly.advance _ _) in *.
  destruct (trackCrossing_spec b1) as (Hx & Hy & Hr & Hkeep & _).
  set (b2 := Butterfly.trackCrossing canvas b1) in *.
  destruct (pruneOffScreen_spec b2) as (Hiff & Hx2 & Hy2 & _).
  rewrite Hiff, Hr, Hr'.
  assert (Hb : beyondMargin (Butterfly.pruneOffScreen canvas b2) <-> beyondMargin b2).
  { unfold Butterfly.beyondMargin. now rewrite Hx2, Hy2. }
  assert (Hc2 : Butterfly.hasCrossedScreen b2 = true) by (apply Hkeep; congruence).
  rewrite Hb. tauto.
Qed.

(** Over any number of frames: a butterfly that has still not crossed the
    screen at the end has its [shouldRemove] flag untouched. *)
Lemma updates_not_crossed (deltaTimes : list R) :
  forall (b : Butterfly.t) (k : nat),
    Butterfly.hasCrossedScreen (updates deltaTimes b k).1 = false ->
    Butterfly.shouldRemove (updates deltaTimes b k).1 = Butterfly.shouldRemove b.
Proof.
  induction deltaTimes as [| deltaTime rest IH]; intros b k Hend; [reflexivity |].
  simpl in *.
  pose proof (update_hasCrossedScreen_mono deltaTime b k) as Hmono.
  pose proof (update_not_crossed deltaTime b k) as Hstep.
  destruct (update deltaTime b k) as [b1 k1]. simpl in *.
  rewrite (IH b1 k1 Hend). apply Hstep.
  destruct (Butterfly.hasCrossedScreen b) eqn:Hc; [| reflexivity].
  assert (Hall : forall l b' k', Butterfly.hasCrossedScreen b' = true ->
                   Butterfly.hasCrossedScreen (updates l b' k').1 = true).
  { clear. induction l as [| d l IHl]; intros b' k' Hb'; [assumption |].
    simpl. pose proof (update_hasCrossedScreen_mono d b' k' Hb') as Hm.
    destruct (update d b' k') as [b2 k2]. now apply IHl. }
  rewrite (Hall rest b1 k1 (Hmono eq_refl)) in Hend. discriminate.
Qed.

(** Where a call of [update] takes a butterfly that does not wobble. *)
Lemma update_position (deltaTime : R) (b : Butterfly.t) (k : nat) :
  Butterfly.movementPattern b <> "direct"%string ->
  Butterfly.x (update deltaTime b k).1 = Butterfly.x b + Butterfly.vx b * deltaTime /\
  Butterfly.y (update deltaTime b k).1 = Butterfly.y b + Butterfly.vy b * deltaTime.
Proof.
  intros Hp. rewrite update_unfold.
  destruct (pruneOffScreen_spec
              (Butterfly.trackCrossing canvas
                 (Butterfly.advance deltaTime
                    (Butterfly.wobble random (Butterfly.flapWings deltaTime b) k).1)))
    as (_ & -> & -> & _).
  destruct (trackCrossing_spec
              (Butterfly.advance deltaTime
                 (Butterfly.wobble random (Butterfly.flapWings deltaTime b) k).1))
    as (-> & -> & _).
  unfold Butterfly.wobble. simpl.
  apply String.eqb_neq in Hp. rewrite Hp. now split.
Qed.

(** C5 -- off-screen pruning.  A call of [update] on a butterfly whose
    [hasCrossedScreen] is false leaves [shouldRemove] as it was, whatever
    the position, and so does any sequence of calls after which the flag is
    still false.  On a butterfly whose [hasCrossedScreen] is true, the call
    raises [shouldRemove] exactly when the position it reaches has
    [x < -100], [x > width + 100], [y < -100] or [y > height + 100]. *)
Theorem offscreen_pruning (b : Butterfly.t) (k : nat) (deltaTime : R) :
  (Butterfly.hasCrossedScreen b = false ->
   Butterfly.shouldRemove (update deltaTime b k).1 = Butterfly.shouldRemove b) /\
  (forall deltaTimes : list R,
      Butterfly.hasCrossedScreen (updates deltaTimes b k).1 = false ->
      Butterfly.shouldRemove (updates deltaTimes b k).1 = Butterfly.shouldRemove b) /\
  (Butterfly.hasCrossedScreen b = true ->
   (Butterfly.shouldRemove (update deltaTime b k).1 = true <->
    Butterfly.shouldRemove b = true \/ beyondMargin (update deltaTime b k).1) /\
   (Butterfly.shouldRemove b = false ->
    (Butterfly.shouldRemove (update deltaTime b k).1 = true <->
     beyondMargin (update deltaTime b k).1))).
Proof.
  split; [apply update_not_crossed |]. split; [intros; now apply updates_not_crossed |].
  intros Hc. pose proof (update_crossed deltaTime b k Hc) as Hiff.
  split; [exact Hiff |]. intros Hr. rewrite Hiff, Hr.
  split; [intros [? | ?]; [discriminate | assumption] | now right].
Qed.
End ButterflyFacts.

(** * Properties of the game state *)

Section GameFacts.
Local Open Scope R_scope.

Variable random : nat -> R.

Local Abbreviation checkCatch := (Butterfly.checkCatch random).
Local Abbreviation catches := (Butterfly.catches random).
Local Abbreviation sweep := (Game.sweep random).
Local Abbreviation catchLoop := (Game.catchLoop random).
Local Abbreviation handleClick := (Game.handleClick random).

(** ** Clicks *)

Lemma set_randomCalls_id (g : Game.t) : Game.set_randomCalls (Game.randomCalls g) g = g.
Proof. now destruct g. Qed.

Lemma set_butterflies_id (g : Game.t) : Game.set_butterflies (Game.butterflies g) g = g.
Proof. now destruct g. Qed.

Lemma set_absorb (l l' : list Butterfly.t) (k k' : nat) (g : Game.t) :
  Game.set_butterflies l
    (Game.set_randomCalls k (Game.set_butterflies l' (Game.set_randomCalls k' g))) =
  Game.set_butterflies l (Game.set_randomCalls k g).
Proof. now destruct g. Qed.

Lemma checkCatch_flag (pl : Player.t) (px py : R) (b : Butterfly.t) (k : nat) :
  (checkCatch pl px py b k).1.1 = catches pl px py b.
Proof.
  unfold Butterfly.catches, Butterfly.checkCatch.
  repeat match goal with |- context [if ?c then _ else _] => destruct c end; reflexivity.
Qed.

Lemma catches_in_range (pl : Player.t) (px py : R) (b : Butterfly.t) :
  catches pl px py b = true -> Butterfly.isCaught pl px py b = true.
Proof.
  unfold Butterfly.catches, Butterfly.checkCatch.
  destruct (Butterfly.isCaught pl px py b); [reflexivity |]. simpl. discriminate.
Qed.

Lemma checkCatch_level (pl : Player.t) (px py : R) (b : Butterfly.t) (k : nat) :
  Butterfly.level (checkCatch pl px py b k).1.2 = Butterfly.level b.
Proof.
  unfold Butterfly.checkCatch.
  repeat match goal with |- context [if ?c then _ else _] => destruct c end; reflexivity.
Qed.

Lemma sweep_length (pl : Player.t) (px py : R) (l : list Butterfly.t) :
  forall k, length (sweep px py pl l k).1 = length l.
Proof.
  induction l as [| c rest IH]; intros k; [reflexivity |]. simpl.
  specialize (IH k). destruct (sweep px py pl rest k) as [rest' k1].
  destruct (checkCatch pl px py c k1) as [[flag c'] k2]. simpl in *. now rewrite IH.
Qed.

Lemma sweep_app (pl : Player.t) (px py : R) (l1 l2 : list Butterfly.t) :
  forall k,
    sweep px py pl (l1 ++ l2) k =
    let '(l2', k1) := sweep px py pl l2 k in
    let '(l1', k2) := sweep px py pl l1 k1 in
    (l1' ++ l2', k2).
Proof.
  induction l1 as [| c l1 IH]; intros k; simpl.
  - now destruct (sweep px py pl l2 k).
  - rewrite IH. destruct (sweep px py pl l2 k) as [l2' k1].
    destruct (sweep px py pl l1 k1) as [l1' k2].
    now destruct (checkCatch pl px py c k2) as [[flag c'] k3].
Qed.

(** Butterflies out of range are not touched and draw no random number. *)
Lemma sweep_out_of_range (pl : Player.t) (px py : R) (l : list Butterfly.t) :
  forall k,
    Forall (fun c => Butterfly.isCaught pl px py c = false) l ->
    sweep px py pl l k = (l, k).
Proof.
  induction l as [| c rest IH]; intros k Hall; [reflexivity |].
  apply Forall_cons in Hall as [Hc Hrest]. simpl.
  rewrite (IH k Hrest).
  unfold Butterfly.checkCatch. now rewrite Hc.
Qed.

(** The loop over a run of butterflies none of which is caught. *)
Lemma catchLoop_sweep (px py : R) (post : list Butterfly.t) :
  forall (pre done : list Butterfly.t) (g : Game.t),
    Game.butterflies g = pre ++ post ++ done ->
    Forall (fun c => catches (Game.player g) px py c = false) post ->
    catchLoop px py (length pre + length post) g =
    catchLoop px py (length pre)
      (Game.set_butterflies
         (pre ++ (sweep px py (Game.player g) post (Game.randomCalls g)).1 ++ done)
         (Game.set_randomCalls
            (sweep px py (Game.player g) post (Game.randomCalls g)).2 g)).
Proof.
  induction post as [| c post IH] using rev_ind; intros pre done g Hbs Hall.
  - simpl in *. rewrite Nat.add_0_r, set_randomCalls_id, <- Hbs, set_butterflies_id.
    reflexivity.
  - apply Forall_app in Hall as [Hpost Hc]. apply Forall_cons in Hc as [Hc _].
    rewrite length_app. simpl.
    replace (length pre + (length post + 1))%nat with (S (length pre + length post)) by lia.
    simpl.
    assert (Hlook : Game.butterflies g !! (length pre + length post)%nat = Some c).
    { rewrite Hbs, <- app_assoc, app_assoc.
      rewrite lookup_app_r by (rewrite length_app; lia).
      rewrite length_app. now replace (_ - _)%nat with 0%nat by lia. }
    rewrite Hlook.
    pose proof (checkCatch_flag (Game.player g) px py c (Game.randomCalls g)) as Hflag.
    rewrite Hc in Hflag.
    destruct (checkCatch (Game.player g) px py c (Game.randomCalls g))
      as [[flag c'] k1] eqn:Hcc.
    simpl in Hflag. subst flag.
    rewrite sweep_app. cbn [Game.sweep]. rewrite Hcc.
    set (g1 := Game.set_butterflies _ (Game.set_randomCalls k1 g)).
    assert (Hbs1 : Game.butterflies g1 = pre ++ post ++ c' :: done).
    { subst g1. cbn. rewrite Hbs.
      rewrite insert_app_r_alt by lia.
      rewrite <- app_assoc, insert_app_r_alt by lia.
      repeat f_equal. now replace (_ - _ - _)%nat with 0%nat by lia. }
    rewrite (IH pre (c' :: done) g1 Hbs1 Hpost).
    change (Game.player g1) with (Game.player g).
    change (Game.randomCalls g1) with k1.
    destruct (sweep px py (Game.player g) post k1) as [post' k2].
    cbn [fst snd]. subst g1. rewrite set_absorb. now rewrite <- app_assoc.
Qed.

(** The iteration that catches: the butterfly at the index is removed and
    paid for, and the loop stops. *)
Lemma catchLoop_catch (px py : R) (pre done : list Butterfly.t) (b : Butterfly.t)
    (g : Game.t) :
  Game.butterflies g = pre ++ b :: done ->
  catches (Game.player g) px py b = true ->
  catchLoop px py (S (length pre)) g =
  Game.set_butterflies (pre ++ done)
    (Game.set_butterflyCounts
       (Game.incrementCount (Butterfly.level b) (Game.butterflyCounts g))
       (Game.set_score (Game.score g + Butterfly.level b * 10)%Z
          (Game.set_randomCalls
             (checkCatch (Game.player g) px py b (Game.randomCalls g)).2 g))).
Proof.
  intros Hbs Hc. cbn [Game.catchLoop].
  assert (Hlook : Game.butterflies g !! length pre = Some b).
  { rewrite Hbs, lookup_app_r by lia. now rewrite Nat.sub_diag. }
  rewrite Hlook.
  pose proof (checkCatch_flag (Game.player g) px py b (Game.randomCalls g)) as Hflag.
  pose proof (checkCatch_level (Game.player g) px py b (Game.randomCalls g)) as Hlvl.
  rewrite Hc in Hflag.
  destruct (checkCatch (Game.player g) px py b (Game.randomCalls g)) as [[flag b'] k1].
  cbn [fst snd] in *. subst flag. cbn. rewrite Hlvl, Hbs.
  replace (delete (length pre) (<[length pre:=b']> (pre ++ b :: done))) with (pre ++ done).
  - now destruct g.
  - rewrite insert_app_r_alt, Nat.sub_diag by lia. cbn.
    now rewrite delete_middle.
Qed.

(** [handleClick] when the click catches [b] and nothing spawned after it. *)
Lemma handleClick_catch (px py : R) (pre post : list Butterfly.t) (b : Butterfly.t)
    (g : Game.t) :
  Game.playing g ->
  Game.butterflies g = pre ++ b :: post ->
  catches (Game.player g) px py b = true ->
  Forall (fun c => catches (Game.player g) px py c = false) post ->
  handleClick px py g =
  Game.set_butterflies
    (pre ++ (sweep px py (Game.player g) post (Game.randomCalls g)).1)
    (Game.set_butterflyCounts
       (Game.incrementCount (Butterfly.level b) (Game.butterflyCounts g))
       (Game.set_score (Game.score g + Butterfly.level b * 10)%Z
          (Game.set_randomCalls
             (checkCatch (Game.player g) px py b
                (sweep px py (Game.player g) post (Game.randomCalls g)).2).2 g))).
Proof.
  intros (Ht & Hcd & Hs1 & Hs2 & Hs3) Hbs Hc Hpost.
  unfold Game.handleClick. rewrite Ht, Hcd, Hs1, Hs2, Hs3. cbn [orb].
  rewrite Hbs, length_app. cbn [length].
  replace (length pre + S (length post))%nat
    with (length (pre ++ [b]) + length post)%nat by (rewrite length_app; simpl; lia).
  rewrite (catchLoop_sweep px py post (pre ++ [b]) [] g)
    by (rewrite ?app_nil_r, <- ?app_assoc; assumption).
  rewrite length_app. cbn [length]. rewrite Nat.add_1_r.
  destruct (sweep px py (Game.player g) post (Game.randomCalls g)) as [post' k1].
  cbn [fst snd]. rewrite app_nil_r, <- app_assoc. cbn [app].
  rewrite (catchLoop_catch px py pre post' b) by (try reflexivity; assumption).
  now destruct g.
Qed.

(** [handleClick] when no butterfly is within catch range. *)
Lemma handleClick_miss (px py : R) (g : Game.t) :
  Forall (fun c => Butterfly.isCaught (Game.player g) px py c = false)
    (Game.butterflies g) ->
  handleClick px py g = g.
Proof.
  intros Hall. unfold Game.handleClick.
  destruct (_ || _); [reflexivity |]. destruct (_ || _); [reflexivity |].
  pose proof (catchLoop_sweep px py (Game.butterflies g) [] [] g) as Hs.
  cbn [length Nat.add app] in Hs. rewrite Hs.
  - rewrite sweep_out_of_range by assumption. cbn [fst snd Game.catchLoop].
    now rewrite app_nil_r, set_randomCalls_id, set_butterflies_id.
  - now rewrite app_nil_r.
  - eapply Forall_impl; [exact Hall |]. intros c Hc.
    unfold Butterfly.catches, Butterfly.checkCatch. now rewrite Hc.
Qed.

(** ** Which fields each method can change *)

Local Abbreviation positionButterflyInFormation := (Game.positionButterflyInFormation random).
Local Abbreviation spawnBossButterfly := (Game.spawnBossButterfly random).
Local Abbreviation actuallySpawnButterflies := (Game.actuallySpawnButterflies random).
Local Abbreviation spawnButterflies := (Game.spawnButterflies random).
Local Abbreviation countdownTick := (Game.countdownTick random).
Local Abbreviation startNextLevel := (Game.startNextLevel random).
Local Abbreviation updateButterflies := (Game.updateButterflies random).
Local Abbreviation spawnExtraGroup := (Game.spawnExtraGroup random).
Local Abbreviation update := (Game.update random).
Local Abbreviation gameLoop := (Game.gameLoop random).
Local Abbreviation fire := (Game.fire random).
Local Abbreviation step := (Game.step random).
Local Abbreviation run := (Game.run random).

(** A loop invariant for [for_range]. *)
Lemma for_range_invariant {St : Type} (P : Z -> St -> Prop) (body : Z -> St -> St)
    (n : nat) :
  forall (i : Z) (s : St),
    P i s ->
    (forall j s', (i <= j < i + Z.of_nat n)%Z -> P j s' -> P (j + 1)%Z (body j s')) ->
    P (i + Z.of_nat n)%Z (Game.for_range n i body s).
Proof.
  induction n as [| n IH]; intros i s Hinit Hbody.
  - now rewrite Z.add_0_r.
  - cbn [Game.for_range].
    replace (i + Z.of_nat (S n))%Z with ((i + 1) + Z.of_nat n)%Z by lia.
    apply IH.
    + apply Hbody; [lia | assumption].
    + intros j s' Hj. apply Hbody. lia.
Qed.

(** Positioning a butterfly only draws random numbers from the game. *)
Lemma positionButterflyInFormation_game (b : Butterfly.t) (formation : string)
    (index count : Z) (spawnSide : option Z) (g : Game.t) :
  exists k,
    (positionButterflyInFormation b formation index count spawnSide g).2 =
    Game.set_randomCalls k g.
Proof.
  unfold Game.positionButterflyInFormation.
  destruct spawnSide as [side |]; cbn;
    repeat match goal with |- context [if ?c then _ else _] => destruct c; cbn end;
    eexists; destruct g; reflexivity.
Qed.

(** ** The boss level *)

Lemma new_level10 (img : option nat) :
  Butterfly.width (Butterfly.new img 10) = 35 /\
  Butterfly.height (Butterfly.new img 10) = 35 /\
  Butterfly.catchRadius (Butterfly.new img 10) = 15 /\
  Butterfly.speed (Butterfly.new img 10) = 230.
Proof.
  cbn. unfold Math.max, Rmax.
  repeat match goal with |- context [Rle_dec ?a ?b] => destruct (Rle_dec a b) end;
    repeat split; lra.
Qed.

(** C7 -- the level-10 spawn.  [spawnBossButterfly] schedules exactly nine
    insertions and inserts nothing directly.  The first, with a delay of
    1000 ms, is the boss: a level-10 butterfly with width and height
    multiplied by 2.5, catch radius by 0.7 and speed by 0.8, [health = 5] and
    [isBoss = true].  The other eight are level-9 minions: minion [i] sits on
    the circle of radius 150 around the canvas centre at angle [2 * PI * i / 8],
    heads outward along that angle and has a delay of [500 + 100 * i] ms. *)
Theorem boss_level_spawn (g : Game.t) :
  exists (boss : Butterfly.t) (minions : list Butterfly.t),
    Game.timers (spawnBossButterfly g) =
      Game.timers g ++
      Game.mkTimer 1000 false (Game.PushButterfly boss) ::
      imap (fun i m => Game.mkTimer (500 + 100 * Z.of_nat i) false (Game.PushButterfly m))
        minions /\
    Game.butterflies (spawnBossButterfly g) = Game.butterflies g /\
    length minions = 8%nat /\
    Butterfly.level boss = 10%Z /\
    Butterfly.isBoss boss = true /\
    Butterfly.health boss = 5%Z /\
    Butterfly.width boss =
      Butterfly.width (Butterfly.new (Butterfly.image boss) 10) * 2.5 /\
    Butterfly.height boss =
      Butterfly.height (Butterfly.new (Butterfly.image boss) 10) * 2.5 /\
    Butterfly.catchRadius boss =
      Butterfly.catchRadius (Butterfly.new (Butterfly.image boss) 10) * 0.7 /\
    Butterfly.speed boss =
      Butterfly.speed (Butterfly.new (Butterfly.image boss) 10) * 0.8 /\
    (Butterfly.width boss = 87.5 /\ Butterfly.height boss = 87.5 /\
     Butterfly.catchRadius boss = 10.5 /\ Butterfly.speed boss = 184) /\
    (forall (i : nat) (m : Butterfly.t),
        minions !! i = Some m ->
        let angle := 2 * PI * IZR (Z.of_nat i) / 8 in
        Butterfly.level m = 9%Z /\
        Butterfly.isBoss m = false /\
        Butterfly.health m = 1%Z /\
        Butterfly.x m = Canvas.width (Game.canvas g) / 2 + cos angle * 150 /\
        Butterfly.y m = Canvas.height (Game.canvas g) / 2 + sin angle * 150 /\
        Butterfly.direction m = angle /\
        Butterfly.vx m = cos angle * Butterfly.speed m /\
        Butterfly.vy m = sin angle * Butterfly.speed m).
Proof.
  unfold Game.spawnBossButterfly.
  cbn -[Butterfly.new cos sin PI IZR Rmult Rplus Rdiv Z.add Z.mul].
  unfold Game.setTimeout.
  cbn -[Butterfly.new cos sin PI IZR Rmult Rplus Rdiv Z.add Z.mul].
  rewrite <- !app_assoc. cbn [app].
  eexists _, [_; _; _; _; _; _; _; _].
  split; [reflexivity |]. split; [reflexivity |]. split; [reflexivity |].
  split; [reflexivity |]. split; [reflexivity |]. split; [reflexivity |].
  split; [reflexivity |]. split; [reflexivity |]. split; [reflexivity |].
  split; [reflexivity |]. split.
  { destruct (new_level10 (Game.butterflyImages g !! Z.to_nat 9))
      as (Hw & Hh & Hc & Hs).
    cbn -[Butterfly.new]. rewrite Hw, Hh, Hc, Hs. repeat split; lra. }
  intros i m Hi. cbv zeta.
  replace (2 * PI * IZR (Z.of_nat i) / 8) with (IZR (Z.of_nat i) / 8 * PI * 2) by lra.
  do 8 (destruct i as [| i]; [injection Hi as <-; repeat split; reflexivity |]).
  discriminate.
Qed.

(** ** Placing a spawned butterfly *)

Lemma floor_random_times (r : R) (n : Z) :
  0 <= r < 1 -> (0 < n)%Z -> (0 <= Math.floor (r * IZR n) <= n - 1)%Z.
Proof.
  intros Hr Hn. unfold Math.floor.
  destruct (base_Int_part (r * IZR n)) as [Hle Hgt].
  assert (Hn' : 0 < IZR n) by (now apply IZR_lt).
  split.
  - assert (H : (-1 < Int_part (r * IZR n))%Z); [| lia].
    apply lt_IZR. nra.
  - assert (H : (Int_part (r * IZR n) < n)%Z); [| lia].
    apply lt_IZR. nra.
Qed.

(** The result of [positionButterflyInFormation] for a given edge; [k] is
    the number of [Math.random()] calls made when the crossing point is
    drawn. *)
Lemma position_at_edge (b : Butterfly.t) (formation : string) (index count edge : Z)
    (g : Game.t) :
  (0 <= edge <= 3)%Z ->
  let k := Game.randomCalls g in
  let W := Canvas.width (Game.canvas g) in
  let H := Canvas.height (Game.canvas g) in
  let crossingX := W * (0.2 + random k * 0.6) in
  let crossingY := H * (0.2 + random (S k) * 0.6) in
  let b' := (positionButterflyInFormation b formation index count (Some edge) g).1 in
  (positionButterflyInFormation b formation index count (Some edge) g).2 =
    Game.set_randomCalls (4 + k) g /\
  Butterfly.crossingPoint b' = Some (crossingX, crossingY) /\
  (edge = 0%Z -> Butterfly.x b' = W * random (2 + k)%nat /\
                 Butterfly.y b' = - Butterfly.height b * 2) /\
  (edge = 1%Z -> Butterfly.x b' = W + Butterfly.width b /\
                 Butterfly.y b' = H * random (2 + k)%nat) /\
  (edge = 2%Z -> Butterfly.x b' = W * random (2 + k)%nat /\
                 Butterfly.y b' = H + Butterfly.height b) /\
  (edge = 3%Z -> Butterfly.x b' = - Butterfly.width b * 2 /\
                 Butterfly.y b' = H * random (2 + k)%nat) /\
  Butterfly.direction b' =
    Math.atan2 (crossingY - Butterfly.y b') (crossingX - Butterfly.x b') +
    (random (3 + k)%nat - 0.5) * PI / 4 /\
  Butterfly.vx b' = cos (Butterfly.direction b') * Butterfly.speed b' /\
  Butterfly.vy b' = sin (Butterfly.direction b') * Butterfly.speed b' /\
  Butterfly.speed b' = Butterfly.speed b /\
  Butterfly.width b' = Butterfly.width b /\
  Butterfly.height b' = Butterfly.height b /\
  Butterfly.level b' = Butterfly.level b /\
  Butterfly.movementPattern b' = "direct"%string.
Proof.
  intros Hedge. cbv zeta.
  assert (Hcases : edge = 0%Z \/ edge = 1%Z \/ edge = 2%Z \/ edge = 3%Z) by lia.
  unfold Game.positionButterflyInFormation.
  destruct Hcases as [-> | [-> | [-> | ->]]]; cbn -[Math.atan2 cos sin PI];
    (split; [now destruct g |]);
    repeat split; try reflexivity; try discriminate.
Qed.

(** Without a [spawnSide] argument the edge is drawn first. *)
Lemma position_random_edge (b : Butterfly.t) (formation : string) (index count : Z)
    (g : Game.t) :
  positionButterflyInFormation b formation index count None g =
  positionButterflyInFormation b formation index count
    (Some (Math.floor (random (Game.randomCalls g) * 4)))
    (Game.set_randomCalls (S (Game.randomCalls g)) g).
Proof. reflexivity. Qed.

(** C6, as the code has it -- placing a spawned butterfly.  For every spawn
    edge (given, or drawn as [floor (4 * Math.random())], which is one of
    0..3), with [k] the number of the draw that follows the choice of the
    edge: the crossing point is [(W * (0.2 + 0.6 r1), H * (0.2 + 0.6 r2))]
    for the draws [r1 = random k] and [r2 = random (k + 1)], hence within
    20%-80% of the canvas on each axis; the butterfly is put outside the
    chosen edge, at [y = -2 * height] for the top edge, [x = W + width] for
    the right edge, [y = H + height] for the bottom edge and
    [x = -2 * width] for the left edge, with the other coordinate [W * r] or
    [H * r] for the draw [r = random (k + 2)]; its direction is [atan2] from
    the spawn point to the crossing point plus the jitter
    [(r - 0.5) * PI / 4] for the draw [r = random (k + 3)], which lies
    within plus or minus [PI / 8]; [vx] and [vy] follow from the direction
    and the speed; no other random number is drawn. *)
Theorem formation_placement (b : Butterfly.t) (formation : string) (index count : Z)
    (spawnSide : option Z) (g : Game.t) :
  (forall n, 0 <= random n < 1) ->
  0 <= Canvas.width (Game.canvas g) ->
  0 <= Canvas.height (Game.canvas g) ->
  match spawnSide with Some e => (0 <= e <= 3)%Z | None => True end ->
  let W := Canvas.width (Game.canvas g) in
  let H := Canvas.height (Game.canvas g) in
  let b' := (positionButterflyInFormation b formation index count spawnSide g).1 in
  let edge :=
    match spawnSide with
    | Some e => e
    | None => Math.floor (random (Game.randomCalls g) * 4)
    end in
  let k :=
    match spawnSide with
    | Some _ => Game.randomCalls g
    | None => S (Game.randomCalls g)
    end in
  let crossingX := W * (0.2 + random k * 0.6) in
  let crossingY := H * (0.2 + random (S k) * 0.6) in
  let along := random (2 + k)%nat in
  let jitter := (random (3 + k)%nat - 0.5) * PI / 4 in
  (0 <= edge <= 3)%Z /\
  Game.randomCalls (positionButterflyInFormation b formation index count spawnSide g).2 =
    (4 + k)%nat /\
  Butterfly.crossingPoint b' = Some (crossingX, crossingY) /\
  0.2 * W <= crossingX <= 0.8 * W /\
  0.2 * H <= crossingY <= 0.8 * H /\
  (edge = 0%Z -> Butterfly.x b' = W * along /\ 0 <= Butterfly.x b' <= W /\
                 Butterfly.y b' = - (2 * Butterfly.height b)) /\
  (edge = 1%Z -> Butterfly.x b' = W + Butterfly.width b /\
                 Butterfly.y b' = H * along /\ 0 <= Butterfly.y b' <= H) /\
  (edge = 2%Z -> Butterfly.x b' = W * along /\ 0 <= Butterfly.x b' <= W /\
                 Butterfly.y b' = H + Butterfly.height b) /\
  (edge = 3%Z -> Butterfly.x b' = - (2 * Butterfly.width b) /\
                 Butterfly.y b' = H * along /\ 0 <= Butterfly.y b' <= H) /\
  Butterfly.direction b' =
    Math.atan2 (crossingY - Butterfly.y b') (crossingX - Butterfly.x b') + jitter /\
  - (PI / 8) <= jitter <= PI / 8 /\
  Butterfly.vx b' = cos (Butterfly.direction b') * Butterfly.speed b' /\
  Butterfly.vy b' = sin (Butterfly.direction b') * Butterfly.speed b'.
Proof.
  intros Hrand HW HH Hside W H b' edge k crossingX crossingY along jitter.
  assert (Hgen : forall e g0,
             Game.canvas g0 = Game.canvas g -> (0 <= e <= 3)%Z ->
             let c := (positionButterflyInFormation b formation index count (Some e) g0).1 in
             let k0 := Game.randomCalls g0 in
             let cX := W * (0.2 + random k0 * 0.6) in
             let cY := H * (0.2 + random (S k0) * 0.6) in
             let al := random (2 + k0)%nat in
             let jit := (random (3 + k0)%nat - 0.5) * PI / 4 in
             Game.randomCalls
               (positionButterflyInFormation b formation index count (Some e) g0).2 =
               (4 + k0)%nat /\
             Butterfly.crossingPoint c = Some (cX, cY) /\
             0.2 * W <= cX <= 0.8 * W /\
             0.2 * H <= cY <= 0.8 * H /\
             (e = 0%Z -> Butterfly.x c = W * al /\ 0 <= Butterfly.x c <= W /\
                         Butterfly.y c = - (2 * Butterfly.height b)) /\
             (e = 1%Z -> Butterfly.x c = W + Butterfly.width b /\
                         Butterfly.y c = H * al /\ 0 <= Butterfly.y c <= H) /\
             (e = 2%Z -> Butterfly.x c = W * al /\ 0 <= Butterfly.x c <= W /\
                         Butterfly.y c = H + Butterfly.height b) /\
             (e = 3%Z -> Butterfly.x c = - (2 * Butterfly.width b) /\
                         Butterfly.y c = H * al /\ 0 <= Butterfly.y c <= H) /\
             Butterfly.direction c =
               Math.atan2 (cY - Butterfly.y c) (cX - Butterfly.x c) + jit /\
             - (PI / 8) <= jit <= PI / 8 /\
             Butterfly.vx c = cos (Butterfly.direction c) * Butterfly.speed c /\
             Butterfly.vy c = sin (Butterfly.direction c) * Butterfly.speed c).
  { intros e g0 Hcv He c k0 cX cY al jit.
    destruct (position_at_edge b formation index count e g0 He)
      as (Hst & Hcp & H0 & H1 & H2 & H3 & Hdir & Hvx & Hvy & _).
    rewrite Hcv in *. fold W H c k0 in Hcp, H0, H1, H2, H3, Hdir, Hvx, Hvy, Hst.
    fold cX cY al jit in Hcp, H0, H1, H2, H3, Hdir.
    pose proof (Hrand k0) as Hr1. pose proof (Hrand (S k0)) as Hr2.
    pose proof (Hrand (2 + k0)%nat) as Hr3. pose proof (Hrand (3 + k0)%nat) as Hr4.
    fold al in Hr3.
    pose proof PI_RGT_0 as Hpi.
    assert (Hm : forall a r, 0 <= a -> 0 <= r < 1 -> 0 <= a * r <= a).
    { intros a r Ha [Hr0 Hr1']. split; [now apply Rmult_le_pos |].
      rewrite <- (Rmult_1_r a) at 2. apply Rmult_le_compat_l; lra. }
    pose proof (Hm W _ HW Hr1) as HWr1. pose proof (Hm H _ HH Hr2) as HHr2.
    pose proof (Hm W _ HW Hr3) as HWr3. pose proof (Hm H _ HH Hr3) as HHr3.
    split; [now rewrite Hst |].
    split; [exact Hcp |]. split; [unfold cX; lra |]. split; [unfold cY; lra |].
    split. { intros E. destruct (H0 E) as [Hx Hy]. rewrite Hx, Hy. repeat split; lra. }
    split. { intros E. destruct (H1 E) as [Hx Hy]. rewrite Hx, Hy. repeat split; lra. }
    split. { intros E. destruct (H2 E) as [Hx Hy]. rewrite Hx, Hy. repeat split; lra. }
    split. { intros E. destruct (H3 E) as [Hx Hy]. rewrite Hx, Hy. repeat split; lra. }
    split; [exact Hdir |]. split; [unfold jit; nra |]. now split. }
  destruct spawnSide as [e |].
  - split; [exact Hside |]. exact (Hgen e g eq_refl Hside).
  - pose proof (floor_random_times (random (Game.randomCalls g)) 4
                  (Hrand _) ltac:(lia)) as He.
    change (IZR 4) with 4 in He.
    split; [subst edge; lia |].
    subst b'. rewrite position_random_edge.
    exact (Hgen (Math.floor (random (Game.randomCalls g) * 4))
             (Game.set_randomCalls (S (Game.randomCalls g)) g) eq_refl ltac:(lia)).
Qed.

(** ** What each method leaves alone *)

Lemma positionButterflyInFormation_keeps (b : Butterfly.t) (formation : string)
    (index count : Z) (spawnSide : option Z) (g : Game.t) :
  let b' := (positionButterflyInFormation b formation index count spawnSide g).1 in
  Butterfly.level b' = Butterfly.level b /\
  Butterfly.isBoss b' = Butterfly.isBoss b /\
  Butterfly.health b' = Butterfly.health b /\
  Butterfly.speed b' = Butterfly.speed b.
Proof.
  unfold Game.positionButterflyInFormation.
  destruct spawnSide as [side |]; cbn -[Math.atan2 cos sin PI];
    repeat match goal with
           | |- context [if ?c then _ else _] => destruct c; cbn -[Math.atan2 cos sin PI]
           end; repeat split; reflexivity.
Qed.

Lemma position_view (b : Butterfly.t) (formation : string) (index count : Z)
    (spawnSide : option Z) (g : Game.t) :
  Game.exceptSwarm (positionButterflyInFormation b formation index count spawnSide g).2 =
  Game.exceptSwarm g /\
  Game.exceptSpawn (positionButterflyInFormation b formation index count spawnSide g).2 =
  Game.exceptSpawn g.
Proof.
  destruct (positionButterflyInFormation_game b formation index count spawnSide g)
    as [k ->].
  now destruct g.
Qed.

Lemma updateButterflies_view (deltaTime : R) (n : nat) :
  forall g, Game.exceptSwarm (updateButterflies deltaTime n g) = Game.exceptSwarm g.
Proof.
  induction n as [| n IH]; intros g; [reflexivity |].
  cbn [Game.updateButterflies].
  destruct (Game.butterflies g !! n) as [b |]; [| reflexivity].
  destruct (Butterfly.update random (Game.canvas g) deltaTime b (Game.randomCalls g))
    as [b' k].
  rewrite IH. destruct (Butterfly.shouldRemove b'); now destruct g.
Qed.

Lemma spawnExtraGroup_view (g : Game.t) :
  Game.exceptSwarm (spawnExtraGroup g) = Game.exceptSwarm g.
Proof.
  unfold Game.spawnExtraGroup.
  destruct (_ && _); [| reflexivity].
  cbn [Game.nextRandom]. destruct (bool_decide _); [| now destruct g].
  match goal with
  | |- Game.exceptSwarm (Game.for_range ?n ?i ?body ?s) = _ =>
      pose proof (for_range_invariant
                    (fun _ s' => Game.exceptSwarm s' = Game.exceptSwarm g) body n i s) as Hinv
  end.
  apply Hinv; [now destruct g |].
  intros j s' _ Hs'. cbv beta.
  match goal with
  | |- context [Game.positionButterflyInFormation ?r ?b ?f ?i ?c ?sd ?s0] =>
      pose proof (position_view b f i c sd s0) as [Hv _];
      destruct (Game.positionButterflyInFormation r b f i c sd s0) as [b' g']
  end.
  cbn [snd] in Hv. rewrite <- Hs', <- Hv. now destruct g'.
Qed.

(** ** Spawning *)

Lemma actuallySpawnButterflies_regular (wave : Z) (g : Game.t) :
  let safeLevel := Z.min (Z.max (Game.currentLevel g) 1) (Game.maxLevel g) in
  safeLevel <> 10%Z ->
  (1 <= Game.maxLevel g)%Z ->
  Game.butterflyImages g <> [] ->
  Game.exceptSpawn (actuallySpawnButterflies wave g) = Game.exceptSpawn g /\
  Game.levelTimer (actuallySpawnButterflies wave g) = Some 0 /\
  Game.hasPlayedInitialCountdown (actuallySpawnButterflies wave g) =
    Game.hasPlayedInitialCountdown g /\
  exists ts,
    Game.timers (actuallySpawnButterflies wave g) = Game.timers g ++ ts /\
    Game.scheduledWave safeLevel ts.
Proof.
  intros safeLevel Hreg Hmax Himg.
  unfold Game.actuallySpawnButterflies. fold safeLevel.
  destruct (Z.eqb_spec safeLevel 10) as [? | _]; [contradiction |].
  assert (Hlen : (0 < length (Game.butterflyImages g))%nat).
  { destruct (Game.butterflyImages g); [contradiction | simpl; lia]. }
  assert (Hsafe : (1 <= safeLevel)%Z) by (unfold safeLevel; lia).
  destruct (Z.ltb_spec (Z.min (safeLevel - 1)
                          (Z.of_nat (length (Game.butterflyImages g)) - 1)) 0);
    [lia |].
  destruct (Z.geb_spec (Z.min (safeLevel - 1)
                          (Z.of_nat (length (Game.butterflyImages g)) - 1))
              (Z.of_nat (length (Game.butterflyImages g)))); [lia |].
  cbn [orb].
  match goal with
  | |- context [Game.for_range ?n ?i ?body g] =>
      pose proof (for_range_invariant
        (fun j s =>
           Game.exceptSpawn s = Game.exceptSpawn g /\
           Game.levelTimer s = Game.levelTimer g /\
           Game.hasPlayedInitialCountdown s = Game.hasPlayedInitialCountdown g /\
           exists ts,
             Game.timers s = Game.timers g ++ ts /\
             Z.of_nat (length ts) = j /\
             forall (m : nat) (tm : Game.Timer),
               ts !! m = Some tm ->
               Game.delay tm = (50 * Z.of_nat m)%Z /\
               Game.repeats tm = false /\
               exists b, Game.callback tm = Game.PushButterfly b /\
                         Butterfly.level b = safeLevel /\
                         Butterfly.isBoss b = false /\
                         Butterfly.health b = 1%Z)
        body n i g) as Hinv;
      set (loop := Game.for_range n i body g) in *
  end.
  destruct Hinv as (Hview & Hlt & Hhp & ts & Hts & Hn & Hall).
  - split; [reflexivity |]. split; [reflexivity |]. split; [reflexivity |].
    exists []. rewrite app_nil_r. split; [reflexivity |]. split; [reflexivity |].
    intros idx tm Hm. discriminate.
  - intros j s (Hj0 & Hj1) (Hview & Hlt & Hhp & ts & Hts & Hn & Hall). cbv beta.
    match goal with
    | |- context [Game.positionButterflyInFormation ?r ?b ?f ?i ?c ?sd ?s0] =>
        pose proof (position_view b f i c sd s0) as [Hv1 Hv2];
        pose proof (positionButterflyInFormation_keeps b f i c sd s0)
          as (Hk1 & Hk2 & Hk3 & _);
        destruct (Game.positionButterflyInFormation r b f i c sd s0) as [b' g']
    end.
    cbn [fst snd] in *. cbn -[Butterfly.new].
    pose proof (f_equal Game.timers Hv1) as Htm. cbn in Htm.
    pose proof (f_equal Game.levelTimer Hv1) as Hlt'. cbn in Hlt'.
    pose proof (f_equal Game.hasPlayedInitialCountdown Hv1) as Hhp'. cbn in Hhp'.
    split; [rewrite <- Hview, <- Hv2; now destruct g' |].
    split; [congruence |]. split; [congruence |].
    eexists (ts ++ [_]). split; [rewrite Htm, Hts, <- app_assoc; reflexivity |].
    split; [rewrite length_app; simpl; lia |].
    intros idx tm Hm.
    apply lookup_app_Some in Hm as [Hl | [Hge Hr]]; [now apply Hall |].
    destruct (idx - length ts)%nat eqn:Hd; [| discriminate].
    injection Hr as <-. cbn -[Butterfly.new].
    split; [lia |]. split; [reflexivity |].
    eexists. split; [reflexivity |]. cbn -[Butterfly.new].
    rewrite Hk1, Hk2, Hk3. now cbn.
  - split; [| split; [reflexivity | split; [cbn; exact Hhp |]]].
    + rewrite <- Hview. now destruct loop.
    + exists ts. split; [exact Hts |]. split; [| exact Hall].
      cbn in Hn. lia.
Qed.

Lemma spawnBossButterfly_view (g : Game.t) :
  Game.exceptSpawn (spawnBossButterfly g) = Game.exceptSpawn g.
Proof.
  unfold Game.spawnBossButterfly.
  cbn -[Butterfly.new cos sin PI IZR Rmult Rplus Rdiv Z.add Z.mul].
  now destruct g.
Qed.

Lemma spawnBossButterfly_timers (g : Game.t) :
  exists ts,
    Game.timers (spawnBossButterfly g) = Game.timers g ++ ts /\
    Forall Game.isInsertion ts.
Proof.
  unfold Game.spawnBossButterfly.
  cbn -[Butterfly.new cos sin PI IZR Rmult Rplus Rdiv Z.add Z.mul].
  unfold Game.setTimeout.
  cbn -[Butterfly.new cos sin PI IZR Rmult Rplus Rdiv Z.add Z.mul].
  rewrite <- !app_assoc. cbn [app].
  eexists. split; [reflexivity |].
  repeat (apply Forall_cons; split; [split; [reflexivity | now eexists] |]).
  apply Forall_nil_2.
Qed.

(** Any spawn only schedules insertions: it appends one-shot timers and
    touches nothing but the level timer, the countdown-played flag and the
    random-number count. *)
Lemma spawnButterflies_view (wave : Z) (g : Game.t) :
  Game.exceptSpawn (spawnButterflies wave g) = Game.exceptSpawn g /\
  exists ts,
    Game.timers (spawnButterflies wave g) = Game.timers g ++ ts /\
    Forall Game.isInsertion ts.
Proof.
  unfold Game.spawnButterflies.
  set (g1 := Game.set_hasPlayedInitialCountdown true g).
  assert (Hg1 : Game.exceptSpawn g1 = Game.exceptSpawn g) by now destruct g.
  change (Game.timers g) with (Game.timers g1). rewrite <- Hg1. clearbody g1. clear Hg1 g.
  destruct (Z.eq_dec (Z.min (Z.max (Game.currentLevel g1) 1) (Game.maxLevel g1)) 10%Z)
    as [Hboss | Hreg].
  - unfold Game.actuallySpawnButterflies.
    rewrite Hboss. cbn [Z.eqb Pos.eqb].
    split; [apply spawnBossButterfly_view |].
    apply spawnBossButterfly_timers.
  - destruct (decide (Game.butterflyImages g1 = [])) as [Hnil | Himg];
      [| destruct (Z_lt_le_dec (Game.maxLevel g1) 1%Z) as [Hlow | Hmax]].
    + unfold Game.actuallySpawnButterflies.
      apply Z.eqb_neq in Hreg. rewrite Hreg, Hnil. cbn [length Z.of_nat].
      destruct (_ || _) eqn:E.
      * split; [reflexivity |]. exists []. now rewrite app_nil_r.
      * apply orb_false_iff in E as [E1 _]. apply Z.ltb_ge in E1. lia.
    + unfold Game.actuallySpawnButterflies.
      apply Z.eqb_neq in Hreg. rewrite Hreg.
      destruct (_ || _) eqn:E.
      * split; [reflexivity |]. exists []. now rewrite app_nil_r.
      * apply orb_false_iff in E as [E1 E2]. apply Z.ltb_ge in E1. lia.
    + destruct (actuallySpawnButterflies_regular wave g1 Hreg Hmax Himg)
        as (Hview & _ & _ & ts & Hts & _ & Hall).
      split; [exact Hview |]. exists ts. split; [exact Hts |].
      apply Forall_lookup. intros i tm Hi.
      destruct (Hall i tm Hi) as (_ & Hrep & b & Hcb & _).
      split; [exact Hrep | now exists b].
Qed.

(** ** The level counter *)

Lemma levelComplete_level (fastTransition : bool) (now : Z) (g : Game.t) :
  Game.maxLevel (Game.levelComplete fastTransition now g) = Game.maxLevel g /\
  Game.timers (Game.levelComplete fastTransition now g) = Game.timers g /\
  Game.butterflies (Game.levelComplete fastTransition now g) = Game.butterflies g /\
  (Game.isLevelTransitioning g = true ->
   Game.levelComplete fastTransition now g = g) /\
  (Game.isLevelTransitioning g = false ->
   (Game.currentLevel g < Game.maxLevel g)%Z ->
   Game.currentLevel (Game.levelComplete fastTransition now g) =
     (Game.currentLevel g + 1)%Z) /\
  (Game.isLevelTransitioning g = false ->
   (Game.maxLevel g <= Game.currentLevel g)%Z ->
   Game.currentLevel (Game.levelComplete fastTransition now g) = Game.currentLevel g).
Proof.
  unfold Game.levelComplete.
  destruct (Game.isLevelTransitioning g) eqn:Ht; cbn.
  - repeat split; try reflexivity; discriminate.
  - destruct (Z.ltb_spec (Game.currentLevel g) (Game.maxLevel g)); cbn;
      repeat split; try reflexivity; try discriminate; intros; lia.
Qed.

Lemma levelComplete_advances (fastTransition : bool) (now : Z) (g : Game.t) :
  Game.advancesByAtMostOne g (Game.levelComplete fastTransition now g).
Proof.
  destruct (levelComplete_level fastTransition now g) as (Hm & _ & _ & Hid & Hup & Hsame).
  split; [exact Hm |].
  destruct (Game.isLevelTransitioning g) eqn:Ht.
  - left. now rewrite Hid.
  - destruct (Z_lt_le_dec (Game.currentLevel g) (Game.maxLevel g)) as [Hlt | Hge].
    + right. split; [now apply Hup | exact Hlt].
    + left. now apply Hsame.
Qed.

Lemma catchLoop_view (px py : R) (n : nat) :
  forall g, Game.exceptCatch (catchLoop px py n g) = Game.exceptCatch g.
Proof.
  induction n as [| n IH]; intros g; [reflexivity |].
  cbn [Game.catchLoop].
  destruct (Game.butterflies g !! n) as [b |]; [| reflexivity].
  destruct (checkCatch (Game.player g) px py b (Game.randomCalls g)) as [[flag b'] k].
  destruct flag; [now destruct g |].
  rewrite IH. now destruct g.
Qed.

Lemma handleClick_view (px py : R) (g : Game.t) :
  Game.exceptCatch (handleClick px py g) = Game.exceptCatch g.
Proof.
  unfold Game.handleClick.
  destruct (_ || _); [reflexivity |]. destruct (_ || _); [reflexivity |].
  apply catchLoop_view.
Qed.

(** [update] moves the level counter by at most one and schedules nothing. *)
Lemma update_advances (deltaTime : R) (now : Z) (g : Game.t) :
  Game.advancesByAtMostOne g (update deltaTime now g) /\
  Game.timers (update deltaTime now g) = Game.timers g.
Proof.
  unfold Game.update.
  destruct (Game.isLevelTransitioning g) eqn:Ht; [now repeat split; try left |].
  destruct (Game.countdownActive g) eqn:Hcd; [now repeat split; try left |].
  pose proof (updateButterflies_view deltaTime (length (Game.butterflies g)) g) as Hv.
  set (g1 := updateButterflies deltaTime (length (Game.butterflies g)) g) in *.
  pose proof (f_equal Game.currentLevel Hv) as Hcl.
  pose proof (f_equal Game.maxLevel Hv) as Hml.
  pose proof (f_equal Game.timers Hv) as Htm.
  cbn in Hcl, Hml, Htm.
  set (g2 := Game.set_levelTimer _
               match Game.levelTimer g1 with
               | Some _ => g1
               | None => Game.set_levelTimer (Some 0) g1
               end).
  assert (Hg2 : Game.currentLevel g2 = Game.currentLevel g /\
                Game.maxLevel g2 = Game.maxLevel g /\
                Game.timers g2 = Game.timers g).
  { subst g2. destruct (Game.levelTimer g1); cbn; now rewrite Hcl, Hml, Htm. }
  destruct Hg2 as (Hcl2 & Hml2 & Htm2). clearbody g2.
  assert (Hlc : forall ft,
             Game.advancesByAtMostOne g
               (Game.set_levelTimer (Some 0) (Game.levelComplete ft now g2)) /\
             Game.timers (Game.set_levelTimer (Some 0) (Game.levelComplete ft now g2)) =
               Game.timers g).
  { intros ft.
    destruct (levelComplete_advances ft now g2) as [Hm Hc].
    destruct (levelComplete_level ft now g2) as (_ & Ht' & _).
    unfold Game.advancesByAtMostOne. cbn.
    rewrite Hcl2, Hml2 in *. rewrite Ht', Htm2. now repeat split. }
  destruct (_ && _); [apply Hlc |].
  match goal with
  | |- context [spawnExtraGroup ?x] =>
      pose proof (spawnExtraGroup_view x) as Hx;
      assert (Hin : Game.advancesByAtMostOne g x /\ Game.timers x = Game.timers g)
  end.
  { destruct (_ && _); [apply Hlc |].
    unfold Game.advancesByAtMostOne. rewrite Hcl2, Hml2, Htm2. repeat split. now left. }
  pose proof (f_equal Game.currentLevel Hx) as Hcl3.
  pose proof (f_equal Game.maxLevel Hx) as Hml3.
  pose proof (f_equal Game.timers Hx) as Htm3.
  cbn in Hcl3, Hml3, Htm3.
  destruct Hin as [[Hm Hc] Ht3]. unfold Game.advancesByAtMostOne.
  now rewrite Hcl3, Hml3, Htm3.
Qed.

(** ** Events *)

Lemma startNextLevel_view (g : Game.t) :
  Game.currentLevel (startNextLevel g) = Game.currentLevel g /\
  Game.maxLevel (startNextLevel g) = Game.maxLevel g /\
  Game.butterflies (startNextLevel g) = Game.butterflies g /\
  Game.isLevelTransitioning (startNextLevel g) = false /\
  exists ts,
    Game.timers (startNextLevel g) = Game.timers g ++ ts /\ Forall Game.isInsertion ts.
Proof.
  unfold Game.startNextLevel.
  set (g1 := Game.set_levelTimer _ _).
  pose proof (spawnButterflies_view 0 g1) as Hv. revert Hv.
  generalize (spawnButterflies 0 g1). intros g' (Hv & ts & Hts & Hins).
  pose proof (f_equal Game.currentLevel Hv) as Hcl.
  pose proof (f_equal Game.maxLevel Hv) as Hml.
  pose proof (f_equal Game.butterflies Hv) as Hbs.
  cbn in Hcl, Hml, Hbs |- *.
  repeat split; try assumption. now exists ts.
Qed.

Lemma same_level_advances (g g1 g2 : Game.t) (v : option Z) :
  Game.currentLevel g1 = Game.currentLevel g ->
  Game.maxLevel g1 = Game.maxLevel g ->
  Game.currentLevel g2 = Game.currentLevel g1 ->
  Game.maxLevel g2 = Game.maxLevel g1 ->
  Game.advancesByAtMostOne g (Game.set_levelTransitionStartTime v g2).
Proof.
  intros H1 H2 H3 H4. split; cbn; [congruence | left; congruence].
Qed.

Lemma regularFrame_advances (timestamp : R) (now : Z) (g : Game.t) :
  Game.advancesByAtMostOne g (Game.regularFrame random timestamp now g) /\
  Game.timers (Game.regularFrame random timestamp now g) = Game.timers g.
Proof.
  unfold Game.regularFrame.
  destruct (Game.isRunning g && negb (Game.isLevelTransitioning g)).
  - apply (update_advances _ now (Game.set_lastTimestamp timestamp g)).
  - split; [split; [reflexivity | now left] | reflexivity].
Qed.

(** A frame moves the level counter by at most one and can only add
    insertions to the pending timers. *)
Lemma gameLoop_advances (timestamp perfNow : R) (now : Z) (g : Game.t) :
  Game.advancesByAtMostOne g (gameLoop timestamp perfNow now g) /\
  exists ts,
    Game.timers (gameLoop timestamp perfNow now g) = Game.timers g ++ ts /\
    Forall Game.isInsertion ts.
Proof.
  assert (Hid : Game.advancesByAtMostOne g g /\
            exists ts, Game.timers g = Game.timers g ++ ts /\ Forall Game.isInsertion ts).
  { split; [split; [reflexivity | now left] |]. exists []. now rewrite app_nil_r. }
  assert (Hreg : forall ts',
    Game.advancesByAtMostOne g (Game.regularFrame random ts' now g) /\
    exists ts,
      Game.timers (Game.regularFrame random ts' now g) = Game.timers g ++ ts /\
      Forall Game.isInsertion ts).
  { intros ts'. destruct (regularFrame_advances ts' now g) as [Hadv Htm].
    split; [exact Hadv |]. exists []. now rewrite app_nil_r. }
  unfold Game.gameLoop.
  destruct (Game.showingNameInput g); [exact Hid |].
  destruct (Game.showingSummaryScreen g); [exact Hid |].
  destruct (Game.levelTransitionStartTime g) as [startTime |]; [| apply Hreg].
  destruct (Game.isLevelTransitioning g && negb (startTime =? 0)%Z); [| apply Hreg].
  cbv zeta.
  destruct (bool_decide
              (Math.min 1 (IZR (now - startTime) / IZR (Game.levelTransitionDuration g)) < 1));
    [exact Hid |].
  destruct (bool_decide (Game.levelTransitionComplete g = Some false)); [| apply Hreg].
  pose proof (startNextLevel_view (Game.set_levelTransitionComplete (Some true) g)) as Hv.
  revert Hv. generalize (startNextLevel (Game.set_levelTransitionComplete (Some true) g)).
  intros g' (Hcl & Hml & _ & _ & ts & Hts & Hins).
  split; [| exists ts; split; [exact Hts | exact Hins]].
  exact (same_level_advances g _ _ None eq_refl eq_refl Hcl Hml).
Qed.

Lemma countdownTick_view (k : nat) (g : Game.t) :
  Game.currentLevel (countdownTick k g) = Game.currentLevel g /\
  Game.maxLevel (countdownTick k g) = Game.maxLevel g /\
  Game.butterflies (countdownTick k g) = Game.butterflies g /\
  exists ts,
    (Game.timers (countdownTick k g) = Game.timers g \/
     Game.timers (countdownTick k g) = delete k (Game.timers g) ++ ts) /\
    Forall Game.isInsertion ts.
Proof.
  unfold Game.countdownTick.
  cbn [Game.countdownTime Game.set_countdownTime].
  destruct (Game.countdownTime g - 1 <=? 0)%Z.
  - match goal with
    | |- context [spawnButterflies 0 ?x] =>
        pose proof (spawnButterflies_view 0 x) as Hv; revert Hv;
        generalize (spawnButterflies 0 x)
    end.
    intros g' (Hv & ts & Hts & Hins).
    pose proof (f_equal Game.currentLevel Hv) as Hcl.
    pose proof (f_equal Game.maxLevel Hv) as Hml.
    pose proof (f_equal Game.butterflies Hv) as Hbs.
    cbn in Hcl, Hml, Hbs, Hts.
    repeat split; try assumption. exists ts. split; [right; exact Hts | exact Hins].
  - repeat split. exists []. split; [now left | constructor].
Qed.

(** What the firing of a pending timer does. *)
Lemma fire_spec (k : nat) (g : Game.t) :
  Game.currentLevel (fire k g) = Game.currentLevel g /\
  Game.maxLevel (fire k g) = Game.maxLevel g /\
  match Game.timers g !! k with
  | None => fire k g = g
  | Some tm =>
      match Game.callback tm with
      | Game.PushButterfly b =>
          fire k g =
          Game.set_butterflies (Game.butterflies g ++ [b])
            (Game.set_timers (delete k (Game.timers g)) g)
      | Game.CountdownTick =>
          Game.butterflies (fire k g) = Game.butterflies g /\
          exists ts,
            (Game.timers (fire k g) = Game.timers g \/
             Game.timers (fire k g) = delete k (Game.timers g) ++ ts) /\
            Forall Game.isInsertion ts
      end
  end.
Proof.
  unfold Game.fire.
  destruct (Game.timers g !! k) as [tm |]; [| now repeat split].
  destruct (Game.callback tm) as [b |].
  - now repeat split.
  - pose proof (countdownTick_view k g) as Hv. revert Hv.
    generalize (countdownTick k g). intros g' (Hcl & Hml & Hbs & Hts).
    repeat split; assumption.
Qed.

(** Every event moves the level counter by at most one. *)
Lemma step_advances (g : Game.t) (e : Game.Event) :
  Game.advancesByAtMostOne g (step g e).
Proof.
  destruct e as [timestamp perfNow now | px py | k]; cbn [Game.step].
  - apply gameLoop_advances.
  - pose proof (handleClick_view px py g) as Hv. revert Hv.
    generalize (handleClick px py g). intros g' Hv.
    pose proof (f_equal Game.currentLevel Hv) as Hcl.
    pose proof (f_equal Game.maxLevel Hv) as Hml.
    cbn in Hcl, Hml. split; [exact Hml | left; exact Hcl].
  - pose proof (fire_spec k g) as Hv. revert Hv.
    generalize (fire k g). intros g' (Hcl & Hml & _).
    split; [exact Hml | left; exact Hcl].
Qed.

Lemma run_app (es1 es2 : list Game.Event) (g : Game.t) :
  run (es1 ++ es2) g = run es2 (run es1 g).
Proof. unfold Game.run. apply foldl_app. Qed.

(** Over a whole run the level counter never goes down and stays within
    [1 .. maxLevel] once it is there. *)
Lemma run_level (es : list Game.Event) :
  forall g,
    (1 <= Game.currentLevel g <= Game.maxLevel g)%Z ->
    Game.maxLevel (run es g) = Game.maxLevel g /\
    (Game.currentLevel g <= Game.currentLevel (run es g) <= Game.maxLevel g)%Z.
Proof.
  induction es as [| e es IH]; intros g Hg; [cbn; lia |].
  change (run (e :: es) g) with (run es (step g e)).
  destruct (step_advances g e) as [Hml Hcl].
  destruct (IH (step g e)) as [Hml' Hcl']; [lia |]. lia.
Qed.

(** ** The countdown *)

Lemma countdownTick_counting (k : nat) (g : Game.t) :
  (1 < Game.countdownTime g)%Z ->
  countdownTick k g = Game.set_countdownTime (Game.countdownTime g - 1) g.
Proof.
  intros Hc. unfold Game.countdownTick.
  cbn [Game.countdownTime Game.set_countdownTime].
  destruct (Z.leb_spec (Game.countdownTime g - 1) 0); [lia | reflexivity].
Qed.

Lemma countdownTick_zero (k : nat) (g : Game.t) :
  (Game.countdownTime g <= 1)%Z ->
  countdownTick k g =
  spawnButterflies 0
    (Game.set_levelTimer (Some 0)
       (Game.set_countdownActive false
          (Game.clearInterval k
             (Game.set_countdownTime (Game.countdownTime g - 1) g)))).
Proof.
  intros Hc. unfold Game.countdownTick.
  cbn [Game.countdownTime Game.set_countdownTime].
  destruct (Z.leb_spec (Game.countdownTime g - 1) 0); [reflexivity | lia].
Qed.

(** A spawn leaves the level timer at 0 when it found it there. *)
Lemma spawnButterflies_levelTimer (wave : Z) (g : Game.t) :
  Game.levelTimer g = Some 0 ->
  Game.levelTimer (spawnButterflies wave g) = Some 0.
Proof.
  intros Hlt. unfold Game.spawnButterflies, Game.actuallySpawnButterflies.
  destruct (_ =? 10)%Z; [reflexivity |].
  destruct (_ || _); [exact Hlt | reflexivity].
Qed.

(** Three ticks of the countdown interval, the only pending timer, from a
    state that shows 3. *)
Lemma countdown_three_ticks (s0 : Game.t) :
  Game.timers s0 = [Game.mkTimer 1000 true Game.CountdownTick] ->
  Game.countdownTime s0 = 3%Z ->
  Game.currentLevel s0 = 1%Z ->
  Game.maxLevel s0 = 10%Z ->
  Game.butterflyImages s0 <> [] ->
  let s1 := fire 0 s0 in
  let s2 := fire 0 s1 in
  let s3 := fire 0 s2 in
  s1 = Game.set_countdownTime 2 s0 /\
  s2 = Game.set_countdownTime 1 s0 /\
  Game.exceptSpawn s3 =
    Game.exceptSpawn (Game.set_countdownActive false (Game.set_countdownTime 0 s0)) /\
  Game.levelTimer s3 = Some 0 /\
  Game.scheduledWave 1 (Game.timers s3).
Proof.
  intros H0 Hct Hcl Hml Himg s1 s2 s3.
  assert (H1 : s1 = Game.set_countdownTime 2 s0).
  { subst s1. unfold Game.fire. rewrite H0. cbn [lookup list_lookup Game.callback].
    rewrite countdownTick_counting by lia. now rewrite Hct. }
  assert (H2 : s2 = Game.set_countdownTime 1 s0).
  { subst s2. rewrite H1. unfold Game.fire.
    cbn [Game.timers Game.set_countdownTime]. rewrite H0.
    cbn [lookup list_lookup Game.callback].
    rewrite countdownTick_counting by (cbn; lia). now destruct s0. }
  split; [exact H1 |]. split; [exact H2 |].
  subst s3. rewrite H2. clear s1 s2 H1 H2. unfold Game.fire.
  cbn [Game.timers Game.set_countdownTime]. rewrite H0.
  cbn [lookup list_lookup Game.callback].
  rewrite countdownTick_zero by (cbn; lia).
  unfold Game.spawnButterflies.
  set (g2 := Game.set_hasPlayedInitialCountdown true _).
  assert (Hg2 : Game.currentLevel g2 = 1%Z /\ Game.maxLevel g2 = 10%Z /\
                Game.butterflyImages g2 = Game.butterflyImages s0 /\
                Game.timers g2 = [] /\
                Game.exceptSpawn g2 =
                Game.exceptSpawn
                  (Game.set_countdownActive false (Game.set_countdownTime 0 s0))).
  { subst g2. destruct s0. cbn in *. subst. now repeat split. }
  destruct Hg2 as (Hcl2 & Hml2 & Hbi2 & Ht2 & Hv2). clearbody g2.
  destruct (actuallySpawnButterflies_regular 0 g2) as (Hv & Hlt & _ & ts & Hts & Hwave).
  { rewrite Hcl2, Hml2. discriminate. }
  { rewrite Hml2. lia. }
  { now rewrite Hbi2. }
  revert Hv Hlt Hts Hwave. generalize (actuallySpawnButterflies 0 g2).
  intros g' Hv Hlt Hts Hwave.
  split; [now rewrite Hv, <- Hv2 |]. split; [exact Hlt |].
  rewrite Hcl2, Hml2 in Hwave. rewrite Ht2 in Hts. now rewrite Hts.
Qed.

Lemma start_fields (g : Game.t) :
  Game.timers (Game.start g) =
    Game.timers g ++ [Game.mkTimer 1000 true Game.CountdownTick] /\
  Game.countdownTime (Game.start g) = 3%Z /\
  Game.countdownActive (Game.start g) = true /\
  Game.currentLevel (Game.start g) = 1%Z /\
  Game.maxLevel (Game.start g) = Game.maxLevel g /\
  Game.butterflyImages (Game.start g) = Game.butterflyImages g /\
  Game.butterflies (Game.start g) = [] /\
  Game.score (Game.start g) = 0%Z /\
  Game.isLevelTransitioning (Game.start g) = false /\
  Game.isRunning (Game.start g) = true /\
  Game.levelTimer (Game.start g) = Some 0.
Proof. now repeat split. Qed.

(** ** Frames *)

Lemma updateButterflies_nil (deltaTime : R) (g : Game.t) :
  Game.butterflies g = [] ->
  updateButterflies deltaTime (length (Game.butterflies g)) g = g.
Proof. intros ->. reflexivity. Qed.

(** The frame on which the 10-second limit of a level is reached with no
    butterfly on screen. *)
Lemma regularFrame_time_limit (timestamp t : R) (now : Z) (g : Game.t) :
  Game.isRunning g = true ->
  Game.isLevelTransitioning g = false ->
  Game.countdownActive g = false ->
  Game.butterflies g = [] ->
  Game.levelTimer g = Some t ->
  t + (timestamp - Game.lastTimestamp g) / 1000 >= 10 ->
  Game.regularFrame random timestamp now g =
  Game.set_levelTimer (Some 0)
    (Game.levelComplete true now
       (Game.set_levelTimer (Some (t + (timestamp - Game.lastTimestamp g) / 1000))
          (Game.set_lastTimestamp timestamp g))).
Proof.
  intros Hrun Htr Hcd Hbs Hlt Hdt.
  unfold Game.regularFrame. rewrite Hrun, Htr. cbn [andb negb].
  set (dt := (timestamp - Game.lastTimestamp g) / 1000) in *.
  set (g1 := Game.set_lastTimestamp timestamp g).
  assert (Hg1 : Game.isLevelTransitioning g1 = false /\ Game.countdownActive g1 = false /\
                Game.butterflies g1 = [] /\ Game.levelTimer g1 = Some t)
    by (subst g1; now cbn).
  destruct Hg1 as (Htr1 & Hcd1 & Hbs1 & Hlt1). clearbody g1 dt.
  unfold Game.update. rewrite Htr1, Hcd1.
  rewrite updateButterflies_nil by assumption. rewrite Hlt1.
  cbn [Game.levelTimer Game.set_levelTimer Game.butterflies Game.isLevelTransitioning
       default from_option id].
  rewrite ?Hlt1, ?Hbs1, ?Htr1. cbn [length negb default from_option id].
  unfold Datatypes.id.
  rewrite (bool_decide_eq_true_2 (t + dt >= 10)) by assumption.
  rewrite (bool_decide_eq_true_2 (t + dt >= 2)) by lra.
  rewrite orb_true_r. reflexivity.
Qed.

(** Outside the summary screens and a transition, a frame is a regular one. *)
Lemma gameLoop_regular (timestamp perfNow : R) (now : Z) (g : Game.t) :
  Game.showingNameInput g = false ->
  Game.showingSummaryScreen g = false ->
  Game.isLevelTransitioning g = false ->
  timestamp <> 0 ->
  gameLoop timestamp perfNow now g = Game.regularFrame random timestamp now g.
Proof.
  intros Hn Hs Ht Hts. unfold Game.gameLoop. rewrite Hn, Hs, Ht.
  rewrite (bool_decide_eq_false_2 (timestamp = 0)) by assumption.
  cbn [andb]. now destruct (Game.levelTransitionStartTime g).
Qed.

(** The frame on which the one-second transition is over. *)
Lemma gameLoop_transition_end (timestamp perfNow : R) (now startTime : Z) (g : Game.t) :
  Game.showingNameInput g = false ->
  Game.showingSummaryScreen g = false ->
  Game.isLevelTransitioning g = true ->
  Game.levelTransitionStartTime g = Some startTime ->
  startTime <> 0%Z ->
  Game.levelTransitionDuration g = 1000%Z ->
  Game.levelTransitionComplete g = Some false ->
  (startTime + 1000 <= now)%Z ->
  gameLoop timestamp perfNow now g =
  Game.set_levelTransitionStartTime None
    (startNextLevel (Game.set_levelTransitionComplete (Some true) g)).
Proof.
  intros Hn Hs Ht Hst Hst0 Hd Hc Hnow. unfold Game.gameLoop.
  rewrite Hn, Hs, Ht, Hst, Hd, Hc.
  apply Z.eqb_neq in Hst0. rewrite Hst0. cbn [andb negb].
  assert (Hp : ~ Math.min 1 (IZR (now - startTime) / IZR 1000) < 1).
  { unfold Math.min, Rmin.
    assert (Hq : 1 <= IZR (now - startTime) / IZR 1000).
    { assert (Hz : IZR 1000 <= IZR (now - startTime)) by (apply IZR_le; lia).
      change (IZR 1000) with 1000 in *. lra. }
    destruct (Rle_dec 1 (IZR (now - startTime) / IZR 1000)); lra. }
  rewrite (bool_decide_eq_false_2 _ Hp).
  now rewrite bool_decide_eq_true_2.
Qed.

(** ** The level and countdown state machine *)

(** C1 -- monotonic level progression.  In every session, that is from
    [start()] on and through any sequence of frames, clicks and timer
    callbacks, [currentLevel] stays within 1..[maxLevel] = 10, never
    decreases, and moves by at most one per event; a [levelComplete] call
    that is not ignored by the transitioning guard raises it by exactly 1
    when it is below [maxLevel] and leaves it alone at [maxLevel]. *)
Theorem level_progression (g0 : Game.t) (events : list Game.Event) :
  Game.maxLevel g0 = 10%Z ->
  let s := run events (Game.start g0) in
  Game.maxLevel s = 10%Z /\
  (1 <= Game.currentLevel s <= 10)%Z /\
  (forall more : list Game.Event,
      (Game.currentLevel s <= Game.currentLevel (run more s) <= 10)%Z) /\
  (forall e : Game.Event,
      (Game.currentLevel s <= Game.currentLevel (step s e) <= Game.currentLevel s + 1)%Z) /\
  (forall (fastTransition : bool) (now : Z),
      Game.isLevelTransitioning s = false ->
      (Game.currentLevel s < Game.maxLevel s ->
       Game.currentLevel (Game.levelComplete fastTransition now s) =
         Game.currentLevel s + 1)%Z /\
      (Game.currentLevel s = Game.maxLevel s ->
       Game.currentLevel (Game.levelComplete fastTransition now s) = Game.currentLevel s)).
Proof.
  intros Hmax s.
  destruct (start_fields g0) as (_ & _ & _ & Hcl0 & Hml0 & _).
  destruct (run_level events (Game.start g0)) as [Hml Hcl]; [rewrite Hcl0, Hml0; lia |].
  fold s in Hml, Hcl. rewrite Hml0, Hmax in *. rewrite Hcl0 in Hcl. clearbody s.
  split; [exact Hml |]. split; [lia |]. split; [| split].
  - intros more. destruct (run_level more s) as [_ Hcl']; [lia |]. lia.
  - intros e. destruct (step_advances s e) as [_ [Heq | [Heq _]]]; lia.
  - intros ft now Htr.
    destruct (levelComplete_level ft now s) as (_ & _ & _ & _ & Hup & Hsame).
    split; intros Hlvl; [now apply Hup | apply Hsame; [assumption | lia]].
Qed.

Lemma levelComplete_sets_flag (fastTransition : bool) (now : Z) (g : Game.t) :
  Game.isLevelTransitioning (Game.levelComplete fastTransition now g) = true.
Proof.
  unfold Game.levelComplete.
  destruct (Game.isLevelTransitioning g) eqn:E; [exact E |]. cbn.
  now destruct (Game.currentLevel g <? Game.maxLevel g)%Z.
Qed.

(** C2 -- the level-complete guard.  A [levelComplete] call made while
    [isLevelTransitioning] is already true returns the state as it is:
    level, score, butterflies, transition data and pending timers are the
    same, so no second transition starts and no second wave is spawned.  In
    particular a second call right after a first one changes nothing. *)
Theorem levelComplete_guard (g : Game.t) (fastTransition : bool) (now : Z) :
  (Game.isLevelTransitioning g = true ->
   Game.levelComplete fastTransition now g = g) /\
  (forall (fastTransition' : bool) (now' : Z),
      Game.levelComplete fastTransition' now' (Game.levelComplete fastTransition now g) =
      Game.levelComplete fastTransition now g).
Proof.
  split.
  - intros Ht. unfold Game.levelComplete. now rewrite Ht.
  - intros ft' now'.
    pose proof (levelComplete_sets_flag fastTransition now g) as Ht.
    revert Ht. generalize (Game.levelComplete fastTransition now g). intros g' Ht.
    unfold Game.levelComplete. now rewrite Ht.
Qed.

(** C8 -- countdown gating.  While [countdownActive] holds, [handleClick]
    and [update] return the state unchanged.  A tick of the countdown
    interval that does not reach 0 only decrements [countdownTime]; the tick
    that reaches 0 clears the interval, sets [countdownActive] to false,
    resets [levelTimer] to 0 and calls [spawnButterflies(0)] once.  In a
    fresh session this happens on the third tick, and what is then pending
    is exactly the wave of level 1. *)
Theorem countdown_gating (g : Game.t) :
  (Game.countdownActive g = true ->
   forall (px py deltaTime : R) (now : Z),
     handleClick px py g = g /\ update deltaTime now g = g) /\
  (forall k : nat,
      (1 < Game.countdownTime g)%Z ->
      countdownTick k g = Game.set_countdownTime (Game.countdownTime g - 1) g) /\
  (forall k : nat,
      (Game.countdownTime g <= 1)%Z ->
      countdownTick k g =
        spawnButterflies 0
          (Game.set_levelTimer (Some 0)
             (Game.set_countdownActive false
                (Game.clearInterval k
                   (Game.set_countdownTime (Game.countdownTime g - 1) g)))) /\
      Game.countdownActive (countdownTick k g) = false /\
      Game.levelTimer (countdownTick k g) = Some 0) /\
  (Game.maxLevel g = 10%Z ->
   Game.butterflyImages g <> [] ->
   Game.timers g = [] ->
   let s0 := Game.start g in
   let s1 := fire 0 s0 in
   let s2 := fire 0 s1 in
   let s3 := fire 0 s2 in
   (Game.countdownActive s0 = true /\ Game.timers s0 = [Game.mkTimer 1000 true Game.CountdownTick]) /\
   (Game.countdownActive s1 = true /\ Game.timers s1 = Game.timers s0) /\
   (Game.countdownActive s2 = true /\ Game.timers s2 = Game.timers s0) /\
   Game.countdownActive s3 = false /\
   Game.levelTimer s3 = Some 0 /\
   Game.currentLevel s3 = 1%Z /\
   Game.butterflies s3 = [] /\
   Game.scheduledWave 1 (Game.timers s3)).
Proof.
  split; [| split; [| split]].
  - intros Hcd px py deltaTime now. split.
    + unfold Game.handleClick. rewrite Hcd. now rewrite orb_true_r.
    + unfold Game.update. rewrite Hcd. now destruct (Game.isLevelTransitioning g).
  - intros k Hc. now apply countdownTick_counting.
  - intros k Hc. rewrite (countdownTick_zero k g Hc). split; [reflexivity |].
    match goal with
    | |- context [spawnButterflies 0 ?x] =>
        pose proof (spawnButterflies_view 0 x) as [Hv _];
        pose proof (spawnButterflies_levelTimer 0 x eq_refl) as Hlt;
        revert Hv Hlt; generalize (spawnButterflies 0 x)
    end.
    intros g' Hv Hlt. split; [| exact Hlt].
    exact (f_equal Game.countdownActive Hv).
  - intros Hmax Himg Htm. cbv zeta.
    pose proof (start_fields g) as Hsf.
    pose proof (countdown_three_ticks (Game.start g)) as H3. cbv zeta in H3.
    rewrite Htm, Hmax in Hsf. cbn [app] in Hsf.
    revert Hsf H3.
    generalize (Game.start g). intros s0.
    generalize (fire 0 (fire 0 (fire 0 s0))). intros s3.
    generalize (fire 0 (fire 0 s0)). intros s2.
    generalize (fire 0 s0). intros s1.
    intros (Ht0 & Hct0 & Hca0 & Hcl0 & Hml0 & Hbi0 & Hbs0 & _) H3.
    destruct (H3 Ht0 Hct0 Hcl0 Hml0) as (H1 & H2 & Hv3 & Hlt3 & Hw3); [congruence |].
    subst s1 s2.
    pose proof (f_equal Game.countdownActive Hv3) as Hca3.
    pose proof (f_equal Game.currentLevel Hv3) as Hcl3.
    pose proof (f_equal Game.butterflies Hv3) as Hbs3.
    cbn in Hca3, Hcl3, Hbs3 |- *.
    repeat match goal with |- _ /\ _ => split end; try assumption; congruence.
Qed.

(** ** Deferred insertions *)

Lemma elem_of_delete_other {A : Type} (l : list A) (j k : nat) (a : A) :
  l !! j = Some a -> j <> k -> a ∈ delete k l.
Proof.
  intros Hj Hjk. apply list_elem_of_lookup.
  destruct (Nat.lt_ge_cases j k) as [Hlt | Hge].
  - exists j. now rewrite list_lookup_delete_lt.
  - exists (pred j). rewrite list_lookup_delete_ge by lia.
    now replace (S (pred j)) with j by lia.
Qed.

(** No event drops a pending insertion: after any event it is still
    pending, unless the event is its own timeout, which appends its
    butterfly to the live collection. *)
Lemma step_keeps_insertion (g : Game.t) (e : Game.Event) (tm : Game.Timer)
    (b : Butterfly.t) :
  tm ∈ Game.timers g ->
  Game.callback tm = Game.PushButterfly b ->
  tm ∈ Game.timers (step g e) \/
  exists k, e = Game.Timeout k /\ Game.timers g !! k = Some tm /\
            Game.butterflies (step g e) = Game.butterflies g ++ [b].
Proof.
  intros Hin Hcb.
  destruct e as [timestamp perfNow now | px py | k]; cbn [Game.step].
  - left. pose proof (gameLoop_advances timestamp perfNow now g) as Hv. revert Hv.
    generalize (gameLoop timestamp perfNow now g). intros g' (_ & ts & -> & _).
    apply elem_of_app. now left.
  - left. pose proof (handleClick_view px py g) as Hv. revert Hv.
    generalize (handleClick px py g). intros g' Hv.
    pose proof (f_equal Game.timers Hv) as Ht. cbn in Ht. now rewrite Ht.
  - apply list_elem_of_lookup in Hin as [j Hj].
    pose proof (fire_spec k g) as Hv. revert Hv.
    generalize (fire k g). intros g' (_ & _ & Hv).
    destruct (Game.timers g !! k) as [tk |] eqn:Hk.
    + destruct (Game.callback tk) as [bk |] eqn:Hck.
      * subst g'. cbn.
        destruct (Nat.eq_dec j k) as [-> | Hjk].
        -- right. exists k. rewrite Hk in Hj. injection Hj as ->.
           rewrite Hcb in Hck. injection Hck as ->. now repeat split.
        -- left. now apply (elem_of_delete_other _ j k).
      * left. destruct Hv as (_ & ts & [-> | ->] & _).
        -- apply list_elem_of_lookup. now exists j.
        -- apply elem_of_app. left. apply (elem_of_delete_other _ j k); [exact Hj |].
           intros ->. rewrite Hk in Hj. injection Hj as ->. congruence.
    + left. subst g'. apply list_elem_of_lookup. now exists j.
Qed.

(** C9, as the code has it -- deferred insertions are not guarded.  The
    callback of a staggered spawn appends its butterfly to the live
    collection whenever it fires, whatever the level, the transition flag or
    the countdown flag are at that moment.  Until then it stays pending:
    no frame, click or other timer removes it, and neither do
    [levelComplete], [startNextLevel] or the session reset of [start()]. *)
Theorem insertions_always_land (g : Game.t) (tm : Game.Timer) (b : Butterfly.t) :
  tm ∈ Game.timers g ->
  Game.callback tm = Game.PushButterfly b ->
  (forall k : nat,
      Game.timers g !! k = Some tm ->
      Game.butterflies (fire k g) = Game.butterflies g ++ [b] /\
      Game.currentLevel (fire k g) = Game.currentLevel g /\
      Game.isLevelTransitioning (fire k g) = Game.isLevelTransitioning g) /\
  (forall e : Game.Event,
      tm ∈ Game.timers (step g e) \/
      exists k, e = Game.Timeout k /\ Game.timers g !! k = Some tm /\
                Game.butterflies (step g e) = Game.butterflies g ++ [b]) /\
  (forall (fastTransition : bool) (now : Z),
      tm ∈ Game.timers (Game.levelComplete fastTransition now g)) /\
  tm ∈ Game.timers (startNextLevel g) /\
  tm ∈ Game.timers (Game.start g).
Proof.
  intros Hin Hcb. split; [| split; [| split; [| split]]].
  - intros k Hk. unfold Game.fire. rewrite Hk, Hcb. now cbn.
  - intros e. now apply step_keeps_insertion.
  - intros ft now. destruct (levelComplete_level ft now g) as (_ & -> & _). exact Hin.
  - pose proof (startNextLevel_view g) as Hv. revert Hv.
    generalize (startNextLevel g). intros g' (_ & _ & _ & _ & ts & -> & _).
    apply elem_of_app. now left.
  - destruct (start_fields g) as (-> & _). apply elem_of_app. now left.
Qed.

Lemma levelComplete_begins (fastTransition : bool) (now : Z) (g : Game.t) :
  Game.isLevelTransitioning g = false ->
  (Game.currentLevel g < Game.maxLevel g)%Z ->
  Game.levelComplete fastTransition now g =
  Game.set_levelTransitionComplete (Some false)
    (Game.set_levelTransitionDuration 1000
       (Game.set_levelTransitionStartTime (Some now)
          (Game.set_currentLevel (Game.currentLevel g + 1)
             (Game.set_isLevelTransitioning true g)))).
Proof.
  intros Ht Hlt. unfold Game.levelComplete. rewrite Ht. cbn.
  destruct (Z.ltb_spec (Game.currentLevel g) (Game.maxLevel g)); [reflexivity | lia].
Qed.

(** A level-1 wave is scheduled, the level times out before its first
    insertion has fired, the transition to level 2 runs to its end, and then
    the insertion fires: the level-1 butterfly lands in level 2. *)
Lemma stale_insertion_scenario (s3 : Game.t) (tm : Game.Timer) (rest : list Game.Timer)
    (b : Butterfly.t) (timestamp1 timestamp2 perfNow1 perfNow2 : R) (now1 now2 : Z) :
  Game.showingNameInput s3 = false ->
  Game.showingSummaryScreen s3 = false ->
  Game.isRunning s3 = true ->
  Game.isLevelTransitioning s3 = false ->
  Game.countdownActive s3 = false ->
  Game.butterflies s3 = [] ->
  Game.levelTimer s3 = Some 0 ->
  Game.currentLevel s3 = 1%Z ->
  Game.maxLevel s3 = 10%Z ->
  Game.timers s3 = tm :: rest ->
  Game.callback tm = Game.PushButterfly b ->
  timestamp1 <> 0 ->
  0 + (timestamp1 - Game.lastTimestamp s3) / 1000 >= 10 ->
  now1 <> 0%Z ->
  (now1 + 1000 <= now2)%Z ->
  let s5 := run [Game.Frame timestamp1 perfNow1 now1; Game.Frame timestamp2 perfNow2 now2] s3 in
  Game.currentLevel s5 = 2%Z /\
  Game.isLevelTransitioning s5 = false /\
  Game.butterflies s5 = [] /\
  Game.timers s5 !! 0%nat = Some tm /\
  Game.butterflies (fire 0 s5) = [b].
Proof.
  intros Hn Hs Hrun Htr Hcd Hbs Hlt Hcl Hml Htm Hcb Hts1 Hdt Hnow1 Hnow2.
  cbv zeta. unfold Game.run. cbn [foldl Game.step].
  rewrite (gameLoop_regular timestamp1 perfNow1 now1 s3) by assumption.
  rewrite (regularFrame_time_limit timestamp1 0 now1 s3) by assumption.
  set (s4 := Game.set_levelTimer (Some 0) _).
  assert (H4 : Game.showingNameInput s4 = false /\ Game.showingSummaryScreen s4 = false /\
               Game.isLevelTransitioning s4 = true /\
               Game.levelTransitionStartTime s4 = Some now1 /\
               Game.levelTransitionDuration s4 = 1000%Z /\
               Game.levelTransitionComplete s4 = Some false /\
               Game.currentLevel s4 = 2%Z /\ Game.butterflies s4 = [] /\
               Game.timers s4 = tm :: rest).
  { subst s4. rewrite levelComplete_begins by (cbn; rewrite ?Htr, ?Hcl, ?Hml; easy).
    cbn. now rewrite Hn, Hs, Hcl, Hbs, Htm. }
  destruct H4 as (Hn4 & Hs4 & Htr4 & Hst4 & Hd4 & Hc4 & Hcl4 & Hbs4 & Htm4).
  clearbody s4.
  rewrite (gameLoop_transition_end timestamp2 perfNow2 now2 now1 s4) by assumption.
  pose proof (startNextLevel_view (Game.set_levelTransitionComplete (Some true) s4)) as Hv.
  revert Hv.
  generalize (startNextLevel (Game.set_levelTransitionComplete (Some true) s4)).
  intros s5 (Hcl5 & _ & Hbs5 & Htr5 & ts & Hts5 & _).
  cbn in Hcl5, Hbs5, Hts5.
  assert (Hlook : (Game.timers s5 !! 0%nat) = Some tm) by (rewrite Hts5, Htm4; reflexivity).
  unfold Game.fire. cbn [Game.timers Game.set_levelTransitionStartTime].
  rewrite Hlook, Hcb. cbn. rewrite Hbs5, Hbs4, Hcl5, Hcl4, Htr5.
  now repeat split.
Qed.

(** ** The session invariant *)

Lemma resetCounts_lookup (maxLvl lvl : Z) (m : gmap Z Game.Count) :
  (1 <= lvl <= maxLvl)%Z ->
  Game.resetCounts maxLvl m !! lvl = Some (Game.Num 0).
Proof.
  intros Hl. unfold Game.resetCounts.
  pose proof (for_range_invariant
                (fun j (m' : gmap Z Game.Count) =>
                   forall l, (1 <= l < j)%Z -> m' !! l = Some (Game.Num 0))
                (fun i m' => <[i := Game.Num 0]> m') (Z.to_nat maxLvl) 1 m) as Hinv.
  rewrite Z2Nat.id in Hinv by lia. apply Hinv; [| | lia].
  - intros l Hl'. lia.
  - intros j m' Hj IH l Hl'.
    destruct (Z.eq_dec l j) as [-> | Hne].
    + apply lookup_insert_eq.
    + rewrite lookup_insert_ne by congruence. apply IH. lia.
Qed.

Lemma incrementCount_ready (lvl : Z) (m : gmap Z Game.Count) :
  (exists n, m !! lvl = Some (Game.Num n)) ->
  forall l, (exists n, m !! l = Some (Game.Num n)) ->
            exists n, Game.incrementCount lvl m !! l = Some (Game.Num n).
Proof.
  intros [n Hn] l [n' Hl]. unfold Game.incrementCount. rewrite Hn.
  destruct (Z.eq_dec l lvl) as [-> | Hne].
  - exists (n + 1)%Z. apply lookup_insert_eq.
  - exists n'. now rewrite lookup_insert_ne by congruence.
Qed.

Lemma butterfly_update_level (cv : Canvas.t) (deltaTime : R) (b : Butterfly.t) (k : nat) :
  Butterfly.level (Butterfly.update random cv deltaTime b k).1 = Butterfly.level b.
Proof.
  rewrite update_unfold.
  unfold Butterfly.pruneOffScreen, Butterfly.trackCrossing, Butterfly.advance,
    Butterfly.wobble, Butterfly.flapWings.
  repeat match goal with
         | |- context [if ?c then _ else _] => destruct c; cbn
         end; reflexivity.
Qed.

Lemma updateButterflies_levels (deltaTime : R) (n : nat) :
  forall g,
    Forall (fun b => (1 <= Butterfly.level b <= 10)%Z) (Game.butterflies g) ->
    Forall (fun b => (1 <= Butterfly.level b <= 10)%Z)
      (Game.butterflies (updateButterflies deltaTime n g)).
Proof.
  induction n as [| n IH]; intros g Hall; [exact Hall |].
  cbn [Game.updateButterflies].
  destruct (Game.butterflies g !! n) as [b |] eqn:Hb; [| exact Hall].
  pose proof (butterfly_update_level (Game.canvas g) deltaTime b (Game.randomCalls g)) as Hl.
  destruct (Butterfly.update random (Game.canvas g) deltaTime b (Game.randomCalls g))
    as [b' k].
  cbn [fst] in Hl. apply IH.
  assert (Hins : Forall (fun c => (1 <= Butterfly.level c <= 10)%Z)
                   (<[n := b']> (Game.butterflies g))).
  { apply Forall_insert; [exact Hall |]. rewrite Hl.
    rewrite Forall_lookup in Hall. exact (Hall n b Hb). }
  destruct (Butterfly.shouldRemove b'); cbn; [now apply Forall_delete | exact Hins].
Qed.

Lemma spawnExtraGroup_levels (g : Game.t) :
  (1 <= Game.currentLevel g <= 10)%Z ->
  Forall (fun b => (1 <= Butterfly.level b <= 10)%Z) (Game.butterflies g) ->
  Forall (fun b => (1 <= Butterfly.level b <= 10)%Z)
    (Game.butterflies (spawnExtraGroup g)).
Proof.
  intros Hcl Hall. unfold Game.spawnExtraGroup.
  destruct (_ && _); [| exact Hall].
  cbn [Game.nextRandom]. destruct (bool_decide _); [| exact Hall].
  match goal with
  | |- Forall _ (Game.butterflies (Game.for_range ?n ?i ?body ?s)) =>
      pose proof (for_range_invariant
                    (fun _ s' =>
                       Game.currentLevel s' = Game.currentLevel g /\
                       Forall (fun b => (1 <= Butterfly.level b <= 10)%Z)
                         (Game.butterflies s'))
                    body n i s) as Hinv
  end.
  apply Hinv; [now split |].
  intros j s' _ [Hcl' Hall']. cbv beta.
  match goal with
  | |- context [Game.positionButterflyInFormation ?r ?b ?f ?i ?c ?sd ?s0] =>
      pose proof (positionButterflyInFormation_game b f i c sd s0) as [k' Hv];
      pose proof (positionButterflyInFormation_keeps b f i c sd s0) as (Hk & _);
      destruct (Game.positionButterflyInFormation r b f i c sd s0) as [b' g']
  end.
  cbn [fst snd] in Hv, Hk. subst g'. cbn. split; [exact Hcl' |].
  apply Forall_app. split; [exact Hall' |].
  apply Forall_singleton. cbn. rewrite Hk. cbn. lia.
Qed.

Lemma spawnBossButterfly_levels (g : Game.t) :
  exists ts,
    Game.timers (spawnBossButterfly g) = Game.timers g ++ ts /\
    Forall (fun tm => forall b, Game.callback tm = Game.PushButterfly b ->
                                (1 <= Butterfly.level b <= 10)%Z) ts.
Proof.
  unfold Game.spawnBossButterfly.
  cbn -[Butterfly.new cos sin PI IZR Rmult Rplus Rdiv Z.add Z.mul].
  unfold Game.setTimeout.
  cbn -[Butterfly.new cos sin PI IZR Rmult Rplus Rdiv Z.add Z.mul].
  rewrite <- !app_assoc. cbn [app].
  eexists. split; [reflexivity |].
  repeat (apply Forall_cons; split;
          [intros b Hb; injection Hb as <-; cbn; lia |]).
  apply Forall_nil_2.
Qed.

(** Every insertion a spawn schedules carries a butterfly of one of the
    ten levels. *)
Lemma spawnButterflies_levels (wave : Z) (g : Game.t) :
  Game.maxLevel g = 10%Z ->
  exists ts,
    Game.timers (spawnButterflies wave g) = Game.timers g ++ ts /\
    Forall (fun tm => forall b, Game.callback tm = Game.PushButterfly b ->
                                (1 <= Butterfly.level b <= 10)%Z) ts.
Proof.
  intros Hmax. unfold Game.spawnButterflies.
  set (g1 := Game.set_hasPlayedInitialCountdown true g).
  assert (Hm1 : Game.maxLevel g1 = 10%Z) by exact Hmax.
  change (Game.timers g) with (Game.timers g1). clearbody g1. clear Hmax g.
  destruct (Z.eq_dec (Z.min (Z.max (Game.currentLevel g1) 1) (Game.maxLevel g1)) 10%Z)
    as [Hboss | Hreg].
  - unfold Game.actuallySpawnButterflies.
    rewrite Hboss. cbn [Z.eqb Pos.eqb]. apply spawnBossButterfly_levels.
  - destruct (decide (Game.butterflyImages g1 = [])) as [Hnil | Himg].
    + unfold Game.actuallySpawnButterflies.
      apply Z.eqb_neq in Hreg. rewrite Hreg, Hnil. cbn [length Z.of_nat].
      destruct (_ || _) eqn:E.
      * exists []. now rewrite app_nil_r.
      * apply orb_false_iff in E as [E1 _]. apply Z.ltb_ge in E1. lia.
    + destruct (actuallySpawnButterflies_regular wave g1 Hreg ltac:(lia) Himg)
        as (_ & _ & _ & ts & Hts & _ & Hall).
      exists ts. split; [exact Hts |].
      apply Forall_lookup. intros i tm Hi b Hb.
      destruct (Hall i tm Hi) as (_ & _ & b' & Hcb & Hlvl & _).
      rewrite Hcb in Hb. injection Hb as <-. rewrite Hlvl. lia.
Qed.

Lemma checkCatch_keeps_level (pl : Player.t) (px py : R) (b : Butterfly.t) (k : nat) :
  Butterfly.level (checkCatch pl px py b k).1.2 = Butterfly.level b.
Proof. apply checkCatch_level. Qed.

Lemma catchLoop_ready (px py : R) (n : nat) :
  forall g,
    (forall lvl, (1 <= lvl <= 10)%Z ->
                 exists c, Game.butterflyCounts g !! lvl = Some (Game.Num c)) ->
    Forall (fun b => (1 <= Butterfly.level b <= 10)%Z) (Game.butterflies g) ->
    (forall lvl, (1 <= lvl <= 10)%Z ->
                 exists c, Game.butterflyCounts (catchLoop px py n g) !! lvl =
                           Some (Game.Num c)) /\
    Forall (fun b => (1 <= Butterfly.level b <= 10)%Z)
      (Game.butterflies (catchLoop px py n g)).
Proof.
  induction n as [| n IH]; intros g Hcnt Hall; [now split |].
  cbn [Game.catchLoop].
  destruct (Game.butterflies g !! n) as [b |] eqn:Hb; [| now split].
  pose proof (checkCatch_level (Game.player g) px py b (Game.randomCalls g)) as Hl.
  destruct (checkCatch (Game.player g) px py b (Game.randomCalls g)) as [[flag b'] k].
  cbn [fst snd] in Hl.
  assert (Hb' : (1 <= Butterfly.level b' <= 10)%Z).
  { rewrite Hl. rewrite Forall_lookup in Hall. exact (Hall n b Hb). }
  assert (Hins : Forall (fun c => (1 <= Butterfly.level c <= 10)%Z)
                   (<[n := b']> (Game.butterflies g))).
  { now apply Forall_insert. }
  destruct flag.
  - cbn. split; [| now apply Forall_delete].
    intros lvl Hlvl. apply incrementCount_ready; [now apply Hcnt | now apply Hcnt].
  - apply IH; cbn; assumption.
Qed.

Lemma exceptSwarm_exceptPlay (a b : Game.t) :
  Game.exceptSwarm a = Game.exceptSwarm b -> Game.exceptPlay a = Game.exceptPlay b.
Proof.
  destruct a, b. unfold Game.exceptSwarm, Game.exceptPlay. cbn.
  intros H. injection H as -> -> -> -> -> -> -> -> -> -> -> -> -> -> -> -> -> -> -> -> -> -> -> -> -> ->.
  reflexivity.
Qed.

Lemma levelComplete_view (fastTransition : bool) (now : Z) (g : Game.t) :
  Game.exceptPlay (Game.levelComplete fastTransition now g) = Game.exceptPlay g /\
  Game.butterflies (Game.levelComplete fastTransition now g) = Game.butterflies g.
Proof.
  unfold Game.levelComplete.
  destruct (Game.isLevelTransitioning g); [now split |]. cbn.
  destruct (_ <? _)%Z; split; try reflexivity; now destruct g.
Qed.

(** [update] leaves the catch counts, the pending timers and [maxLevel]
    alone, and keeps every butterfly within the ten levels. *)
Lemma update_view (deltaTime : R) (now : Z) (g : Game.t) :
  Game.exceptPlay (update deltaTime now g) = Game.exceptPlay g.
Proof.
  unfold Game.update.
  destruct (Game.isLevelTransitioning g); [reflexivity |].
  destruct (Game.countdownActive g); [reflexivity |].
  pose proof (updateButterflies_view deltaTime (length (Game.butterflies g)) g) as Hv.
  apply exceptSwarm_exceptPlay in Hv. revert Hv.
  generalize (updateButterflies deltaTime (length (Game.butterflies g)) g). intros g1 Hv.
  set (g2 := Game.set_levelTimer _
               match Game.levelTimer g1 with
               | Some _ => g1
               | None => Game.set_levelTimer (Some 0) g1
               end).
  assert (Hg2 : Game.exceptPlay g2 = Game.exceptPlay g).
  { rewrite <- Hv. subst g2. destruct (Game.levelTimer g1); now destruct g1. }
  clearbody g2. clear Hv g1.
  assert (Hlc : forall ft,
             Game.exceptPlay (Game.set_levelTimer (Some 0) (Game.levelComplete ft now g2)) =
             Game.exceptPlay g).
  { intros ft. destruct (levelComplete_view ft now g2) as [Hl _]. revert Hl.
    generalize (Game.levelComplete ft now g2). intros g3 Hl.
    rewrite <- Hg2, <- Hl. now destruct g3. }
  destruct (_ && _); [apply Hlc |].
  match goal with
  | |- context [spawnExtraGroup ?x] =>
      pose proof (spawnExtraGroup_view x) as Hx;
      assert (Hin : Game.exceptPlay x = Game.exceptPlay g)
        by (destruct (_ && _); [apply Hlc | exact Hg2]);
      revert Hx Hin; generalize (spawnExtraGroup x); generalize x
  end.
  intros x y Hx Hin. apply exceptSwarm_exceptPlay in Hx. congruence.
Qed.

Lemma update_levels (deltaTime : R) (now : Z) (g : Game.t) :
  Game.maxLevel g = 10%Z ->
  (1 <= Game.currentLevel g <= 10)%Z ->
  Forall (fun b => (1 <= Butterfly.level b <= 10)%Z) (Game.butterflies g) ->
  Forall (fun b => (1 <= Butterfly.level b <= 10)%Z)
    (Game.butterflies (update deltaTime now g)).
Proof.
  intros Hml Hcl Hall. unfold Game.update.
  destruct (Game.isLevelTransitioning g); [exact Hall |].
  destruct (Game.countdownActive g); [exact Hall |].
  pose proof (updateButterflies_view deltaTime (length (Game.butterflies g)) g) as Hv.
  pose proof (updateButterflies_levels deltaTime (length (Game.butterflies g)) g Hall) as Hl.
  revert Hv Hl.
  generalize (updateButterflies deltaTime (length (Game.butterflies g)) g). intros g1 Hv Hl.
  pose proof (f_equal Game.currentLevel Hv) as Hc1.
  pose proof (f_equal Game.maxLevel Hv) as Hm1. cbn in Hc1, Hm1.
  set (g2 := Game.set_levelTimer _
               match Game.levelTimer g1 with
               | Some _ => g1
               | None => Game.set_levelTimer (Some 0) g1
               end).
  assert (Hg2 : Game.currentLevel g2 = Game.currentLevel g /\
                Game.maxLevel g2 = 10%Z /\
                Forall (fun b => (1 <= Butterfly.level b <= 10)%Z) (Game.butterflies g2)).
  { subst g2. destruct (Game.levelTimer g1); cbn; repeat split; congruence. }
  destruct Hg2 as (Hc2 & Hm2 & Hl2). clearbody g2. clear Hv Hl Hc1 Hm1 g1.
  assert (Hlc : forall ft,
             let g3 := Game.set_levelTimer (Some 0) (Game.levelComplete ft now g2) in
             (1 <= Game.currentLevel g3 <= 10)%Z /\
             Forall (fun b => (1 <= Butterfly.level b <= 10)%Z) (Game.butterflies g3)).
  { intros ft.
    destruct (levelComplete_advances ft now g2) as [_ Hadv].
    destruct (levelComplete_view ft now g2) as [_ Hbs]. revert Hadv Hbs.
    generalize (Game.levelComplete ft now g2). intros g3 Hadv Hbs. cbn.
    rewrite Hbs. split; [lia | exact Hl2]. }
  destruct (_ && _); [apply Hlc |].
  apply spawnExtraGroup_levels.
  - destruct (_ && _); [apply Hlc | lia].
  - destruct (_ && _); [apply Hlc | exact Hl2].
Qed.

Lemma wellFormed_intro (g : Game.t) :
  Game.maxLevel g = 10%Z ->
  (1 <= Game.currentLevel g <= 10)%Z ->
  (forall lvl, (1 <= lvl <= 10)%Z ->
               exists n, Game.butterflyCounts g !! lvl = Some (Game.Num n)) ->
  Forall (fun b => (1 <= Butterfly.level b <= 10)%Z) (Game.butterflies g) ->
  Forall (fun tm => forall b, Game.callback tm = Game.PushButterfly b ->
                              (1 <= Butterfly.level b <= 10)%Z) (Game.timers g) ->
  Game.wellFormed g.
Proof. intros. now repeat split. Qed.

Lemma update_wellFormed (deltaTime : R) (now : Z) (g : Game.t) :
  Game.wellFormed g -> Game.wellFormed (update deltaTime now g).
Proof.
  intros (Hml & Hcl & Hcnt & Hall & Htm).
  pose proof (update_view deltaTime now g) as Hv.
  pose proof (update_levels deltaTime now g Hml Hcl Hall) as Hl.
  destruct (update_advances deltaTime now g) as [[Hml' Hadv] _].
  revert Hv Hl Hml' Hadv. generalize (update deltaTime now g). intros g' Hv Hl Hml' Hadv.
  pose proof (f_equal Game.butterflyCounts Hv) as Hc.
  pose proof (f_equal Game.timers Hv) as Ht. cbn in Hc, Ht.
  apply wellFormed_intro; rewrite ?Hc, ?Ht, ?Hml'; try assumption. lia.
Qed.

Lemma startNextLevel_wellFormed (g : Game.t) :
  Game.wellFormed g -> Game.wellFormed (startNextLevel g).
Proof.
  intros (Hml & Hcl & Hcnt & Hall & Htm). unfold Game.startNextLevel.
  set (g1 := Game.set_levelTimer _ _).
  assert (Hg1 : Game.wellFormed g1) by (subst g1; now apply wellFormed_intro).
  clearbody g1. clear - Hg1. destruct Hg1 as (Hml & Hcl & Hcnt & Hall & Htm).
  destruct (spawnButterflies_view 0 g1) as (Hv & _).
  destruct (spawnButterflies_levels 0 g1 Hml) as (ts & Hts & Hlv).
  revert Hv Hts. generalize (spawnButterflies 0 g1). intros g2 Hv Hts.
  pose proof (f_equal Game.maxLevel Hv) as F1.
  pose proof (f_equal Game.currentLevel Hv) as F2.
  pose proof (f_equal Game.butterflyCounts Hv) as F3.
  pose proof (f_equal Game.butterflies Hv) as F4.
  cbn in F1, F2, F3, F4.
  apply wellFormed_intro; cbn; rewrite ?F1, ?F2, ?F3, ?F4, ?Hts; try assumption.
  apply Forall_app. now split.
Qed.

Lemma wellFormed_ext (g g' : Game.t) :
  Game.maxLevel g' = Game.maxLevel g ->
  Game.currentLevel g' = Game.currentLevel g ->
  Game.butterflyCounts g' = Game.butterflyCounts g ->
  Game.butterflies g' = Game.butterflies g ->
  Game.timers g' = Game.timers g ->
  Game.wellFormed g -> Game.wellFormed g'.
Proof.
  intros F1 F2 F3 F4 F5 (Hml & Hcl & Hcnt & Hall & Htm).
  apply wellFormed_intro; rewrite ?F1, ?F2, ?F3, ?F4, ?F5; assumption.
Qed.

Lemma regularFrame_wellFormed (timestamp : R) (now : Z) (g : Game.t) :
  Game.wellFormed g -> Game.wellFormed (Game.regularFrame random timestamp now g).
Proof.
  intros Hwf.
  assert (Hlast : Game.wellFormed (Game.set_lastTimestamp timestamp g))
    by (now apply (wellFormed_ext g)).
  unfold Game.regularFrame.
  destruct (_ && _); [| exact Hlast]. cbv zeta.
  revert Hlast. generalize (Game.set_lastTimestamp timestamp g).
  intros g1 Hg1. now apply update_wellFormed.
Qed.

Lemma gameLoop_wellFormed (timestamp perfNow : R) (now : Z) (g : Game.t) :
  Game.wellFormed g -> Game.wellFormed (gameLoop timestamp perfNow now g).
Proof.
  intros Hwf. unfold Game.gameLoop.
  destruct (Game.showingNameInput g); [exact Hwf |].
  destruct (Game.showingSummaryScreen g); [exact Hwf |].
  destruct (Game.levelTransitionStartTime g) as [startTime |];
    [| now apply regularFrame_wellFormed].
  destruct (Game.isLevelTransitioning g && negb (startTime =? 0)%Z);
    [| now apply regularFrame_wellFormed].
  cbv zeta.
  destruct (bool_decide
              (Math.min 1 (IZR (now - startTime) / IZR (Game.levelTransitionDuration g)) < 1));
    [exact Hwf |].
  destruct (bool_decide (Game.levelTransitionComplete g = Some false));
    [| now apply regularFrame_wellFormed].
  assert (H1 : Game.wellFormed (Game.set_levelTransitionComplete (Some true) g))
    by (now apply (wellFormed_ext g)).
  apply startNextLevel_wellFormed in H1. revert H1.
  generalize (startNextLevel (Game.set_levelTransitionComplete (Some true) g)).
  intros g' H1. now apply (wellFormed_ext g').
Qed.

Lemma handleClick_wellFormed (px py : R) (g : Game.t) :
  Game.wellFormed g -> Game.wellFormed (handleClick px py g).
Proof.
  intros (Hml & Hcl & Hcnt & Hall & Htm).
  pose proof (handleClick_view px py g) as Hv.
  assert (Hr : (forall lvl, (1 <= lvl <= 10)%Z ->
                  exists c, Game.butterflyCounts (handleClick px py g) !! lvl =
                            Some (Game.Num c)) /\
               Forall (fun b => (1 <= Butterfly.level b <= 10)%Z)
                 (Game.butterflies (handleClick px py g))).
  { unfold Game.handleClick.
    destruct (_ || _); [now split |]. destruct (_ || _); [now split |].
    now apply catchLoop_ready. }
  revert Hv Hr. generalize (handleClick px py g). intros g' Hv [Hc' Hb'].
  pose proof (f_equal Game.maxLevel Hv) as F1.
  pose proof (f_equal Game.currentLevel Hv) as F2.
  pose proof (f_equal Game.timers Hv) as F3.
  cbn in F1, F2, F3.
  apply wellFormed_intro; rewrite ?F1, ?F2, ?F3; assumption.
Qed.

Lemma countdownTick_wellFormed (k : nat) (g : Game.t) :
  Game.wellFormed g -> Game.wellFormed (countdownTick k g).
Proof.
  intros (Hml & Hcl & Hcnt & Hall & Htm). unfold Game.countdownTick.
  cbn [Game.countdownTime Game.set_countdownTime].
  destruct (Game.countdownTime g - 1 <=? 0)%Z; [| now apply wellFormed_intro].
  set (g1 := Game.set_levelTimer _ _).
  assert (Hg1 : Game.wellFormed g1).
  { subst g1. apply wellFormed_intro; try assumption. cbn. now apply Forall_delete. }
  clearbody g1. clear - Hg1. destruct Hg1 as (Hml & Hcl & Hcnt & Hall & Htm).
  destruct (spawnButterflies_view 0 g1) as (Hv & _).
  destruct (spawnButterflies_levels 0 g1 Hml) as (ts & Hts & Hlv).
  revert Hv Hts. generalize (spawnButterflies 0 g1). intros g2 Hv Hts.
  pose proof (f_equal Game.maxLevel Hv) as F1.
  pose proof (f_equal Game.currentLevel Hv) as F2.
  pose proof (f_equal Game.butterflyCounts Hv) as F3.
  pose proof (f_equal Game.butterflies Hv) as F4.
  cbn in F1, F2, F3, F4.
  apply wellFormed_intro; rewrite ?F1, ?F2, ?F3, ?F4, ?Hts; try assumption.
  apply Forall_app. now split.
Qed.

Lemma fire_wellFormed (k : nat) (g : Game.t) :
  Game.wellFormed g -> Game.wellFormed (fire k g).
Proof.
  intros Hwf. unfold Game.fire.
  destruct (Game.timers g !! k) as [tm |] eqn:Hk; [| exact Hwf].
  destruct (Game.callback tm) as [b |] eqn:Hcb; [| now apply countdownTick_wellFormed].
  destruct Hwf as (Hml & Hcl & Hcnt & Hall & Htm).
  apply wellFormed_intro; try assumption.
  - cbn. apply Forall_app. split; [exact Hall |]. apply Forall_singleton.
    unfold Game.validTimers in Htm. rewrite Forall_lookup in Htm. exact (Htm k tm Hk b Hcb).
  - cbn. now apply Forall_delete.
Qed.

(** The invariant of a session. *)
Lemma step_wellFormed (g : Game.t) (e : Game.Event) :
  Game.wellFormed g -> Game.wellFormed (step g e).
Proof.
  destruct e as [timestamp perfNow now | px py | k]; cbn [Game.step].
  - apply gameLoop_wellFormed.
  - apply handleClick_wellFormed.
  - apply fire_wellFormed.
Qed.

Lemma run_wellFormed (es : list Game.Event) :
  forall g, Game.wellFormed g -> Game.wellFormed (run es g).
Proof.
  induction es as [| e es IH]; intros g Hwf; [exact Hwf |].
  change (run (e :: es) g) with (run es (step g e)).
  apply IH. now apply step_wellFormed.
Qed.

Lemma start_wellFormed (g : Game.t) :
  Game.maxLevel g = 10%Z -> Game.validTimers g -> Game.wellFormed (Game.start g).
Proof.
  intros Hml Htm. apply wellFormed_intro; cbn -[Game.resetCounts]; rewrite ?Hml.
  - reflexivity.
  - lia.
  - intros lvl Hlvl. exists 0%Z. now apply resetCounts_lookup.
  - constructor.
  - apply Forall_app. split; [exact Htm |]. apply Forall_singleton. discriminate.
Qed.

(** ** Clicks during a session *)

(** Every state a session goes through is well formed: [start] makes it so
    and no frame, click or timer callback breaks it. *)
Lemma session_wellFormed (g0 : Game.t) (events : list Game.Event) :
  Game.maxLevel g0 = 10%Z -> Game.validTimers g0 ->
  Game.wellFormed (run events (Game.start g0)).
Proof. intros Hml Htm. apply run_wellFormed. now apply start_wellFormed. Qed.

(** The counter of a live butterfly's level holds a number. *)
Lemma wellFormed_count (g : Game.t) (b : Butterfly.t) :
  Game.wellFormed g -> b ∈ Game.butterflies g ->
  exists n, Game.butterflyCounts g !! Butterfly.level b = Some (Game.Num n).
Proof.
  intros (_ & _ & Hcnt & Hall & _) Hin. apply Hcnt.
  rewrite Forall_forall in Hall. now apply Hall.
Qed.

(** C3 -- catch scoring.  In any well-formed state (every state of a session
    is, by [session_wellFormed]) during normal play, when the hit-test, which
    runs from the most recently spawned butterfly back and stops at the first
    [checkCatch] success, catches a butterfly [b] of level [L]: the score
    grows by exactly [10 * L], [butterflyCounts[L]] grows by exactly 1, the
    collection loses [b] and nothing else, and the butterflies spawned before
    [b] are not even tested, so no second one is caught.  When no butterfly
    is within catch range the click changes nothing at all. *)
Theorem catch_scoring (g : Game.t) (px py : R) :
  Game.wellFormed g ->
  Game.playing g ->
  (forall (pre post : list Butterfly.t) (b : Butterfly.t),
      Game.butterflies g = pre ++ b :: post ->
      catches (Game.player g) px py b = true ->
      Forall (fun c => catches (Game.player g) px py c = false) post ->
      let g' := handleClick px py g in
      let post' := (sweep px py (Game.player g) post (Game.randomCalls g)).1 in
      Game.score g' = (Game.score g + 10 * Butterfly.level b)%Z /\
      (exists n : Z,
          Game.butterflyCounts g !! Butterfly.level b = Some (Game.Num n) /\
          Game.butterflyCounts g' =
            <[Butterfly.level b := Game.Num (n + 1)]> (Game.butterflyCounts g)) /\
      Game.butterflies g' = pre ++ post' /\
      length post' = length post /\
      (Forall (fun c => Butterfly.isCaught (Game.player g) px py c = false) post ->
       post' = post) /\
      length (Game.butterflies g') = (length (Game.butterflies g) - 1)%nat) /\
  (Forall (fun c => Butterfly.isCaught (Game.player g) px py c = false)
     (Game.butterflies g) ->
   handleClick px py g = g).
Proof.
  intros Hwf Hplay. split; [| apply handleClick_miss].
  intros pre post b Hbs Hc Hpost g' post'. subst g' post'.
  destruct (wellFormed_count g b Hwf) as [n Hn].
  { rewrite Hbs. apply elem_of_app. right. apply elem_of_cons. now left. }
  rewrite (handleClick_catch px py pre post b g Hplay Hbs Hc Hpost). cbn.
  split; [lia |]. split.
  { exists n. split; [exact Hn |]. unfold Game.incrementCount. now rewrite Hn. }
  split; [reflexivity |]. split; [apply sweep_length |]. split.
  { intros Hout. now rewrite sweep_out_of_range. }
  rewrite Hbs, !length_app, sweep_length. cbn. lia.
Qed.

(** C10 -- one click can hurt the boss and catch another butterfly.  In any
    well-formed state during normal play, with a boss that has more than one
    hit point and an earlier-spawned butterfly that is not a boss both within
    catch range, and nothing else in range among the butterflies spawned
    after the latter, a single click takes one hit point from the boss (and
    speeds it up by 10% with a new random heading) without stopping the
    loop, and then removes the other butterfly with its score and count
    updates. *)
Theorem boss_hit_and_catch (g : Game.t) (px py : R)
    (pre mid post : list Butterfly.t) (nb boss : Butterfly.t) :
  Game.wellFormed g ->
  Game.playing g ->
  Game.butterflies g = pre ++ nb :: mid ++ boss :: post ->
  Butterfly.isBoss boss = true ->
  (1 < Butterfly.health boss)%Z ->
  Butterfly.isCaught (Game.player g) px py boss = true ->
  Butterfly.isBoss nb = false ->
  Butterfly.isCaught (Game.player g) px py nb = true ->
  Forall (fun c => Butterfly.isCaught (Game.player g) px py c = false) mid ->
  Forall (fun c => Butterfly.isCaught (Game.player g) px py c = false) post ->
  let g' := handleClick px py g in
  exists (boss' : Butterfly.t) (n : Z),
    Game.butterflies g' = pre ++ mid ++ boss' :: post /\
    Butterfly.health boss' = (Butterfly.health boss - 1)%Z /\
    Butterfly.speed boss' = Butterfly.speed boss * 1.1 /\
    Butterfly.direction boss' = random (Game.randomCalls g) * PI * 2 /\
    Butterfly.vx boss' = cos (Butterfly.direction boss') * Butterfly.speed boss' /\
    Butterfly.vy boss' = sin (Butterfly.direction boss') * Butterfly.speed boss' /\
    Game.score g' = (Game.score g + 10 * Butterfly.level nb)%Z /\
    Game.butterflyCounts g !! Butterfly.level nb = Some (Game.Num n) /\
    Game.butterflyCounts g' =
      <[Butterfly.level nb := Game.Num (n + 1)]> (Game.butterflyCounts g).
Proof.
  intros Hwf Hplay Hbs Hboss Hh Hbin Hnb Hnbin Hmid Hpost g'. subst g'.
  destruct (wellFormed_count g nb Hwf) as [n Hn].
  { rewrite Hbs. apply elem_of_app. right. apply elem_of_cons. now left. }
  destruct (checkCatch_boss_hit random (Game.player g) px py boss (Game.randomCalls g)
              Hbin Hboss Hh)
    as (boss' & Hcc & Hh' & Hs' & Hd' & Hvx & Hvy & _).
  assert (Hout : forall l, Forall (fun c => Butterfly.isCaught (Game.player g) px py c = false) l ->
                 Forall (fun c => catches (Game.player g) px py c = false) l).
  { intros l Hl. eapply Forall_impl; [exact Hl |]. intros c Hc.
    unfold Butterfly.catches, Butterfly.checkCatch. now rewrite Hc. }
  assert (Hsw : sweep px py (Game.player g) (mid ++ boss :: post) (Game.randomCalls g) =
                (mid ++ boss' :: post, S (Game.randomCalls g))).
  { rewrite sweep_app. cbn [Game.sweep].
    rewrite (sweep_out_of_range (Game.player g) px py post) by assumption.
    rewrite Hcc. now rewrite sweep_out_of_range by assumption. }
  rewrite (handleClick_catch px py pre (mid ++ boss :: post) nb g Hplay Hbs).
  - rewrite Hsw. cbn. exists boss', n. repeat split; try assumption; try lia.
    unfold Game.incrementCount. now rewrite Hn.
  - rewrite <- (checkCatch_flag (Game.player g) px py nb 0).
    now rewrite checkCatch_not_boss.
  - apply Forall_app. split; [now apply Hout |]. apply Forall_cons. split; [| now apply Hout].
    rewrite <- (checkCatch_flag (Game.player g) px py boss (Game.randomCalls g)).
    now rewrite Hcc.
Qed.

End GameFacts.

(** * Properties of the helpers of [scripts/utils.js] *)

Ltac props_of_bools :=
  repeat match goal with
         | H : _ |- _ =>
             progress rewrite ?orb_true_iff, ?orb_false_iff, ?andb_true_iff,
               ?andb_false_iff, ?negb_true_iff, ?negb_false_iff,
               ?bool_decide_eq_true, ?bool_decide_eq_false in H
         end.

Section UtilsFacts.
Local Open Scope R_scope.

Lemma floor_bounds (v : R) (a c : Z) :
  IZR a <= v < IZR c -> (a <= Math.floor v < c)%Z.
Proof.
  intros [Ha Hc]. unfold Math.floor.
  destruct (base_Int_part v) as [Hle Hgt]. split.
  - assert (H : (a - 1 < Int_part v)%Z); [| lia].
    apply lt_IZR. rewrite minus_IZR. lra.
  - apply lt_IZR. lra.
Qed.

Lemma PI_bounds : 3.14 < PI < 3.15.
Proof.
  pose proof (PI_2_3_7_ineq 2) as H.
  unfold sum_f_R0, tg_alt, PI_2_3_7_tg, Ratan_seq in H. simpl in H.
  split; lra.
Qed.


(** X3 -- clamp.
    [clamp(value, min, max)] with [min <= max] returns [value] when it lies
    between the bounds and the nearer bound otherwise, so the result is
    always within the bounds and clamping twice changes nothing.  With the
    bounds the wrong way round it returns [min] whatever the value. *)
Theorem clamp_spec (value lo hi : R) :
  (lo <= hi ->
   lo <= Utils.clamp value lo hi <= hi /\
   (lo <= value <= hi -> Utils.clamp value lo hi = value) /\
   (value <= lo -> Utils.clamp value lo hi = lo) /\
   (hi <= value -> Utils.clamp value lo hi = hi) /\
   Utils.clamp (Utils.clamp value lo hi) lo hi = Utils.clamp value lo hi) /\
  (hi < lo -> Utils.clamp value lo hi = lo).
Proof.
  unfold Utils.clamp, Math.max, Math.min.
  unfold Rmax, Rmin.
  split; intros Hb; repeat split; intros; repeat destruct (Rle_dec _ _); lra.
Qed.

(** X4 -- rectsOverlap.
    [rectsOverlap] does not depend on the order of its arguments, counts
    rectangles that only share an edge as not overlapping, and a rectangle
    that overlaps itself has a positive width and a positive height: one
    whose width or height is zero or negative overlaps not even itself. *)
Theorem rectsOverlap_spec (r1 r2 : Utils.Rect) :
  Utils.rectsOverlap r1 r2 = Utils.rectsOverlap r2 r1 /\
  (Utils.rectsOverlap r1 r1 = true -> 0 < Utils.width r1 /\ 0 < Utils.height r1) /\
  (Utils.x r2 = Utils.x r1 + Utils.width r1 -> Utils.rectsOverlap r1 r2 = false) /\
  (Utils.y r2 = Utils.y r1 + Utils.height r1 -> Utils.rectsOverlap r1 r2 = false).
Proof.
  unfold Utils.rectsOverlap. split; [| split; [| split]].
  - apply eq_iff_eq_true.
    rewrite !andb_true_iff, !bool_decide_eq_true. split; intros; repeat split; lra.
  - rewrite !andb_true_iff, !bool_decide_eq_true. intros; split; lra.
  - intros Hx. apply not_true_iff_false.
    rewrite !andb_true_iff, !bool_decide_eq_true. lra.
  - intros Hy. apply not_true_iff_false.
    rewrite !andb_true_iff, !bool_decide_eq_true. lra.
Qed.

End UtilsFacts.

(** * Further properties of a single butterfly *)

Section ButterflyMore.
Local Open Scope R_scope.

Variable random : nat -> R.
Variable canvas : Canvas.t.
Variable player : Player.t.

Local Abbreviation checkCatch := (Butterfly.checkCatch random player).
Local Abbreviation checkCatches := (Butterfly.checkCatches random player).
Local Abbreviation isCaught := (Butterfly.isCaught player).
Local Abbreviation update := (Butterfly.update random canvas).
Local Abbreviation updates := (Butterfly.updates random canvas).

(** ** The constructor *)

(** X5 -- the constructor by level.
    How the constructor scales a butterfly with its level: the sprite is a
    square of side [50 * (1.2 - level * 0.05)] up to level 10 and of side 35
    from level 10 on, never smaller than 35 and, from level 0 on, never
    larger than 60; the catch radius is [40 - 3 * level] down to the floor
    of 15 reached at level 9; the speed is [80 + 15 * level]; so a higher
    level is never larger, never easier to catch and always faster. *)
Theorem constructor_by_level (img : option nat) (lvl lvl' : Z) :
  let b := Butterfly.new img lvl in
  let b' := Butterfly.new img lvl' in
  Butterfly.height b = Butterfly.width b /\
  ((lvl <= 10)%Z -> Butterfly.width b = 50 * (1.2 - IZR lvl * 0.05)) /\
  ((10 <= lvl)%Z -> Butterfly.width b = 35) /\
  35 <= Butterfly.width b /\
  ((0 <= lvl)%Z -> Butterfly.width b <= 60) /\
  ((lvl <= 8)%Z -> Butterfly.catchRadius b = 40 - 3 * IZR lvl) /\
  ((9 <= lvl)%Z -> Butterfly.catchRadius b = 15) /\
  Butterfly.speed b = 80 + 15 * IZR lvl /\
  Butterfly.hasCrossedScreen b = false /\
  Butterfly.shouldRemove b = false /\
  Butterfly.isBoss b = false /\
  Butterfly.health b = 1%Z /\
  ((lvl <= lvl')%Z ->
   Butterfly.width b' <= Butterfly.width b /\
   Butterfly.catchRadius b' <= Butterfly.catchRadius b /\
   Butterfly.speed b <= Butterfly.speed b' /\
   ((lvl < lvl')%Z -> Butterfly.speed b < Butterfly.speed b')).
Proof.
  cbv zeta. cbn. unfold Math.max.
  assert (H10 : IZR 10 = 10) by reflexivity.
  assert (H8 : IZR 8 = 8) by reflexivity.
  assert (H9 : IZR 9 = 9) by reflexivity.
  assert (H0 : IZR 0 = 0) by reflexivity.
  repeat match goal with |- _ /\ _ => split end; try reflexivity.
  - intros H. apply IZR_le in H. rewrite Rmax_left; lra.
  - intros H. apply IZR_le in H. rewrite Rmax_right; lra.
  - pose proof (Rmax_r (1.2 - IZR lvl * 0.05) 0.7). lra.
  - intros H. apply IZR_le in H.
    assert (Rmax (1.2 - IZR lvl * 0.05) 0.7 <= 1.2) by (apply Rmax_lub; lra). lra.
  - intros H. apply IZR_le in H. rewrite Rmax_left; lra.
  - intros H. apply IZR_le in H. rewrite Rmax_right; lra.
  - lra.
  - intros H. apply IZR_le in H.
    assert (Hw : Rmax (1.2 - IZR lvl' * 0.05) 0.7 <= Rmax (1.2 - IZR lvl * 0.05) 0.7).
    { apply Rle_max_compat_r. lra. }
    assert (Hc : Rmax (40 - IZR lvl' * 3) 15 <= Rmax (40 - IZR lvl * 3) 15).
    { apply Rle_max_compat_r. lra. }
    repeat match goal with |- _ /\ _ => split end; try lra.
    intros Hlt. apply IZR_lt in Hlt. lra.
Qed.

(** ** Catching *)

Lemma iter_speed_up (n : nat) (s : R) :
  Nat.iter n (fun v => v * 1.1) s = s * 1.1 ^ n.
Proof.
  induction n as [| n IH]; simpl; [lra |]. rewrite IH. ring.
Qed.

(** X6 -- a boss needs every hit point.
    A boss needs as many hits as it has hit points: with [n + 1] hit points
    it answers [n] clicks within range with "not caught" and the next one
    with "caught"; by then its speed has gone [n] times through
    [speed *= 1.1], it has drawn [n] random numbers and its health is 0. *)
Theorem boss_needs_every_hit_point (n : nat) (b : Butterfly.t) (k : nat)
    (clicks : list (R * R)) :
  Butterfly.isBoss b = true ->
  Butterfly.health b = Z.of_nat (S n) ->
  length clicks = S n ->
  Forall (fun p => isCaught p.1 p.2 b = true) clicks ->
  exists b',
    checkCatches clicks b k = (replicate n false ++ [true], b', (k + n)%nat) /\
    Butterfly.health b' = 0%Z /\
    Butterfly.speed b' = Nat.iter n (fun speed => speed * 1.1) (Butterfly.speed b).
Proof.
  intros Hboss Hh Hlen Hin.
  destruct (boss_drain random player n clicks b k Hboss Hh Hlen Hin) as (b' & Hc & Hh' & Hs).
  exists b'. split; [exact Hc |]. split; [exact Hh' |].
  now rewrite iter_speed_up.
Qed.

(** X7 -- edge cases of checkCatch.
    The edge cases of [checkCatch].  A click out of range changes nothing
    and draws no random number, boss or not.  A boss whose health is 0 is
    not treated as a boss any more: a click within range catches it at once
    and leaves it as it is.  A boss with negative health is caught at once
    too, its health going down by one. *)
Theorem checkCatch_edge_cases (px py : R) (b : Butterfly.t) (k : nat) :
  (isCaught px py b = false -> checkCatch px py b k = (false, b, k)) /\
  (isCaught px py b = true -> Butterfly.isBoss b = true -> Butterfly.health b = 0%Z ->
   checkCatch px py b k = (true, b, k)) /\
  (isCaught px py b = true -> Butterfly.isBoss b = true -> (Butterfly.health b < 0)%Z ->
   checkCatch px py b k = (true, Butterfly.set_health (Butterfly.health b - 1) b, k)).
Proof.
  split; [apply checkCatch_miss |]. split.
  - intros Hin Hboss Hh. unfold Butterfly.checkCatch. rewrite Hin, Hboss, Hh. reflexivity.
  - intros Hin Hboss Hh. unfold Butterfly.checkCatch. rewrite Hin, Hboss. cbn.
    destruct (Z.eqb_spec (Butterfly.health b) 0) as [E | _]; [lia |]. cbn.
    destruct (Z.leb_spec (Butterfly.health b - 1) 0) as [_ | E]; [reflexivity | lia].
Qed.

(** X8 -- checkCatch keeps the target.
    [checkCatch] never moves or resizes a butterfly and never changes its
    level, catch radius or flags other than the boss's health: whatever it
    answers, the same clicks are within range afterwards. *)
Theorem checkCatch_keeps_target (px py : R) (b : Butterfly.t) (k : nat) :
  let b' := (checkCatch px py b k).1.2 in
  Butterfly.x b' = Butterfly.x b /\ Butterfly.y b' = Butterfly.y b /\
  Butterfly.width b' = Butterfly.width b /\ Butterfly.height b' = Butterfly.height b /\
  Butterfly.level b' = Butterfly.level b /\
  Butterfly.catchRadius b' = Butterfly.catchRadius b /\
  Butterfly.isBoss b' = Butterfly.isBoss b /\
  Butterfly.hasCrossedScreen b' = Butterfly.hasCrossedScreen b /\
  Butterfly.shouldRemove b' = Butterfly.shouldRemove b /\
  (Butterfly.health b' <= Butterfly.health b)%Z /\
  (forall qx qy, isCaught qx qy b' = isCaught qx qy b).
Proof.
  cbv zeta. unfold Butterfly.checkCatch.
  destruct (_ && _ && _); cbn; [| repeat split; lia].
  destruct (_ <=? _)%Z; cbn; repeat split; lia.
Qed.

(** ** Frames *)

Lemma update_keeps (deltaTime : R) (b : Butterfly.t) (k : nat) :
  let b' := (update deltaTime b k).1 in
  Butterfly.level b' = Butterfly.level b /\
  Butterfly.width b' = Butterfly.width b /\
  Butterfly.height b' = Butterfly.height b /\
  Butterfly.catchRadius b' = Butterfly.catchRadius b /\
  Butterfly.isBoss b' = Butterfly.isBoss b /\
  Butterfly.health b' = Butterfly.health b /\
  Butterfly.movementPattern b' = Butterfly.movementPattern b.
Proof.
  cbv zeta. rewrite update_unfold.
  unfold Butterfly.pruneOffScreen, Butterfly.trackCrossing, Butterfly.advance,
    Butterfly.wobble, Butterfly.flapWings.
  cbv zeta.
  repeat match goal with
         | |- context [if ?c then _ else _] => destruct c; cbn
         end; repeat split; reflexivity.
Qed.

Lemma update_shouldRemove_mono (deltaTime : R) (b : Butterfly.t) (k : nat) :
  Butterfly.shouldRemove b = true ->
  Butterfly.shouldRemove (update deltaTime b k).1 = true.
Proof.
  intros Hr. destruct (Butterfly.hasCrossedScreen b) eqn:Hc.
  - apply update_crossed; [exact Hc | now left].
  - now rewrite update_not_crossed.
Qed.

(** X9 -- what update never does.
    What [update] never does, over any number of frames: it never changes a
    butterfly's level, size, catch radius, boss flag, health or movement
    pattern, it never clears [hasCrossedScreen] and it never withdraws a
    removal flag. *)
Theorem update_never (deltaTimes : list R) (b : Butterfly.t) (k : nat) :
  let b' := (updates deltaTimes b k).1 in
  Butterfly.level b' = Butterfly.level b /\
  Butterfly.width b' = Butterfly.width b /\
  Butterfly.height b' = Butterfly.height b /\
  Butterfly.catchRadius b' = Butterfly.catchRadius b /\
  Butterfly.isBoss b' = Butterfly.isBoss b /\
  Butterfly.health b' = Butterfly.health b /\
  Butterfly.movementPattern b' = Butterfly.movementPattern b /\
  (Butterfly.hasCrossedScreen b = true -> Butterfly.hasCrossedScreen b' = true) /\
  (Butterfly.shouldRemove b = true -> Butterfly.shouldRemove b' = true).
Proof.
  cbv zeta. revert b k.
  induction deltaTimes as [| dt rest IH]; intros b k; [now repeat split |].
  cbn [Butterfly.updates].
  pose proof (update_keeps dt b k) as Hk. cbv zeta in Hk.
  pose proof (update_hasCrossedScreen_mono random canvas dt b k) as Hc.
  pose proof (update_shouldRemove_mono dt b k) as Hr.
  destruct (update dt b k) as [b1 k1]. cbn [fst] in Hk, Hc, Hr.
  destruct Hk as (H1 & H2 & H3 & H4 & H5 & H6 & H7).
  destruct (IH b1 k1) as (I1 & I2 & I3 & I4 & I5 & I6 & I7 & I8 & I9).
  repeat split; try congruence; auto.
Qed.

Lemma trackCrossing_speed (b : Butterfly.t) :
  (Butterfly.hasCrossedScreen b = true -> Butterfly.trackCrossing canvas b = b) /\
  (Butterfly.hasCrossedScreen b = false ->
   (Butterfly.hasCrossedScreen (Butterfly.trackCrossing canvas b) = false /\
    Butterfly.speed (Butterfly.trackCrossing canvas b) = Butterfly.speed b) \/
   (Butterfly.hasCrossedScreen (Butterfly.trackCrossing canvas b) = true /\
    Butterfly.speed (Butterfly.trackCrossing canvas b) = Butterfly.speed b * 1.05)).
Proof.
  unfold Butterfly.trackCrossing. split; intros Hc; rewrite Hc; cbn; [reflexivity |].
  destruct (_ && _ && _ && _); cbn; [right | left]; now split.
Qed.

Lemma before_crossing_speed (deltaTime : R) (b : Butterfly.t) (k : nat) :
  Butterfly.speed
    (Butterfly.advance deltaTime
       (Butterfly.wobble random (Butterfly.flapWings deltaTime b) k).1) =
  Butterfly.speed b.
Proof.
  unfold Butterfly.advance, Butterfly.wobble, Butterfly.flapWings. cbv zeta.
  repeat match goal with
         | |- context [if ?c then _ else _] => destruct c; cbn
         end; reflexivity.
Qed.

Lemma pruneOffScreen_speed (b : Butterfly.t) :
  Butterfly.speed (Butterfly.pruneOffScreen canvas b) = Butterfly.speed b.
Proof.
  unfold Butterfly.pruneOffScreen. cbv zeta.
  repeat match goal with
         | |- context [if ?c then _ else _] => destruct c; cbn
         end; reflexivity.
Qed.

Lemma update_speed (deltaTime : R) (b : Butterfly.t) (k : nat) :
  let b' := (update deltaTime b k).1 in
  (Butterfly.hasCrossedScreen b = true -> Butterfly.speed b' = Butterfly.speed b) /\
  (Butterfly.hasCrossedScreen b = false ->
   (Butterfly.hasCrossedScreen b' = false /\ Butterfly.speed b' = Butterfly.speed b) \/
   (Butterfly.hasCrossedScreen b' = true /\ Butterfly.speed b' = Butterfly.speed b * 1.05)).
Proof.
  cbv zeta. rewrite update_unfold.
  pose proof (before_crossing_speed deltaTime b k) as Hs.
  destruct (advance_wobble_flap_flags random deltaTime b k) as [Hf _].
  revert Hs Hf.
  generalize (Butterfly.advance deltaTime
                (Butterfly.wobble random (Butterfly.flapWings deltaTime b) k).1).
  intros b1 Hs Hf.
  destruct (pruneOffScreen_spec canvas (Butterfly.trackCrossing canvas b1))
    as (_ & _ & _ & Hp).
  rewrite pruneOffScreen_speed, Hp.
  destruct (trackCrossing_speed b1) as [T1 T0]. rewrite Hf in T1, T0.
  split; intros Hc.
  - rewrite (T1 Hc). exact Hs.
  - rewrite <- Hs. exact (T0 Hc).
Qed.

Lemma updates_hasCrossedScreen_mono (deltaTimes : list R) :
  forall (b : Butterfly.t) (k : nat),
    Butterfly.hasCrossedScreen b = true ->
    Butterfly.hasCrossedScreen (updates deltaTimes b k).1 = true.
Proof.
  induction deltaTimes as [| dt rest IH]; intros b k Hc; [exact Hc |].
  cbn [Butterfly.updates].
  pose proof (update_hasCrossedScreen_mono random canvas dt b k Hc) as Hm.
  destruct (update dt b k) as [b1 k1]. now apply IH.
Qed.

(** X10 -- the entry boost is given once.
    The boost on entering the screen is given once.  Over any number of
    frames, a butterfly that had not crossed keeps its speed until the frame
    on which it is first seen inside the canvas, has 1.05 times that speed
    from then on, and is never boosted again. *)
Theorem entry_boost_once (deltaTimes : list R) (b : Butterfly.t) (k : nat) :
  let b' := (updates deltaTimes b k).1 in
  (Butterfly.hasCrossedScreen b = true -> Butterfly.speed b' = Butterfly.speed b) /\
  (Butterfly.hasCrossedScreen b = false ->
   (Butterfly.hasCrossedScreen b' = false /\ Butterfly.speed b' = Butterfly.speed b) \/
   (Butterfly.hasCrossedScreen b' = true /\ Butterfly.speed b' = Butterfly.speed b * 1.05)).
Proof.
  cbv zeta. revert b k.
  induction deltaTimes as [| dt rest IH]; intros b k.
  { cbn. split; [reflexivity |]. intros Hc. now left. }
  cbn [Butterfly.updates].
  pose proof (update_speed dt b k) as [Hs1 Hs0]. cbv zeta in Hs1, Hs0.
  pose proof (update_hasCrossedScreen_mono random canvas dt b k) as Hm.
  destruct (update dt b k) as [b1 k1]. cbn [fst] in Hs1, Hs0, Hm.
  destruct (IH b1 k1) as [I1 I0]. split.
  - intros Hc. rewrite I1 by auto. auto.
  - intros Hc. destruct (Hs0 Hc) as [[Hc1 Hsp] | [Hc1 Hsp]].
    + destruct (I0 Hc1) as [[? ?] | [? ?]]; [left | right]; split; congruence.
    + right. split.
      * now apply updates_hasCrossedScreen_mono.
      * rewrite I1 by exact Hc1. exact Hsp.
Qed.



(** ** Random placement and heading *)

(** X12 -- setRandomPosition.
    [setRandomPosition] draws two random numbers and puts the butterfly on
    one of the four sides of the canvas, just outside it: above at
    [y = -height], right at [x = W + width], below at [y = H + height] or
    left at [x = -width], the other coordinate being drawn along that side.
    The position is therefore never inside the visible area. *)
Theorem setRandomPosition_outside (b : Butterfly.t) (k : nat) :
  (forall n, 0 <= random n < 1) ->
  0 <= Butterfly.width b ->
  0 <= Butterfly.height b ->
  0 <= Canvas.width canvas ->
  0 <= Canvas.height canvas ->
  let W := Canvas.width canvas in
  let H := Canvas.height canvas in
  let b' := (Butterfly.setRandomPosition random canvas b k).1 in
  (Butterfly.setRandomPosition random canvas b k).2 = S (S k) /\
  ((Butterfly.y b' = - Butterfly.height b /\ 0 <= Butterfly.x b' <= W) \/
   (Butterfly.x b' = W + Butterfly.width b /\ 0 <= Butterfly.y b' <= H) \/
   (Butterfly.y b' = H + Butterfly.height b /\ 0 <= Butterfly.x b' <= W) \/
   (Butterfly.x b' = - Butterfly.width b /\ 0 <= Butterfly.y b' <= H)) /\
  ~ (0 < Butterfly.x b' < W /\ 0 < Butterfly.y b' < H).
Proof.
  intros Hrand Hw Hh HW HH W H b'. subst b' W H.
  pose proof (floor_random_times (random k) 4 (Hrand k) ltac:(lia)) as Hedge.
  change (IZR 4) with 4 in Hedge.
  pose proof (Hrand (S k)) as Hr.
  unfold Butterfly.setRandomPosition. cbv zeta.
  destruct (Z.eqb_spec (Math.floor (random k * 4)) 0) as [E0 | N0].
  { cbn. split; [reflexivity |]. split; [left; split; [lra | nra] | lra]. }
  destruct (Z.eqb_spec (Math.floor (random k * 4)) 1) as [E1 | N1].
  { cbn. split; [reflexivity |]. split; [right; left; split; [lra | nra] | lra]. }
  destruct (Z.eqb_spec (Math.floor (random k * 4)) 2) as [E2 | N2].
  { cbn. split; [reflexivity |]. split; [right; right; left; split; [lra | nra] | lra]. }
  destruct (Z.eqb_spec (Math.floor (random k * 4)) 3) as [E3 | N3]; [| lia].
  cbn. split; [reflexivity |]. split; [right; right; right; split; [lra | nra] | lra].
Qed.

Lemma randomBetween_quarter_turns (k : nat) :
  0 <= random k < 1 ->
  (-1 <= (Utils.randomBetween random (- PI / 4) (PI / 4) k).1 <= 1)%Z /\
  (2 <= (Utils.randomBetween random (PI * 0.75) (PI * 1.25) k).1 <= 4)%Z /\
  (0 <= (Utils.randomBetween random 0 PI k).1 <= 4)%Z /\
  (3 <= (Utils.randomBetween random PI (PI * 2) k).1 <= 7)%Z.
Proof.
  intros Hr. pose proof PI_bounds as HPI. unfold Utils.randomBetween. cbn [fst].
  assert (H1 : (-1 <= Math.floor (random k * (PI / 4 - - PI / 4 + 1) + - PI / 4) < 2)%Z).
  { apply floor_bounds. split; nra. }
  assert (H2 : (2 <= Math.floor (random k * (PI * 1.25 - PI * 0.75 + 1) + PI * 0.75) < 5)%Z).
  { apply floor_bounds. split; nra. }
  assert (H3 : (0 <= Math.floor (random k * (PI - 0 + 1) + 0) < 5)%Z).
  { apply floor_bounds. split; nra. }
  assert (H4 : (3 <= Math.floor (random k * (PI * 2 - PI + 1) + PI) < 8)%Z).
  { apply floor_bounds. split; nra. }
  lia.
Qed.

(** X13 -- setRandomDirection.
    [setRandomDirection] draws a heading [d0] in [[0, 2 PI)] and keeps it
    unless the butterfly is beside the canvas and [d0] points away from it;
    the replacement comes from [randomBetween] and is therefore a whole
    number of radians.  Left of the canvas it is -1, 0 or 1, which points
    right; right of the canvas it is 2, 3 or 4, which points left; above it
    is one of 0..4 and below one of 3..7.  The velocity is set from the
    resulting heading; position and speed are not touched. *)
Theorem setRandomDirection_headings (b : Butterfly.t) (k : nat) :
  (forall n, 0 <= random n < 1) ->
  let d0 := random k * PI * 2 in
  let W := Canvas.width canvas in
  let H := Canvas.height canvas in
  let b' := (Butterfly.setRandomDirection random canvas b k).1 in
  let k' := (Butterfly.setRandomDirection random canvas b k).2 in
  Butterfly.vx b' = cos (Butterfly.direction b') * Butterfly.speed b' /\
  Butterfly.vy b' = sin (Butterfly.direction b') * Butterfly.speed b' /\
  Butterfly.speed b' = Butterfly.speed b /\
  Butterfly.x b' = Butterfly.x b /\
  Butterfly.y b' = Butterfly.y b /\
  ((Butterfly.direction b' = d0 /\ k' = S k) \/
   (exists n : Z, Butterfly.direction b' = IZR n /\ (-1 <= n <= 7)%Z /\ k' = S (S k))) /\
  (Butterfly.x b < 0 -> PI / 2 < d0 < PI * 1.5 ->
   exists n : Z, Butterfly.direction b' = IZR n /\ (-1 <= n <= 1)%Z /\
                 0 < cos (Butterfly.direction b')) /\
  (0 <= W < Butterfly.x b -> d0 < PI / 2 \/ PI * 1.5 < d0 ->
   exists n : Z, Butterfly.direction b' = IZR n /\ (2 <= n <= 4)%Z /\
                 cos (Butterfly.direction b') < 0) /\
  (0 <= Butterfly.x b <= W -> Butterfly.y b < 0 -> PI < d0 ->
   exists n : Z, Butterfly.direction b' = IZR n /\ (0 <= n <= 4)%Z) /\
  (0 <= Butterfly.x b <= W -> 0 <= H < Butterfly.y b -> d0 < PI ->
   exists n : Z, Butterfly.direction b' = IZR n /\ (3 <= n <= 7)%Z).
Proof.
  intros Hrand d0 W H b' k'. subst b' k' W H.
  destruct (randomBetween_quarter_turns (S k) (Hrand (S k))) as (Q1 & Q2 & Q3 & Q4).
  pose proof PI_bounds as HPI.
  unfold Butterfly.setRandomDirection. cbv zeta.
  change (Butterfly.x (Butterfly.set_direction (random k * PI * 2) b)) with (Butterfly.x b).
  change (Butterfly.y (Butterfly.set_direction (random k * PI * 2) b)) with (Butterfly.y b).
  change (Butterfly.direction (Butterfly.set_direction (random k * PI * 2) b)) with d0.
  fold d0.
  assert (Hrb : forall lo hi,
             Utils.randomBetween random lo hi (S k) =
             ((Utils.randomBetween random lo hi (S k)).1, S (S k))) by reflexivity.
  revert Q1 Q2 Q3 Q4.
  rewrite (Hrb (- PI / 4) (PI / 4)), (Hrb (PI * 0.75) (PI * 1.25)), (Hrb 0 PI),
    (Hrb PI (PI * 2)).
  generalize (Utils.randomBetween random (- PI / 4) (PI / 4) (S k)).1.
  generalize (Utils.randomBetween random (PI * 0.75) (PI * 1.25) (S k)).1.
  generalize (Utils.randomBetween random 0 PI (S k)).1.
  generalize (Utils.randomBetween random PI (PI * 2) (S k)).1.
  intros n4 n3 n2 n1 Q1 Q2 Q3 Q4. clear Hrb. cbn [fst] in Q1, Q2, Q3, Q4.
  destruct (bool_decide (Butterfly.x b < 0) &&
            (bool_decide (d0 > PI / 2) && bool_decide (d0 < PI * 1.5))) eqn:C1.
  { cbn. repeat split.
    - right. exists n1. repeat split; try reflexivity; lia.
    - intros _ _. exists n1. repeat split; try reflexivity; try lia.
      apply cos_gt_0.
      + assert (-1 <= IZR n1) by (apply (IZR_le (-1)); lia). lra.
      + assert (IZR n1 <= 1) by (apply (IZR_le n1 1); lia). lra.
    - intros Hx Hd. props_of_bools. lra.
    - intros Hx. props_of_bools. lra.
    - intros Hx. props_of_bools. lra. }
  destruct (bool_decide (Butterfly.x b > Canvas.width canvas) &&
            (bool_decide (d0 < PI / 2) || bool_decide (d0 > PI * 1.5))) eqn:C2.
  { cbn. repeat split.
    - right. exists n2. repeat split; try reflexivity; lia.
    - intros Hx Hd. props_of_bools. lra.
    - intros _ _. exists n2. repeat split; try reflexivity; try lia.
      apply cos_lt_0.
      + assert (2 <= IZR n2) by (apply (IZR_le 2); lia). lra.
      + assert (IZR n2 <= 4) by (apply (IZR_le n2 4); lia). lra.
    - intros Hx. props_of_bools. lra.
    - intros Hx. props_of_bools. lra. }
  destruct (bool_decide (Butterfly.y b < 0) && bool_decide (d0 > PI)) eqn:C3.
  { cbn. repeat split.
    - right. exists n3. repeat split; try reflexivity; lia.
    - intros Hx Hd. props_of_bools. destruct C1 as [C1 | [C1 | C1]]; lra.
    - intros Hx Hd. props_of_bools. destruct C2 as [C2 | [C2 C2']]; lra.
    - intros _ _ _. exists n3. split; [reflexivity | lia].
    - intros _ Hy Hd. props_of_bools. lra. }
  destruct (bool_decide (Butterfly.y b > Canvas.height canvas) && bool_decide (d0 < PI)) eqn:C4.
  { cbn. repeat split.
    - right. exists n4. repeat split; try reflexivity; lia.
    - intros Hx Hd. props_of_bools. destruct C1 as [C1 | [C1 | C1]]; lra.
    - intros Hx Hd. props_of_bools. destruct C2 as [C2 | [C2 C2']]; lra.
    - intros _ Hy Hd. props_of_bools. destruct C3 as [C3 | C3]; lra.
    - intros _ _ _. exists n4. split; [reflexivity | lia]. }
  cbn. repeat split.
  - now left.
  - intros Hx Hd. props_of_bools. destruct C1 as [C1 | [C1 | C1]]; lra.
  - intros Hx Hd. props_of_bools. destruct C2 as [C2 | [C2 C2']]; lra.
  - intros _ Hy Hd. props_of_bools. destruct C3 as [C3 | C3]; lra.
  - intros _ Hy Hd. props_of_bools. destruct C4 as [C4 | C4]; lra.
Qed.

(** X14 -- getMovementPattern.
    [getMovementPattern] always answers with a pattern name, never with
    [undefined]: levels 1 to 15 have a fixed pattern and draw nothing, any
    other level draws one random number and gets one of the eight patterns
    of the fallback list. *)
Theorem getMovementPattern_total (b : Butterfly.t) (k : nat) :
  0 <= random k < 1 ->
  let fallback :=
    ["zigzag"; "wave"; "circular"; "bounce"; "direct"; "erratic"; "figure8"; "spiral"]%string in
  exists name : string,
    (Butterfly.getMovementPattern random b k).1 = Some name /\
    name ∈ ("linear" :: "chase" :: fallback)%string /\
    ((1 <= Butterfly.level b <= 15)%Z ->
     (Butterfly.getMovementPattern random b k).2 = k) /\
    (~ (1 <= Butterfly.level b <= 15)%Z ->
     (Butterfly.getMovementPattern random b k).2 = S k /\ name ∈ fallback).
Proof.
  intros Hr fallback.
  assert (Hdef : exists name : string,
             (let i := Math.floor (random k * IZR (Z.of_nat (length fallback))) in
              if (i <? 0)%Z then None else fallback !! Z.to_nat i) = Some name /\
             name ∈ fallback).
  { cbv zeta. pose proof (floor_random_times (random k) 8 Hr ltac:(lia)) as Hi.
    change (IZR (Z.of_nat (length fallback))) with (IZR 8).
    destruct (Z.ltb_spec (Math.floor (random k * IZR 8)) 0) as [? | _]; [lia |].
    destruct (lookup_lt_is_Some_2 fallback (Z.to_nat (Math.floor (random k * IZR 8))))
      as [name Hname]; [cbn; lia |].
    exists name. split; [exact Hname |]. eapply list_elem_of_lookup_2. exact Hname. }
  destruct Hdef as (dname & Hd & Hin).
  assert (Hin' : dname ∈ ("linear" :: "chase" :: fallback)%string).
  { do 2 (apply elem_of_cons; right). exact Hin. }
  unfold Butterfly.getMovementPattern.
  destruct (Butterfly.level b) as [| p | p];
    [exists dname; cbn; repeat split; try assumption; lia | |
     exists dname; cbn; repeat split; try assumption; lia].
  do 4 (try destruct p as [p | p |]);
    first [ exists dname; cbn; repeat split; try assumption; lia
          | eexists; cbn [fst snd]; split; [reflexivity |];
            split; [subst fallback; repeat (apply elem_of_cons; first [left; reflexivity | right]) |];
            split; [reflexivity | lia] ].
Qed.
End ButterflyMore.

(** * Further properties of the game state *)

Section GameMore.
Local Open Scope R_scope.

Variable random : nat -> R.

Local Abbreviation handleClick := (Game.handleClick random).
Local Abbreviation catchLoop := (Game.catchLoop random).
Local Abbreviation update := (Game.update random).
Local Abbreviation updateButterflies := (Game.updateButterflies random).
Local Abbreviation spawnExtraGroup := (Game.spawnExtraGroup random).
Local Abbreviation spawnButterflies := (Game.spawnButterflies random).
Local Abbreviation actuallySpawnButterflies := (Game.actuallySpawnButterflies random).
Local Abbreviation spawnBossButterfly := (Game.spawnBossButterfly random).
Local Abbreviation positionButterflyInFormation := (Game.positionButterflyInFormation random).
Local Abbreviation startNextLevel := (Game.startNextLevel random).
Local Abbreviation countdownTick := (Game.countdownTick random).
Local Abbreviation gameLoop := (Game.gameLoop random).
Local Abbreviation fire := (Game.fire random).
Local Abbreviation step := (Game.step random).
Local Abbreviation run := (Game.run random).

(** ** Spawning *)

(** X15 -- no spawn without images.
    A regular level cannot spawn without sprites: when no butterfly image
    is loaded and the level is not the boss level, [spawnButterflies] only
    records that the countdown was played; it schedules nothing, inserts
    nothing and does not reset the level timer. *)
Theorem spawn_without_images (wave : Z) (g : Game.t) :
  Game.butterflyImages g = [] ->
  Z.min (Z.max (Game.currentLevel g) 1) (Game.maxLevel g) <> 10%Z ->
  spawnButterflies wave g = Game.set_hasPlayedInitialCountdown true g.
Proof.
  intros Himg Hlvl. unfold Game.spawnButterflies, Game.actuallySpawnButterflies. cbv zeta.
  change (Game.currentLevel (Game.set_hasPlayedInitialCountdown true g))
    with (Game.currentLevel g).
  change (Game.maxLevel (Game.set_hasPlayedInitialCountdown true g)) with (Game.maxLevel g).
  change (Game.butterflyImages (Game.set_hasPlayedInitialCountdown true g))
    with (Game.butterflyImages g).
  destruct (Z.eqb_spec (Z.min (Z.max (Game.currentLevel g) 1) (Game.maxLevel g)) 10)
    as [E | _]; [contradiction |].
  rewrite Himg. cbn [length].
  destruct (Z.ltb_spec (Z.min (Z.min (Z.max (Game.currentLevel g) 1) (Game.maxLevel g) - 1)
                          (Z.of_nat 0 - 1)) 0) as [_ | H]; [reflexivity | lia].
Qed.

(** ** The level transition *)

Lemma startNextLevel_flags (g : Game.t) :
  Game.isLevelTransitioning (startNextLevel g) = false /\
  Game.levelTransitionComplete (startNextLevel g) = Some true /\
  Game.levelTransitionStartTime (startNextLevel g) = None /\
  Game.levelTimer (startNextLevel g) = Some 0 /\
  Game.score (startNextLevel g) = Game.score g /\
  Game.butterflyCounts (startNextLevel g) = Game.butterflyCounts g /\
  Game.butterflyImages (startNextLevel g) = Game.butterflyImages g /\
  Game.showingSummaryScreen (startNextLevel g) = Game.showingSummaryScreen g.
Proof.
  unfold Game.startNextLevel. cbv zeta.
  match goal with
  | |- context [Game.spawnButterflies random 0 ?x] =>
      pose proof (spawnButterflies_view random 0 x) as [Hv _];
      pose proof (spawnButterflies_levelTimer random 0 x eq_refl) as Hlt;
      revert Hv Hlt; generalize (Game.spawnButterflies random 0 x)
  end.
  intros g' Hv Hlt.
  pose proof (f_equal Game.score Hv) as F1.
  pose proof (f_equal Game.butterflyCounts Hv) as F2.
  pose proof (f_equal Game.butterflyImages Hv) as F3.
  pose proof (f_equal Game.showingSummaryScreen Hv) as F4.
  cbn in F1, F2, F3, F4 |- *.
  repeat match goal with |- _ /\ _ => split end; try reflexivity; assumption.
Qed.

(** X16 -- the level transition freezes play.
    While the one-second level transition runs, the game stands still:
    clicks and [update] change nothing, and a frame whose [Date.now()] is
    less than 1000 ms after the start of the transition changes nothing
    either.  The first frame at or after 1000 ms ends it: the flags are
    cleared, the level timer restarts at 0, the wave of the new level is
    scheduled behind the timers already pending, and neither the level nor
    the live butterflies change. *)
Theorem transition_freezes_play (g : Game.t) (startTime : Z) :
  Game.showingNameInput g = false ->
  Game.showingSummaryScreen g = false ->
  Game.isLevelTransitioning g = true ->
  Game.levelTransitionStartTime g = Some startTime ->
  startTime <> 0%Z ->
  Game.levelTransitionDuration g = 1000%Z ->
  (forall px py : R, handleClick px py g = g) /\
  (forall (deltaTime : R) (now : Z), update deltaTime now g = g) /\
  (forall (timestamp perfNow : R) (now : Z),
      (now < startTime + 1000)%Z -> gameLoop timestamp perfNow now g = g) /\
  (forall (timestamp perfNow : R) (now : Z),
      (startTime + 1000 <= now)%Z ->
      Game.levelTransitionComplete g = Some false ->
      let g' := gameLoop timestamp perfNow now g in
      Game.isLevelTransitioning g' = false /\
      Game.levelTransitionStartTime g' = None /\
      Game.levelTransitionComplete g' = Some true /\
      Game.levelTimer g' = Some 0 /\
      Game.currentLevel g' = Game.currentLevel g /\
      Game.butterflies g' = Game.butterflies g /\
      exists ts, Game.timers g' = Game.timers g ++ ts /\ Forall Game.isInsertion ts).
Proof.
  intros Hn Hs Ht Hst Hst0 Hd. split; [| split; [| split]].
  - intros px py. unfold Game.handleClick. now rewrite Ht.
  - intros deltaTime now. unfold Game.update. now rewrite Ht.
  - intros timestamp perfNow now Hnow. unfold Game.gameLoop.
    rewrite Hn, Hs, Ht, Hst, Hd.
    apply Z.eqb_neq in Hst0. rewrite Hst0. cbn [andb negb].
    rewrite bool_decide_eq_true_2; [reflexivity |].
    unfold Math.min, Rmin.
    assert (Hz : IZR (now - startTime) < IZR 1000) by (apply IZR_lt; lia).
    change (IZR 1000) with 1000 in *.
    destruct (Rle_dec 1 (IZR (now - startTime) / 1000)); lra.
  - intros timestamp perfNow now Hnow Hc. cbv zeta.
    rewrite (gameLoop_transition_end random timestamp perfNow now startTime g
               Hn Hs Ht Hst Hst0 Hd Hc Hnow).
    pose proof (startNextLevel_view random
                  (Game.set_levelTransitionComplete (Some true) g)) as Hv.
    pose proof (startNextLevel_flags
                  (Game.set_levelTransitionComplete (Some true) g)) as Hf.
    revert Hv Hf.
    generalize (startNextLevel (Game.set_levelTransitionComplete (Some true) g)).
    intros g' (Hcl & _ & Hbs & _ & ts & Hts & Hins) (F1 & F2 & F3 & F4 & _).
    cbn in Hcl, Hbs, Hts |- *.
    repeat match goal with |- _ /\ _ => split end; try assumption; try reflexivity.
    exists ts. now split.
Qed.

(** ** The end of the game *)

Lemma summary_screen_frames (es : list Game.Event) :
  forall g,
    Game.showingSummaryScreen g = true ->
    Forall (fun e => exists timestamp perfNow now, e = Game.Frame timestamp perfNow now) es ->
    run es g = g.
Proof.
  induction es as [| e es IH]; intros g Hs Hes; [reflexivity |].
  apply Forall_cons in Hes as [(timestamp & perfNow & now & ->) Hes].
  change (run (Game.Frame timestamp perfNow now :: es) g)
    with (run es (gameLoop timestamp perfNow now g)).
  assert (Hstep : gameLoop timestamp perfNow now g = g).
  { unfold Game.gameLoop. rewrite Hs. now destruct (Game.showingNameInput g). }
  rewrite Hstep. now apply IH.
Qed.

(** X17 -- game over is final.
    Completing the last level ends play.  When [levelComplete] runs at
    [maxLevel] it stops the game and shows the summary screen without
    touching level, score, counts, butterflies or pending timers.  From then
    on [gameLoop] changes nothing, over any number of frames, and
    [handleClick] changes nothing wherever the click is: a click is acted on
    only by the listener of the summary screen's buttons, which belongs to
    the screen flow and is not part of this model.  (Pending timers still
    fire.) *)
Theorem game_over_is_final (g : Game.t) (fastTransition : bool) (now : Z) :
  Game.isLevelTransitioning g = false ->
  (Game.maxLevel g <= Game.currentLevel g)%Z ->
  let over := Game.levelComplete fastTransition now g in
  Game.showingSummaryScreen over = true /\
  Game.isRunning over = false /\
  Game.isLevelTransitioning over = true /\
  Game.currentLevel over = Game.currentLevel g /\
  Game.score over = Game.score g /\
  Game.butterflyCounts over = Game.butterflyCounts g /\
  Game.butterflies over = Game.butterflies g /\
  Game.timers over = Game.timers g /\
  (forall (timestamp perfNow : R) (now' : Z),
      gameLoop timestamp perfNow now' over = over) /\
  (forall frames : list Game.Event,
      Forall (fun e => exists timestamp perfNow now',
                         e = Game.Frame timestamp perfNow now') frames ->
      run frames over = over) /\
  (forall px py : R, handleClick px py over = over).
Proof.
  intros Ht Hmax over.
  assert (Hover : over =
                  Game.set_showingSummaryScreen true
                    (Game.set_isRunning false (Game.set_isLevelTransitioning true g))).
  { subst over. unfold Game.levelComplete. rewrite Ht. cbn.
    destruct (Z.ltb_spec (Game.currentLevel g) (Game.maxLevel g)); [lia | reflexivity]. }
  clearbody over. subst over.
  repeat match goal with |- _ /\ _ => split end; try reflexivity.
  - intros timestamp perfNow now'. unfold Game.gameLoop. cbn.
    now destruct (Game.showingNameInput g).
  - intros frames Hfr. now apply summary_screen_frames.
Qed.

(** ** When a frame ends the level *)

Lemma levelComplete_at_max (fastTransition : bool) (now : Z) (g : Game.t) :
  Game.isLevelTransitioning g = false ->
  (Game.maxLevel g <= Game.currentLevel g)%Z ->
  Game.levelComplete fastTransition now g =
  Game.set_showingSummaryScreen true
    (Game.set_isRunning false (Game.set_isLevelTransitioning true g)).
Proof.
  intros Ht Hmax. unfold Game.levelComplete. rewrite Ht. cbn.
  destruct (Z.ltb_spec (Game.currentLevel g) (Game.maxLevel g)); [lia | reflexivity].
Qed.

(** X18 -- when update ends the level.
    [update] ends the level exactly when, after moving the butterflies and
    adding the frame time to the level timer, the timer has reached 10
    seconds, or no butterfly is left and the timer has reached 2 seconds.
    It then calls [levelComplete] (next level with a transition, or the
    summary screen at the last level), resets the timer and spawns no extra
    group.  Otherwise the level goes on with the timer advanced. *)
Theorem update_ends_level (deltaTime t : R) (now : Z) (g : Game.t) :
  Game.isLevelTransitioning g = false ->
  Game.countdownActive g = false ->
  Game.levelTimer g = Some t ->
  let left :=
    Game.butterflies (updateButterflies deltaTime (length (Game.butterflies g)) g) in
  let t' := t + deltaTime in
  let g' := update deltaTime now g in
  (t' >= 10 \/ (left = [] /\ t' >= 2) ->
   Game.isLevelTransitioning g' = true /\
   Game.levelTimer g' = Some 0 /\
   Game.butterflies g' = left /\
   ((Game.currentLevel g < Game.maxLevel g)%Z ->
    Game.currentLevel g' = (Game.currentLevel g + 1)%Z /\
    Game.levelTransitionStartTime g' = Some now /\
    Game.levelTransitionDuration g' = 1000%Z /\
    Game.levelTransitionComplete g' = Some false /\
    Game.isRunning g' = Game.isRunning g /\
    Game.showingSummaryScreen g' = Game.showingSummaryScreen g) /\
   ((Game.maxLevel g <= Game.currentLevel g)%Z ->
    Game.currentLevel g' = Game.currentLevel g /\
    Game.showingSummaryScreen g' = true /\
    Game.isRunning g' = false)) /\
  (~ (t' >= 10 \/ (left = [] /\ t' >= 2)) ->
   Game.isLevelTransitioning g' = false /\
   Game.currentLevel g' = Game.currentLevel g /\
   Game.levelTimer g' = Some t').
Proof.
  intros Ht Hc Hlt left t' g'. subst left t' g'.
  unfold Game.update. rewrite Ht, Hc.
  pose proof (updateButterflies_view random deltaTime (length (Game.butterflies g)) g) as Hv.
  revert Hv. generalize (updateButterflies deltaTime (length (Game.butterflies g)) g).
  intros g1 Hv.
  pose proof (f_equal Game.levelTimer Hv) as F1.
  pose proof (f_equal Game.isLevelTransitioning Hv) as F2.
  pose proof (f_equal Game.currentLevel Hv) as F3.
  pose proof (f_equal Game.maxLevel Hv) as F4.
  pose proof (f_equal Game.isRunning Hv) as F5.
  pose proof (f_equal Game.showingSummaryScreen Hv) as F6.
  cbn in F1, F2, F3, F4, F5, F6. rewrite Hlt in F1. rewrite Ht in F2. clear Hv.
  assert (Hget : forall v x, Game.levelTimer (Game.set_levelTimer v x) = v) by reflexivity.
  cbv zeta. rewrite !F1. cbv iota. rewrite !Hget. cbn [from_option Datatypes.id].
  set (g2 := Game.set_levelTimer (Some (t + deltaTime)) g1). clear Hget.
  assert (G1 : Game.isLevelTransitioning g2 = false) by exact F2.
  assert (G2 : Game.currentLevel g2 = Game.currentLevel g) by exact F3.
  assert (G3 : Game.maxLevel g2 = Game.maxLevel g) by exact F4.
  assert (G4 : Game.butterflies g2 = Game.butterflies g1) by reflexivity.
  assert (G5 : Game.isRunning g2 = Game.isRunning g) by exact F5.
  assert (G6 : Game.showingSummaryScreen g2 = Game.showingSummaryScreen g) by exact F6.
  assert (G7 : Game.levelTimer g2 = Some (t + deltaTime)) by reflexivity.
  rewrite <- G4. clearbody g2. clear F1 F2 F3 F4 F5 F6 G4 g1.
  rewrite G1. cbn [negb]. rewrite !andb_true_r.
  assert (Hdone : forall ft,
             let g3 := Game.set_levelTimer (Some 0) (Game.levelComplete ft now g2) in
             Game.isLevelTransitioning g3 = true /\
             Game.levelTimer g3 = Some 0 /\
             Game.butterflies g3 = Game.butterflies g2 /\
             ((Game.currentLevel g < Game.maxLevel g)%Z ->
              Game.currentLevel g3 = (Game.currentLevel g + 1)%Z /\
              Game.levelTransitionStartTime g3 = Some now /\
              Game.levelTransitionDuration g3 = 1000%Z /\
              Game.levelTransitionComplete g3 = Some false /\
              Game.isRunning g3 = Game.isRunning g /\
              Game.showingSummaryScreen g3 = Game.showingSummaryScreen g) /\
             ((Game.maxLevel g <= Game.currentLevel g)%Z ->
              Game.currentLevel g3 = Game.currentLevel g /\
              Game.showingSummaryScreen g3 = true /\
              Game.isRunning g3 = false)).
  { intros ft. cbv zeta.
    destruct (Z.lt_ge_cases (Game.currentLevel g) (Game.maxLevel g)) as [Hlo | Hhi].
    - rewrite (levelComplete_begins ft now g2 G1) by lia. cbn.
      repeat match goal with |- _ /\ _ => split end; try reflexivity;
        intros; repeat split; try congruence; lia.
    - rewrite (levelComplete_at_max ft now g2 G1) by lia. cbn.
      repeat match goal with |- _ /\ _ => split end; try reflexivity;
        intros; repeat split; try congruence; lia. }
  assert (Hfold : forall x : Game.t,
             Game.isLevelTransitioning x = true -> spawnExtraGroup x = x).
  { intros x Hx. unfold Game.spawnExtraGroup. now rewrite Hx. }
  assert (Hlen : forall l : list Butterfly.t,
             (bool_decide (length l > 0)%nat = false <-> l = []) /\
             (bool_decide (length l = 0)%nat = true <-> l = [])).
  { intros l. rewrite bool_decide_eq_false, bool_decide_eq_true.
    destruct l; cbn; split; split; intros; try discriminate; try reflexivity; lia. }
  split.
  - intros Hend.
    destruct (bool_decide (t + deltaTime >= 10)) eqn:E10.
    + assert (Hallow : bool_decide (length (Game.butterflies g2) > 0)%nat ||
                       bool_decide (t + deltaTime >= 2) = true).
      { apply bool_decide_eq_true in E10. apply orb_true_iff. right.
        apply bool_decide_eq_true. lra. }
      rewrite Hallow. cbn [andb]. apply Hdone.
    + apply bool_decide_eq_false in E10.
      destruct Hend as [Hend | [Hnil H2]]; [contradiction |].
      rewrite andb_false_r.
      assert (Hallow : bool_decide (length (Game.butterflies g2) > 0)%nat ||
                       bool_decide (t + deltaTime >= 2) = true).
      { apply orb_true_iff. right. now apply bool_decide_eq_true. }
      rewrite Hallow. cbn [andb].
      rewrite (proj2 (proj2 (Hlen _)) Hnil).
      rewrite Hfold; [apply Hdone |]. apply Hdone.
  - intros Hnot.
    assert (E10 : bool_decide (t + deltaTime >= 10) = false).
    { apply bool_decide_eq_false. tauto. }
    rewrite E10, andb_false_r.
    assert (Hno : (bool_decide (length (Game.butterflies g2) > 0)%nat ||
                   bool_decide (t + deltaTime >= 2)) &&
                  bool_decide (length (Game.butterflies g2) = 0)%nat = false).
    { apply andb_false_iff.
      destruct (bool_decide (length (Game.butterflies g2) = 0)%nat) eqn:E0; [| now right].
      left. apply (Hlen _) in E0. apply orb_false_iff. split.
      - now apply (Hlen _).
      - apply bool_decide_eq_false. tauto. }
    rewrite Hno.
    pose proof (spawnExtraGroup_view random g2) as Hx. revert Hx.
    generalize (spawnExtraGroup g2). intros g3 Hx.
    pose proof (f_equal Game.isLevelTransitioning Hx) as X1.
    pose proof (f_equal Game.currentLevel Hx) as X2.
    pose proof (f_equal Game.levelTimer Hx) as X3.
    cbn in X1, X2, X3. repeat split; congruence.
Qed.

(** ** The butterfly loop of [update] *)

Lemma updateButterflies_prefix (deltaTime : R) (n : nat) :
  forall (g : Game.t) (pre post : list Butterfly.t),
    Game.butterflies g = pre ++ post ->
    length pre = n ->
    exists pre',
      Game.butterflies (updateButterflies deltaTime n g) = pre' ++ post /\
      Forall (fun b => Butterfly.shouldRemove b = false) pre' /\
      (length pre' <= n)%nat /\
      (Game.randomCalls g <= Game.randomCalls (updateButterflies deltaTime n g))%nat.
Proof.
  induction n as [| i IH]; intros g pre post Hbs Hlen.
  { destruct pre; [| discriminate]. exists []. cbn. now repeat split. }
  assert (Hne : pre <> []) by (intros ->; discriminate).
  destruct (exists_last Hne) as (pre0 & b & ->). clear Hne.
  rewrite length_app in Hlen. cbn in Hlen.
  assert (Hi : length pre0 = i) by lia. clear Hlen.
  rewrite <- app_assoc in Hbs. cbn [app] in Hbs.
  cbn [Game.updateButterflies].
  assert (Hlook : Game.butterflies g !! i = Some b).
  { rewrite Hbs, lookup_app_r by lia. now replace (i - length pre0)%nat with 0%nat by lia. }
  rewrite Hlook.
  assert (Hk : (Game.randomCalls g <=
                (Butterfly.update random (Game.canvas g) deltaTime b (Game.randomCalls g)).2)%nat).
  { unfold Butterfly.update, Butterfly.wobble.
    destruct (String.eqb _ _); [destruct (bool_decide _) |]; cbn; lia. }
  destruct (Butterfly.update random (Game.canvas g) deltaTime b (Game.randomCalls g))
    as [b' k] eqn:Hup.
  cbn [snd] in Hk. cbv zeta.
  assert (Hins : <[i := b']> (Game.butterflies g) = pre0 ++ b' :: post).
  { rewrite Hbs, insert_app_r_alt by lia.
    now replace (i - length pre0)%nat with 0%nat by lia. }
  destruct (Butterfly.shouldRemove b') eqn:Hrem.
  - match goal with
    | |- context [Game.updateButterflies random deltaTime i ?x] =>
        assert (Hx : Game.randomCalls x = k) by reflexivity;
        destruct (IH x pre0 post) as (pre' & H1 & H2 & H3 & H4); [| exact Hi |]
    end.
    + cbn. rewrite Hins. subst i. now rewrite delete_middle.
    + rewrite Hx in H4. exists pre'. rewrite H1.
      split; [reflexivity |]. split; [exact H2 |]. split; lia.
  - match goal with
    | |- context [Game.updateButterflies random deltaTime i ?x] =>
        assert (Hx : Game.randomCalls x = k) by reflexivity;
        destruct (IH x pre0 (b' :: post)) as (pre' & H1 & H2 & H3 & H4);
          [| exact Hi |]
    end.
    + cbn. exact Hins.
    + rewrite Hx in H4. exists (pre' ++ [b']). rewrite H1, <- app_assoc. cbn [app].
      split; [reflexivity |]. split; [| split].
      * apply Forall_app. split; [exact H2 |]. now apply Forall_singleton.
      * rewrite length_app. cbn. lia.
      * lia.
Qed.

(** X19 -- the butterfly loop sweeps.
    The butterfly loop of [update] leaves no butterfly that is flagged for
    removal, never adds one, and changes nothing else in the game but the
    count of random numbers drawn. *)
Theorem updateButterflies_sweeps (deltaTime : R) (g : Game.t) :
  let g' := updateButterflies deltaTime (length (Game.butterflies g)) g in
  Forall (fun b => Butterfly.shouldRemove b = false) (Game.butterflies g') /\
  (length (Game.butterflies g') <= length (Game.butterflies g))%nat /\
  (Game.randomCalls g <= Game.randomCalls g')%nat /\
  Game.exceptSwarm g' = Game.exceptSwarm g.
Proof.
  cbv zeta.
  destruct (updateButterflies_prefix deltaTime (length (Game.butterflies g)) g
              (Game.butterflies g) [] (eq_sym (app_nil_r _)) eq_refl)
    as (pre' & H1 & H2 & H3 & H4).
  rewrite H1, app_nil_r. repeat split; try assumption.
  apply updateButterflies_view.
Qed.

(** ** The opportunistic extra group *)

(** X20 -- the extra group.
    [spawnExtraGroup] does nothing during a transition or with twenty or
    more live butterflies, and draws a single random number otherwise; only
    when that is below 0.01 does it add a group, of three to five
    butterflies of the current level at 1.2 times the level's base speed,
    appended to the live collection at once, without a timer. *)
Theorem extra_group (g : Game.t) :
  (forall n, 0 <= random n < 1) ->
  let k := Game.randomCalls g in
  let g' := spawnExtraGroup g in
  (Game.isLevelTransitioning g = true \/ (20 <= length (Game.butterflies g))%nat ->
   g' = g) /\
  (Game.isLevelTransitioning g = false -> (length (Game.butterflies g) < 20)%nat ->
   0.01 <= random k -> g' = Game.set_randomCalls (S k) g) /\
  exists added : list Butterfly.t,
    Game.butterflies g' = Game.butterflies g ++ added /\
    (added = [] \/ (3 <= length added <= 5)%nat) /\
    (Game.isLevelTransitioning g = false -> (length (Game.butterflies g) < 20)%nat ->
     random k < 0.01 ->
     Z.of_nat (length added) = (3 + Math.floor (random (2 + k)%nat * 3))%Z) /\
    Forall (fun b => Butterfly.level b = Game.currentLevel g /\
                     Butterfly.speed b = (80 + IZR (Game.currentLevel g) * 15) * 1.2 /\
                     Butterfly.isBoss b = false /\
                     Butterfly.health b = 1%Z) added /\
    Game.timers g' = Game.timers g.
Proof.
  intros Hrand k g'. subst g' k. unfold Game.spawnExtraGroup.
  destruct (Game.isLevelTransitioning g) eqn:Ht.
  { cbn. split; [reflexivity |]. split; [discriminate |].
    exists []. rewrite app_nil_r. split; [reflexivity |]. split; [now left |].
    split; [discriminate |]. split; [constructor | reflexivity]. }
  cbn [negb andb].
  destruct (bool_decide (length (Game.butterflies g) < 20)%nat) eqn:H20.
  2:{ apply bool_decide_eq_false in H20.
      split; [reflexivity |]. split; [intros _ Hl; lia |].
      exists []. rewrite app_nil_r. split; [reflexivity |]. split; [now left |].
      split; [intros _ Hl; lia |]. split; [constructor | reflexivity]. }
  apply bool_decide_eq_true in H20.
  split; [intros [? | ?]; [discriminate | lia] |].
  cbn [Game.nextRandom].
  destruct (bool_decide (random (Game.randomCalls g) < 0.01)) eqn:Hr.
  2:{ apply bool_decide_eq_false in Hr. split; [reflexivity |].
      exists []. cbn. rewrite app_nil_r. split; [reflexivity |]. split; [now left |].
      split; [intros _ _ Hlt; lra |]. split; [constructor | reflexivity]. }
  apply bool_decide_eq_true in Hr.
  split; [intros _ _ Hge; lra |].
  cbv zeta. cbn [Game.randomCalls Game.set_randomCalls].
  change (Game.randomCalls
            (Game.set_randomCalls (S (Game.randomCalls g)) g)) with (S (Game.randomCalls g)).
  pose proof (floor_random_times (random (2 + Game.randomCalls g)%nat) 3
                (Hrand _) ltac:(lia)) as Hcount.
  change (IZR 3) with 3 in Hcount.
  match goal with
  | |- context [Game.for_range ?n ?i ?body ?s0] =>
      pose proof (for_range_invariant
        (fun j s =>
           Game.exceptSwarm s = Game.exceptSwarm g /\
           exists added,
             Game.butterflies s = Game.butterflies g ++ added /\
             Z.of_nat (length added) = j /\
             Forall (fun b => Butterfly.level b = Game.currentLevel g /\
                              Butterfly.speed b = (80 + IZR (Game.currentLevel g) * 15) * 1.2 /\
                              Butterfly.isBoss b = false /\
                              Butterfly.health b = 1%Z) added)
        body n i s0) as Hinv;
      set (loop := Game.for_range n i body s0) in *
  end.
  destruct Hinv as (Hview & added & Hbs & Hn & Hall).
  - split; [now destruct g |]. exists []. cbn. rewrite app_nil_r. now repeat split.
  - intros j s (Hj0 & Hj1) (Hview & added & Hbs & Hn & Hall). cbv beta.
    pose proof (f_equal Game.currentLevel Hview) as Hcl. cbn in Hcl.
    match goal with
    | |- context [Game.positionButterflyInFormation ?r ?b ?f ?i ?c ?sd ?s0] =>
        pose proof (position_view r b f i c sd s0) as [Hv1 _];
        pose proof (positionButterflyInFormation_keeps r b f i c sd s0)
          as (Hk1 & Hk2 & Hk3 & Hk4);
        pose proof (positionButterflyInFormation_game r b f i c sd s0) as [kk Hg];
        destruct (Game.positionButterflyInFormation r b f i c sd s0) as [b' s']
    end.
    cbn [fst snd] in *. subst s'. cbn -[Butterfly.new].
    split; [rewrite <- Hview; now destruct s |].
    eexists (added ++ [_]). rewrite Hbs, <- app_assoc. split; [reflexivity |].
    split; [rewrite length_app; cbn; lia |].
    apply Forall_app. split; [exact Hall |]. apply Forall_singleton.
    cbn -[Butterfly.new]. rewrite Hk1, Hk2, Hk3, Hk4, Hcl. now cbn.
  - exists added. split; [exact Hbs |].
    assert (Hlen : Z.of_nat (length added) =
                   (3 + Math.floor (random (2 + Game.randomCalls g)%nat * 3))%Z).
    { rewrite Hn. cbn [Nat.add] in *. lia. }
    split; [right; cbn [Nat.add] in *; lia |]. split; [intros _ _ _; exact Hlen |].
    split; [exact Hall |].
    pose proof (f_equal Game.timers Hview) as Htm. exact Htm.
Qed.

(** ** The pointer *)

Lemma checkCatch_pointer (clientX clientY left top px py : R) (pl : Player.t)
    (b : Butterfly.t) (k : nat) :
  Butterfly.checkCatch random (Player.updatePosition clientX clientY left top pl) px py b k =
  Butterfly.checkCatch random pl px py b k.
Proof. reflexivity. Qed.

Lemma catchLoop_pointer (clientX clientY left top px py : R) (n : nat) :
  forall g,
    catchLoop px py n (Game.mouseMove clientX clientY left top g) =
    Game.mouseMove clientX clientY left top (catchLoop px py n g).
Proof.
  induction n as [| i IH]; intros g; [reflexivity |].
  cbn [Game.catchLoop].
  change (Game.butterflies (Game.mouseMove clientX clientY left top g))
    with (Game.butterflies g).
  destruct (Game.butterflies g !! i) as [b |]; [| reflexivity].
  change (Game.player (Game.mouseMove clientX clientY left top g))
    with (Player.updatePosition clientX clientY left top (Game.player g)).
  change (Game.randomCalls (Game.mouseMove clientX clientY left top g))
    with (Game.randomCalls g).
  rewrite checkCatch_pointer.
  destruct (Butterfly.checkCatch random (Game.player g) px py b (Game.randomCalls g))
    as [[caught b'] k].
  destruct caught.
  - now destruct g.
  - cbv zeta. rewrite <- IH. f_equal.
Qed.

(** X21 -- the pointer position is ignored.
    Where the pointer is does not matter to a click: [handleClick] tests
    the click point against each butterfly and uses of the player only the
    net radius, which [updatePosition] leaves alone.  Moving the pointer
    before a click or after it gives the same state. *)
Theorem pointer_position_is_ignored (clientX clientY left top px py : R) (g : Game.t) :
  handleClick px py (Game.mouseMove clientX clientY left top g) =
  Game.mouseMove clientX clientY left top (handleClick px py g).
Proof.
  unfold Game.handleClick.
  change (Game.isLevelTransitioning (Game.mouseMove clientX clientY left top g))
    with (Game.isLevelTransitioning g).
  change (Game.countdownActive (Game.mouseMove clientX clientY left top g))
    with (Game.countdownActive g).
  change (Game.showingStartScreen (Game.mouseMove clientX clientY left top g))
    with (Game.showingStartScreen g).
  change (Game.showingInstructions (Game.mouseMove clientX clientY left top g))
    with (Game.showingInstructions g).
  change (Game.showingSummaryScreen (Game.mouseMove clientX clientY left top g))
    with (Game.showingSummaryScreen g).
  change (Game.butterflies (Game.mouseMove clientX clientY left top g))
    with (Game.butterflies g).
  destruct (_ || _); [reflexivity |]. destruct (_ || _); [reflexivity |].
  apply catchLoop_pointer.
Qed.
End GameMore.

(** * Properties of whole sessions *)

Section SessionFacts.
Local Open Scope R_scope.

Variable random : nat -> R.

Local Abbreviation handleClick := (Game.handleClick random).
Local Abbreviation catchLoop := (Game.catchLoop random).
Local Abbreviation update := (Game.update random).
Local Abbreviation spawnButterflies := (Game.spawnButterflies random).
Local Abbreviation startNextLevel := (Game.startNextLevel random).
Local Abbreviation countdownTick := (Game.countdownTick random).
Local Abbreviation gameLoop := (Game.gameLoop random).
Local Abbreviation fire := (Game.fire random).
Local Abbreviation step := (Game.step random).
Local Abbreviation run := (Game.run random).

(** ** Score and catch counts *)

Lemma for_range_sum_acc (F : Z -> Z) (n : nat) :
  forall (i acc : Z),
    Game.for_range n i (fun j t => (t + F j)%Z) acc =
    (acc + Game.for_range n i (fun j t => (t + F j)%Z) 0%Z)%Z.
Proof.
  induction n as [| n IH]; intros i acc; cbn [Game.for_range]; [lia |].
  rewrite (IH (i + 1)%Z (acc + F i)%Z), (IH (i + 1)%Z (0 + F i)%Z). lia.
Qed.

Lemma for_range_sum_change (F F' : Z -> Z) (L d : Z) (n : nat) :
  (forall j, j <> L -> F' j = F j) ->
  F' L = (F L + d)%Z ->
  forall i : Z,
    Game.for_range n i (fun j t => (t + F' j)%Z) 0%Z =
    (Game.for_range n i (fun j t => (t + F j)%Z) 0%Z +
     if bool_decide (i <= L < i + Z.of_nat n)%Z then d else 0)%Z.
Proof.
  intros Hne HL. induction n as [| n IH]; intros i; cbn [Game.for_range].
  { rewrite bool_decide_eq_false_2 by lia. lia. }
  rewrite (for_range_sum_acc F' n), (for_range_sum_acc F n), (IH (i + 1)%Z).
  destruct (Z.eq_dec i L) as [-> | Hi].
  - rewrite HL. rewrite (bool_decide_eq_false_2 (L + 1 <= L < _)%Z) by lia.
    rewrite bool_decide_eq_true_2 by lia. lia.
  - rewrite (Hne i Hi).
    destruct (bool_decide (i + 1 <= L < i + 1 + Z.of_nat n)%Z) eqn:E.
    + apply bool_decide_eq_true in E. rewrite bool_decide_eq_true_2 by lia. lia.
    + apply bool_decide_eq_false in E. rewrite bool_decide_eq_false_2 by lia. lia.
Qed.

Lemma counts_increment (g g' : Game.t) (L n : Z) :
  Game.maxLevel g' = Game.maxLevel g ->
  (1 <= L <= Game.maxLevel g)%Z ->
  Game.butterflyCounts g !! L = Some (Game.Num n) ->
  Game.butterflyCounts g' = <[L := Game.Num (n + 1)]> (Game.butterflyCounts g) ->
  Game.pointsOfCounts g' = (Game.pointsOfCounts g + 10 * L)%Z /\
  Game.totalCaught g' = (Game.totalCaught g + 1)%Z.
Proof.
  intros Hml HL Hn Hc. unfold Game.pointsOfCounts, Game.totalCaught. rewrite Hml, Hc.
  split.
  - rewrite (for_range_sum_change
               (fun i => 10 * i * match Game.butterflyCounts g !! i with
                                  | Some (Game.Num c) => c
                                  | _ => 0
                                  end)%Z
               (fun i => 10 * i * match <[L := Game.Num (n + 1)]> (Game.butterflyCounts g) !! i with
                                  | Some (Game.Num c) => c
                                  | _ => 0
                                  end)%Z L (10 * L)%Z).
    + rewrite bool_decide_eq_true_2 by lia. reflexivity.
    + intros j Hj. now rewrite lookup_insert_ne.
    + rewrite lookup_insert_eq, Hn. lia.
  - rewrite (for_range_sum_change
               (fun i => match Game.butterflyCounts g !! i with
                         | Some (Game.Num c) => c
                         | _ => 0
                         end)%Z
               (fun i => match <[L := Game.Num (n + 1)]> (Game.butterflyCounts g) !! i with
                         | Some (Game.Num c) => c
                         | _ => 0
                         end)%Z L 1%Z).
    + rewrite bool_decide_eq_true_2 by lia. reflexivity.
    + intros j Hj. now rewrite lookup_insert_ne.
    + rewrite lookup_insert_eq, Hn. lia.
Qed.

Lemma counts_same (g g' : Game.t) :
  Game.maxLevel g' = Game.maxLevel g ->
  Game.butterflyCounts g' = Game.butterflyCounts g ->
  Game.pointsOfCounts g' = Game.pointsOfCounts g /\
  Game.totalCaught g' = Game.totalCaught g.
Proof.
  intros Hml Hc. unfold Game.pointsOfCounts, Game.totalCaught. now rewrite Hml, Hc.
Qed.

(** What a click does to the tally: nothing, or one catch of a level that
    is on screen. *)
Lemma catchLoop_tally (px py : R) (n : nat) :
  forall g,
    let g' := catchLoop px py n g in
    (Game.score g' = Game.score g /\
     Game.butterflyCounts g' = Game.butterflyCounts g /\
     length (Game.butterflies g') = length (Game.butterflies g)) \/
    (exists L,
        L ∈ map Butterfly.level (Game.butterflies g) /\
        Game.score g' = (Game.score g + L * 10)%Z /\
        Game.butterflyCounts g' = Game.incrementCount L (Game.butterflyCounts g) /\
        S (length (Game.butterflies g')) = length (Game.butterflies g)).
Proof.
  induction n as [| i IH]; intros g; cbv zeta; [left; now repeat split |].
  cbn [Game.catchLoop].
  destruct (Game.butterflies g !! i) as [b |] eqn:Hb; [| left; now repeat split].
  pose proof (checkCatch_level random (Game.player g) px py b (Game.randomCalls g)) as Hlvl.
  destruct (Butterfly.checkCatch random (Game.player g) px py b (Game.randomCalls g))
    as [[caught b'] k].
  cbn [fst snd] in Hlvl. cbv zeta.
  assert (Hmap : map Butterfly.level (<[i := b']> (Game.butterflies g)) =
                 map Butterfly.level (Game.butterflies g)).
  { rewrite list_fmap_insert, Hlvl. apply list_insert_id.
    rewrite list_lookup_fmap, Hb. reflexivity. }
  assert (Hi : (i < length (Game.butterflies g))%nat) by (eapply lookup_lt_Some; eauto).
  destruct caught.
  - right. exists (Butterfly.level b). cbn. rewrite Hlvl.
    split; [| split; [reflexivity | split; [reflexivity |]]].
    + apply list_elem_of_fmap. exists b. split; [reflexivity |].
      eapply list_elem_of_lookup_2. exact Hb.
    + rewrite length_delete, length_insert; [lia |].
      apply lookup_lt_is_Some. now rewrite length_insert.
  - match goal with
    | |- context [Game.catchLoop random px py i ?x] =>
        specialize (IH x); cbv zeta in IH;
        assert (X1 : Game.score x = Game.score g) by reflexivity;
        assert (X2 : Game.butterflyCounts x = Game.butterflyCounts g) by reflexivity;
        assert (X3 : Game.butterflies x = <[i := b']> (Game.butterflies g)) by reflexivity;
        revert IH X1 X2 X3; generalize (Game.catchLoop random px py i x); generalize x
    end.
    intros x y IH X1 X2 X3. rewrite X1, X2, X3, Hmap, length_insert in IH. exact IH.
Qed.

Lemma regularFrame_keeps_tally (timestamp : R) (now : Z) (g : Game.t) :
  Game.score (Game.regularFrame random timestamp now g) = Game.score g /\
  Game.butterflyCounts (Game.regularFrame random timestamp now g) = Game.butterflyCounts g.
Proof.
  unfold Game.regularFrame. destruct (_ && _); [| now split]. cbv zeta.
  pose proof (update_view random ((timestamp - Game.lastTimestamp g) / 1000) now
                (Game.set_lastTimestamp timestamp g)) as Hv.
  revert Hv.
  generalize (update ((timestamp - Game.lastTimestamp g) / 1000) now
                (Game.set_lastTimestamp timestamp g)).
  intros g' Hv.
  pose proof (f_equal Game.score Hv) as F1.
  pose proof (f_equal Game.butterflyCounts Hv) as F2.
  cbn in F1, F2. now split.
Qed.

Lemma gameLoop_keeps_tally (timestamp perfNow : R) (now : Z) (g : Game.t) :
  Game.score (gameLoop timestamp perfNow now g) = Game.score g /\
  Game.butterflyCounts (gameLoop timestamp perfNow now g) = Game.butterflyCounts g.
Proof.
  unfold Game.gameLoop.
  destruct (Game.showingNameInput g); [now split |].
  destruct (Game.showingSummaryScreen g); [now split |].
  destruct (Game.levelTransitionStartTime g) as [startTime |];
    [| apply regularFrame_keeps_tally].
  destruct (Game.isLevelTransitioning g && negb (startTime =? 0)%Z);
    [| apply regularFrame_keeps_tally].
  cbv zeta.
  destruct (bool_decide _); [now split |].
  destruct (bool_decide _); [| apply regularFrame_keeps_tally].
  pose proof (startNextLevel_flags random
                (Game.set_levelTransitionComplete (Some true) g)) as Hf.
  revert Hf.
  generalize (startNextLevel (Game.set_levelTransitionComplete (Some true) g)).
  intros g' (_ & _ & _ & _ & F1 & F2 & _). cbn in F1, F2 |- *. now split.
Qed.

Lemma spawnButterflies_keeps_tally (wave : Z) (g : Game.t) :
  Game.score (spawnButterflies wave g) = Game.score g /\
  Game.butterflyCounts (spawnButterflies wave g) = Game.butterflyCounts g /\
  Game.butterflies (spawnButterflies wave g) = Game.butterflies g /\
  Game.butterflyImages (spawnButterflies wave g) = Game.butterflyImages g.
Proof.
  destruct (spawnButterflies_view random wave g) as [Hv _]. revert Hv.
  generalize (spawnButterflies wave g). intros g' Hv.
  pose proof (f_equal Game.score Hv) as F1.
  pose proof (f_equal Game.butterflyCounts Hv) as F2.
  pose proof (f_equal Game.butterflies Hv) as F3.
  pose proof (f_equal Game.butterflyImages Hv) as F4.
  cbn in F1, F2, F3, F4. now repeat split.
Qed.

Lemma countdownTick_keeps_tally (k : nat) (g : Game.t) :
  Game.score (countdownTick k g) = Game.score g /\
  Game.butterflyCounts (countdownTick k g) = Game.butterflyCounts g /\
  Game.butterflyImages (countdownTick k g) = Game.butterflyImages g.
Proof.
  destruct (Z.lt_ge_cases 1 (Game.countdownTime g)) as [Hc | Hc].
  - rewrite countdownTick_counting by exact Hc. now repeat split.
  - rewrite countdownTick_zero by lia.
    match goal with
    | |- context [Game.spawnButterflies random 0 ?x] =>
        destruct (spawnButterflies_keeps_tally 0 x) as (F1 & F2 & _ & F4);
        revert F1 F2 F4; generalize (Game.spawnButterflies random 0 x)
    end.
    intros g' F1 F2 F4. cbn in F1, F2, F4. now repeat split.
Qed.

Lemma fire_keeps_tally (k : nat) (g : Game.t) :
  Game.score (fire k g) = Game.score g /\
  Game.butterflyCounts (fire k g) = Game.butterflyCounts g /\
  Game.butterflyImages (fire k g) = Game.butterflyImages g.
Proof.
  unfold Game.fire.
  destruct (Game.timers g !! k) as [tm |]; [| now repeat split].
  destruct (Game.callback tm); [now repeat split | apply countdownTick_keeps_tally].
Qed.

(** What one event does to the tally. *)
Lemma step_tally (g : Game.t) (e : Game.Event) :
  (Game.score (step g e) = Game.score g /\
   Game.butterflyCounts (step g e) = Game.butterflyCounts g) \/
  (exists px py L,
      e = Game.Click px py /\
      L ∈ map Butterfly.level (Game.butterflies g) /\
      Game.score (step g e) = (Game.score g + L * 10)%Z /\
      Game.butterflyCounts (step g e) = Game.incrementCount L (Game.butterflyCounts g) /\
      S (length (Game.butterflies (step g e))) = length (Game.butterflies g)).
Proof.
  destruct e as [timestamp perfNow now | px py | k]; cbn [Game.step].
  - left. apply gameLoop_keeps_tally.
  - unfold Game.handleClick.
    destruct (_ || _); [left; now split |]. destruct (_ || _); [left; now split |].
    pose proof (catchLoop_tally px py (length (Game.butterflies g)) g) as Hc.
    cbv zeta in Hc. revert Hc.
    generalize (catchLoop px py (length (Game.butterflies g)) g). intros g' Hc.
    destruct Hc as [(H1 & H2 & _) | (L & H1 & H2 & H3 & H4)]; [left; now split |].
    right. exists px, py, L. now repeat split.
  - left. destruct (fire_keeps_tally k g) as (F1 & F2 & _). now split.
Qed.

Lemma for_range_sum_bounds (F : Z -> Z) (n : nat) :
  forall i : Z,
    (forall j, (i <= j < i + Z.of_nat n)%Z -> (0 <= F j)%Z) ->
    (0 <= Game.for_range n i (fun j t => (t + F j)%Z) 0%Z)%Z /\
    ((forall j, (i <= j < i + Z.of_nat n)%Z -> F j = 0%Z) ->
     Game.for_range n i (fun j t => (t + F j)%Z) 0%Z = 0%Z).
Proof.
  induction n as [| n IH]; intros i HF; cbn [Game.for_range]; [split; [lia | reflexivity] |].
  rewrite for_range_sum_acc.
  destruct (IH (i + 1)%Z) as [IH1 IH2]; [intros j Hj; apply HF; lia |].
  pose proof (HF i ltac:(lia)) as Hi. split; [lia |].
  intros H0. rewrite IH2 by (intros j Hj; apply H0; lia).
  rewrite (H0 i) by lia. reflexivity.
Qed.

Lemma for_range_sum_tens (F : Z -> Z) (n : nat) :
  forall i : Z,
    Game.for_range n i (fun j t => (t + 10 * j * F j)%Z) 0%Z =
    (10 * Game.for_range n i (fun j t => (t + j * F j)%Z) 0%Z)%Z.
Proof.
  induction n as [| n IH]; intros i; cbn [Game.for_range]; [reflexivity |].
  rewrite (for_range_sum_acc (fun j => 10 * j * F j)%Z),
    (for_range_sum_acc (fun j => j * F j)%Z), IH. lia.
Qed.

(** The invariant behind the score: the state is well formed, the score is
    what the counters account for, and no counter is negative. *)
Lemma tally_start (g0 : Game.t) :
  Game.maxLevel g0 = 10%Z ->
  Game.validTimers g0 ->
  Game.wellFormed (Game.start g0) /\
  Game.score (Game.start g0) = Game.pointsOfCounts (Game.start g0) /\
  (forall L n, Game.butterflyCounts (Game.start g0) !! L = Some (Game.Num n) ->
               (1 <= L <= 10)%Z -> (0 <= n)%Z) /\
  Game.totalCaught (Game.start g0) = 0%Z.
Proof.
  intros Hml Htm.
  pose proof (start_wellFormed g0 Hml Htm) as Hwf.
  assert (Hc : forall L, (1 <= L <= 10)%Z ->
                         Game.butterflyCounts (Game.start g0) !! L = Some (Game.Num 0)).
  { intros L HL. cbn -[Game.resetCounts]. rewrite Hml. now apply resetCounts_lookup. }
  assert (Hs : Game.score (Game.start g0) = 0%Z) by reflexivity.
  assert (Hm : Game.maxLevel (Game.start g0) = 10%Z) by exact Hml.
  revert Hwf Hc Hs Hm. generalize (Game.start g0). intros s Hwf Hc Hs Hm.
  split; [exact Hwf |]. unfold Game.pointsOfCounts, Game.totalCaught. rewrite Hs, Hm.
  split; [| split].
  - symmetry.
    apply (for_range_sum_bounds
             (fun i => 10 * i * match Game.butterflyCounts s !! i with
                                | Some (Game.Num c) => c
                                | _ => 0
                                end)%Z);
      intros j Hj; rewrite Hc by (cbn in Hj; lia); lia.
  - intros L n Hn HL. rewrite Hc in Hn by exact HL. injection Hn as <-. lia.
  - apply (for_range_sum_bounds
             (fun i => match Game.butterflyCounts s !! i with
                       | Some (Game.Num c) => c
                       | _ => 0
                       end)%Z);
      intros j Hj; rewrite Hc by (cbn in Hj; lia); lia.
Qed.

Lemma tally_step (g : Game.t) (e : Game.Event) :
  Game.wellFormed g ->
  Game.score g = Game.pointsOfCounts g ->
  (forall L n, Game.butterflyCounts g !! L = Some (Game.Num n) ->
               (1 <= L <= 10)%Z -> (0 <= n)%Z) ->
  Game.wellFormed (step g e) /\
  Game.score (step g e) = Game.pointsOfCounts (step g e) /\
  (forall L n, Game.butterflyCounts (step g e) !! L = Some (Game.Num n) ->
               (1 <= L <= 10)%Z -> (0 <= n)%Z) /\
  ((Game.score (step g e) = Game.score g /\
    Game.butterflyCounts (step g e) = Game.butterflyCounts g /\
    Game.totalCaught (step g e) = Game.totalCaught g) \/
   (exists px py L n,
       e = Game.Click px py /\
       (1 <= L <= 10)%Z /\
       Game.butterflyCounts g !! L = Some (Game.Num n) /\
       Game.score (step g e) = (Game.score g + 10 * L)%Z /\
       Game.butterflyCounts (step g e) =
         <[L := Game.Num (n + 1)]> (Game.butterflyCounts g) /\
       Game.totalCaught (step g e) = (Game.totalCaught g + 1)%Z /\
       S (length (Game.butterflies (step g e))) = length (Game.butterflies g))).
Proof.
  intros Hwf Hsc Hnn.
  pose proof (step_wellFormed random g e Hwf) as Hwf'.
  pose proof (step_tally g e) as Ht.
  destruct Hwf as (Hml & Hcl & Hcnt & Hall & Htm).
  assert (Hml' : Game.maxLevel (step g e) = 10%Z) by apply Hwf'.
  revert Hwf' Ht Hml'. generalize (step g e). intros g' Hwf' Ht Hml'.
  split; [exact Hwf' |].
  destruct Ht as [[H1 H2] | (px & py & L & -> & HL & H1 & H2 & H3)].
  - destruct (counts_same g g') as [P1 P2]; [congruence | exact H2 |].
    split; [congruence |]. split; [now rewrite H2 |]. left. now repeat split.
  - assert (HL' : (1 <= L <= 10)%Z).
    { apply list_elem_of_fmap in HL as (b & -> & Hb).
      rewrite Forall_forall in Hall. now apply Hall. }
    destruct (Hcnt L HL') as [n Hn].
    assert (Hinc : Game.butterflyCounts g' =
                   <[L := Game.Num (n + 1)]> (Game.butterflyCounts g)).
    { rewrite H2. unfold Game.incrementCount. now rewrite Hn. }
    destruct (counts_increment g g' L n) as [P1 P2];
      [congruence | lia | exact Hn | exact Hinc |].
    split; [lia |]. split.
    + intros L0 n0 Hn0 HL0. rewrite Hinc in Hn0.
      destruct (Z.eq_dec L0 L) as [-> | Hne].
      * rewrite lookup_insert_eq in Hn0. injection Hn0 as <-.
        pose proof (Hnn L n Hn HL'). lia.
      * rewrite lookup_insert_ne in Hn0 by congruence. eauto.
    + right. exists px, py, L, n. repeat split; try assumption; lia.
Qed.

Lemma tally_run (es : list Game.Event) :
  forall g,
    Game.wellFormed g ->
    Game.score g = Game.pointsOfCounts g ->
    (forall L n, Game.butterflyCounts g !! L = Some (Game.Num n) ->
                 (1 <= L <= 10)%Z -> (0 <= n)%Z) ->
    Game.wellFormed (run es g) /\
    Game.score (run es g) = Game.pointsOfCounts (run es g) /\
    (forall L n, Game.butterflyCounts (run es g) !! L = Some (Game.Num n) ->
                 (1 <= L <= 10)%Z -> (0 <= n)%Z) /\
    (Game.score g <= Game.score (run es g))%Z /\
    (Game.totalCaught g <= Game.totalCaught (run es g))%Z.
Proof.
  induction es as [| e es IH]; intros g Hwf Hsc Hnn.
  { cbn. split; [exact Hwf |]. split; [exact Hsc |]. split; [exact Hnn |]. split; lia. }
  change (run (e :: es) g) with (run es (step g e)).
  destruct (tally_step g e Hwf Hsc Hnn) as (W & S1 & N1 & Hstep).
  revert W S1 N1 Hstep IH. generalize (step g e). intros g1 W S1 N1 Hstep IH.
  destruct (IH g1 W S1 N1) as (W2 & S2 & N2 & Hle & Hle').
  split; [exact W2 |]. split; [exact S2 |]. split; [exact N2 |]. split.
  - destruct Hstep as [(E & _) | (px & py & L & n & _ & HL & _ & E & _)]; lia.
  - destruct Hstep as [(_ & _ & E) | (px & py & L & n & _ & HL & _ & _ & _ & E & _)]; lia.
Qed.

(** X22 -- the score accounts for the catches.
    In every state of a session the score is exactly what the catch
    counters account for, ten points per level for each catch counted; the
    counters of the ten levels hold numbers that are never negative, so the
    score is a non-negative multiple of ten. *)
Theorem score_accounts_for_catches (g0 : Game.t) (events : list Game.Event) :
  Game.maxLevel g0 = 10%Z ->
  Game.validTimers g0 ->
  let s := run events (Game.start g0) in
  Game.score s = Game.pointsOfCounts s /\
  (forall L, (1 <= L <= 10)%Z ->
             exists n, Game.butterflyCounts s !! L = Some (Game.Num n) /\ (0 <= n)%Z) /\
  (0 <= Game.score s)%Z /\
  (exists q, Game.score s = (10 * q)%Z) /\
  (0 <= Game.totalCaught s)%Z.
Proof.
  intros Hml Htm. cbv zeta.
  destruct (tally_start g0 Hml Htm) as (W0 & S0 & N0 & T0).
  destruct (tally_run events (Game.start g0) W0 S0 N0) as (W & S1 & N1 & Hsc & Htc).
  assert (Hs0 : Game.score (Game.start g0) = 0%Z) by reflexivity.
  revert W S1 N1 Hsc Htc. rewrite Hs0, T0. clear.
  generalize (run events (Game.start g0)). intros s W S1 N1 Hsc Htc.
  split; [exact S1 |]. split; [| split; [exact Hsc | split; [| exact Htc]]].
  - intros L HL. destruct W as (_ & _ & Hcnt & _). destruct (Hcnt L HL) as [n Hn].
    exists n. split; [exact Hn |]. now apply (N1 L n).
  - rewrite S1. unfold Game.pointsOfCounts.
    rewrite (for_range_sum_tens
               (fun i => match Game.butterflyCounts s !! i with
                         | Some (Game.Num c) => c
                         | _ => 0
                         end)%Z).
    eexists. reflexivity.
Qed.

(** X23 -- the score moves only by catches.
    The score moves only when a click catches a butterfly.  Frames and
    timer callbacks leave score and counters alone; a click either does the
    same or removes one butterfly, adds ten times its level and raises that
    level's counter, and the summary total, by one.  So over any further
    events neither the score nor the total caught ever goes down. *)
Theorem score_moves_only_by_catches (g0 : Game.t) (events : list Game.Event)
    (e : Game.Event) :
  Game.maxLevel g0 = 10%Z ->
  Game.validTimers g0 ->
  let s := run events (Game.start g0) in
  ((Game.score (step s e) = Game.score s /\
    Game.butterflyCounts (step s e) = Game.butterflyCounts s /\
    Game.totalCaught (step s e) = Game.totalCaught s) \/
   (exists px py L n,
       e = Game.Click px py /\
       (1 <= L <= 10)%Z /\
       Game.butterflyCounts s !! L = Some (Game.Num n) /\
       Game.score (step s e) = (Game.score s + 10 * L)%Z /\
       Game.butterflyCounts (step s e) =
         <[L := Game.Num (n + 1)]> (Game.butterflyCounts s) /\
       Game.totalCaught (step s e) = (Game.totalCaught s + 1)%Z /\
       S (length (Game.butterflies (step s e))) = length (Game.butterflies s))) /\
  (forall more : list Game.Event,
      (Game.score s <= Game.score (run more s))%Z /\
      (Game.totalCaught s <= Game.totalCaught (run more s))%Z).
Proof.
  intros Hml Htm. cbv zeta.
  destruct (tally_start g0 Hml Htm) as (W0 & S0 & N0 & _).
  destruct (tally_run events (Game.start g0) W0 S0 N0) as (W & S1 & N1 & _).
  revert W S1 N1. generalize (run events (Game.start g0)). intros s W S1 N1.
  split.
  - now destruct (tally_step s e W S1 N1) as (_ & _ & _ & Hstep).
  - intros more. now destruct (tally_run more s W S1 N1) as (_ & _ & _ & H1 & H2).
Qed.
End SessionFacts.

(** ** Which butterflies a session can hold *)

Section SpriteFacts.
Local Open Scope R_scope.

Variable random : nat -> R.

Local Abbreviation handleClick := (Game.handleClick random).
Local Abbreviation catchLoop := (Game.catchLoop random).
Local Abbreviation update := (Game.update random).
Local Abbreviation updateButterflies := (Game.updateButterflies random).
Local Abbreviation spawnExtraGroup := (Game.spawnExtraGroup random).
Local Abbreviation spawnButterflies := (Game.spawnButterflies random).
Local Abbreviation actuallySpawnButterflies := (Game.actuallySpawnButterflies random).
Local Abbreviation spawnBossButterfly := (Game.spawnBossButterfly random).
Local Abbreviation positionButterflyInFormation := (Game.positionButterflyInFormation random).
Local Abbreviation startNextLevel := (Game.startNextLevel random).
Local Abbreviation countdownTick := (Game.countdownTick random).
Local Abbreviation gameLoop := (Game.gameLoop random).
Local Abbreviation fire := (Game.fire random).
Local Abbreviation step := (Game.step random).
Local Abbreviation run := (Game.run random).

Lemma ofLevelUpTo_same (imgs : list nat) (top top' : Z) (b b' : Butterfly.t) :
  Butterfly.level b' = Butterfly.level b ->
  Butterfly.image b' = Butterfly.image b ->
  (top <= top')%Z ->
  Game.ofLevelUpTo imgs top b -> Game.ofLevelUpTo imgs top' b'.
Proof. unfold Game.ofLevelUpTo. intros -> -> Hle [H1 H2]. split; [lia | exact H2]. Qed.

Lemma ofLevelUpTo_all (imgs : list nat) (top top' : Z) (l : list Butterfly.t) :
  (top <= top')%Z ->
  Forall (Game.ofLevelUpTo imgs top) l -> Forall (Game.ofLevelUpTo imgs top') l.
Proof.
  intros Hle Hall. eapply Forall_impl; [exact Hall |].
  intros b. now apply ofLevelUpTo_same.
Qed.

Lemma butterfly_update_image (cv : Canvas.t) (deltaTime : R) (b : Butterfly.t) (k : nat) :
  Butterfly.image (Butterfly.update random cv deltaTime b k).1 = Butterfly.image b.
Proof.
  rewrite update_unfold.
  unfold Butterfly.pruneOffScreen, Butterfly.trackCrossing, Butterfly.advance,
    Butterfly.wobble, Butterfly.flapWings.
  repeat match goal with
         | |- context [if ?c then _ else _] => destruct c; cbn
         end; reflexivity.
Qed.

Lemma checkCatch_image (pl : Player.t) (px py : R) (b : Butterfly.t) (k : nat) :
  Butterfly.image (Butterfly.checkCatch random pl px py b k).1.2 = Butterfly.image b.
Proof.
  unfold Butterfly.checkCatch.
  destruct (_ && _ && _); cbn; [| reflexivity].
  destruct (_ <=? _)%Z; reflexivity.
Qed.

Lemma position_image (b : Butterfly.t) (formation : string) (index count : Z)
    (spawnSide : option Z) (g : Game.t) :
  Butterfly.image (positionButterflyInFormation b formation index count spawnSide g).1 =
  Butterfly.image b.
Proof.
  unfold Game.positionButterflyInFormation.
  destruct spawnSide as [side |]; cbn -[Math.atan2 cos sin PI];
    repeat match goal with
           | |- context [if ?c then _ else _] => destruct c; cbn -[Math.atan2 cos sin PI]
           end; reflexivity.
Qed.

Lemma updateButterflies_sprites (imgs : list nat) (top : Z) (deltaTime : R) (n : nat) :
  forall g,
    Forall (Game.ofLevelUpTo imgs top) (Game.butterflies g) ->
    Forall (Game.ofLevelUpTo imgs top) (Game.butterflies (updateButterflies deltaTime n g)).
Proof.
  induction n as [| n IH]; intros g Hall; [exact Hall |].
  cbn [Game.updateButterflies].
  destruct (Game.butterflies g !! n) as [b |] eqn:Hb; [| exact Hall].
  pose proof (butterfly_update_level random (Game.canvas g) deltaTime b (Game.randomCalls g))
    as Hl.
  pose proof (butterfly_update_image (Game.canvas g) deltaTime b (Game.randomCalls g)) as Hi.
  destruct (Butterfly.update random (Game.canvas g) deltaTime b (Game.randomCalls g))
    as [b' k].
  cbn [fst] in Hl, Hi. apply IH.
  assert (Hins : Forall (Game.ofLevelUpTo imgs top) (<[n := b']> (Game.butterflies g))).
  { apply Forall_insert; [exact Hall |].
    rewrite Forall_lookup in Hall.
    exact (ofLevelUpTo_same imgs top top b b' Hl Hi ltac:(lia) (Hall n b Hb)). }
  destruct (Butterfly.shouldRemove b'); cbn; [now apply Forall_delete | exact Hins].
Qed.

Lemma catchLoop_sprites (imgs : list nat) (top : Z) (px py : R) (n : nat) :
  forall g,
    Forall (Game.ofLevelUpTo imgs top) (Game.butterflies g) ->
    Forall (Game.ofLevelUpTo imgs top) (Game.butterflies (catchLoop px py n g)).
Proof.
  induction n as [| n IH]; intros g Hall; [exact Hall |].
  cbn [Game.catchLoop].
  destruct (Game.butterflies g !! n) as [b |] eqn:Hb; [| exact Hall].
  pose proof (checkCatch_level random (Game.player g) px py b (Game.randomCalls g)) as Hl.
  pose proof (checkCatch_image (Game.player g) px py b (Game.randomCalls g)) as Hi.
  destruct (Butterfly.checkCatch random (Game.player g) px py b (Game.randomCalls g))
    as [[flag b'] k].
  cbn [fst snd] in Hl, Hi.
  assert (Hins : Forall (Game.ofLevelUpTo imgs top) (<[n := b']> (Game.butterflies g))).
  { apply Forall_insert; [exact Hall |].
    rewrite Forall_lookup in Hall.
    exact (ofLevelUpTo_same imgs top top b b' Hl Hi ltac:(lia) (Hall n b Hb)). }
  destruct flag.
  - cbn. now apply Forall_delete.
  - apply IH; cbn; assumption.
Qed.

(** The image a butterfly of level [lvl] gets when all ten are loaded. *)
Lemma own_image (imgs : list nat) (lvl : Z) :
  length imgs = 10%nat ->
  (1 <= lvl <= 10)%Z ->
  Game.at_index imgs (Z.min (lvl - 1) (Z.of_nat (length imgs) - 1)) =
  imgs !! Z.to_nat (lvl - 1).
Proof.
  intros Hlen Hl. rewrite Hlen. unfold Game.at_index.
  replace (Z.min (lvl - 1) (Z.of_nat 10 - 1)) with (lvl - 1)%Z by lia.
  destruct (Z.ltb_spec (lvl - 1) 0); [lia | reflexivity].
Qed.

Lemma spawnExtraGroup_sprites (imgs : list nat) (g : Game.t) :
  Game.butterflyImages g = imgs ->
  length imgs = 10%nat ->
  (1 <= Game.currentLevel g <= 10)%Z ->
  Forall (Game.ofLevelUpTo imgs (Game.currentLevel g)) (Game.butterflies g) ->
  Forall (Game.ofLevelUpTo imgs (Game.currentLevel g))
    (Game.butterflies (spawnExtraGroup g)).
Proof.
  intros Himg Hlen Hcl Hall. unfold Game.spawnExtraGroup.
  destruct (_ && _); [| exact Hall].
  cbn [Game.nextRandom]. destruct (bool_decide _); [| exact Hall].
  match goal with
  | |- Forall _ (Game.butterflies (Game.for_range ?n ?i ?body ?s)) =>
      pose proof (for_range_invariant
                    (fun _ s' =>
                       Game.currentLevel s' = Game.currentLevel g /\
                       Game.butterflyImages s' = imgs /\
                       Forall (Game.ofLevelUpTo imgs (Game.currentLevel g))
                         (Game.butterflies s'))
                    body n i s) as Hinv
  end.
  destruct Hinv as (_ & _ & Hfin); [now repeat split | | exact Hfin].
  intros j s' _ (Hcl' & Himg' & Hall'). cbv beta.
  match goal with
  | |- context [Game.positionButterflyInFormation ?r ?b ?f ?i ?c ?sd ?s0] =>
      pose proof (positionButterflyInFormation_game r b f i c sd s0) as [k' Hv];
      pose proof (positionButterflyInFormation_keeps r b f i c sd s0) as (Hk & _);
      pose proof (position_image b f i c sd s0) as Hi;
      destruct (Game.positionButterflyInFormation r b f i c sd s0) as [b' g']
  end.
  cbn [fst snd] in Hv, Hk, Hi. subst g'. cbn in Hk, Hi |- *.
  split; [exact Hcl' |]. split; [exact Himg' |].
  apply Forall_app. split; [exact Hall' |].
  apply Forall_singleton. split; cbn; rewrite Hk, ?Hi, ?Himg', Hcl'; [lia |].
  rewrite Himg. now apply own_image.
Qed.

Lemma spawnBossButterfly_sprites (imgs : list nat) (g : Game.t) :
  Game.butterflyImages g = imgs ->
  exists ts,
    Game.timers (spawnBossButterfly g) = Game.timers g ++ ts /\
    Forall (fun tm => forall b, Game.callback tm = Game.PushButterfly b ->
                                Game.ofLevelUpTo imgs 10 b) ts.
Proof.
  intros Himg. unfold Game.spawnBossButterfly.
  cbn -[Butterfly.new cos sin PI IZR Rmult Rplus Rdiv Z.add Z.mul].
  unfold Game.setTimeout.
  cbn -[Butterfly.new cos sin PI IZR Rmult Rplus Rdiv Z.add Z.mul].
  rewrite <- !app_assoc. cbn [app].
  eexists. split; [reflexivity |].
  repeat (apply Forall_cons; split;
          [intros b Hb; injection Hb as <-; split; cbn; [lia | now rewrite Himg] |]).
  apply Forall_nil_2.
Qed.

Lemma actuallySpawnButterflies_sprites (imgs : list nat) (wave : Z) (g : Game.t) :
  Game.maxLevel g = 10%Z ->
  (1 <= Game.currentLevel g <= 9)%Z ->
  Game.butterflyImages g = imgs ->
  length imgs = 10%nat ->
  exists ts,
    Game.timers (actuallySpawnButterflies wave g) = Game.timers g ++ ts /\
    Forall (fun tm => forall b, Game.callback tm = Game.PushButterfly b ->
                                Game.ofLevelUpTo imgs (Game.currentLevel g) b) ts.
Proof.
  intros Hmax Hcl Himg Hlen.
  unfold Game.actuallySpawnButterflies.
  replace (Z.min (Z.max (Game.currentLevel g) 1) (Game.maxLevel g))
    with (Game.currentLevel g) by lia.
  destruct (Z.eqb_spec (Game.currentLevel g) 10) as [? | _]; [lia |].
  cbv zeta. rewrite Himg, Hlen.
  replace (Z.min (Game.currentLevel g - 1) (Z.of_nat 10 - 1))
    with (Game.currentLevel g - 1)%Z by lia.
  destruct (Z.ltb_spec (Game.currentLevel g - 1) 0); [lia |].
  destruct (Z.geb_spec (Game.currentLevel g - 1) (Z.of_nat 10)); [lia |].
  cbn [orb].
  match goal with
  | |- context [Game.for_range ?n ?i ?body g] =>
      pose proof (for_range_invariant
        (fun (_ : Z) s =>
           Game.butterflyImages s = imgs /\
           exists ts,
             Game.timers s = Game.timers g ++ ts /\
             Forall (fun tm => forall b, Game.callback tm = Game.PushButterfly b ->
                                         Game.ofLevelUpTo imgs (Game.currentLevel g) b) ts)
        body n i g) as Hinv;
      set (loop := Game.for_range n i body g) in *
  end.
  destruct Hinv as (_ & ts & Hts & Hall).
  - split; [exact Himg |]. exists []. now rewrite app_nil_r.
  - intros j s _ (Himg' & ts & Hts & Hall). cbv beta.
    match goal with
    | |- context [Game.positionButterflyInFormation ?r ?b ?f ?i ?c ?sd ?s0] =>
        pose proof (positionButterflyInFormation_game r b f i c sd s0) as [k' Hv];
        pose proof (positionButterflyInFormation_keeps r b f i c sd s0) as (Hk & _);
        pose proof (position_image b f i c sd s0) as Hi;
        destruct (Game.positionButterflyInFormation r b f i c sd s0) as [b' g']
    end.
    cbn [fst snd] in Hv, Hk, Hi. subst g'. cbn in Hk, Hi |- *.
    split; [exact Himg' |].
    eexists (ts ++ [_]). split; [rewrite Hts, <- app_assoc; reflexivity |].
    apply Forall_app. split; [exact Hall |]. apply Forall_singleton.
    intros b Hb. injection Hb as <-. split; cbn; rewrite Hk, ?Hi, ?Himg'; [lia |].
    unfold Game.at_index.
    destruct (Z.ltb_spec (Game.currentLevel g - 1) 0); [lia | reflexivity].
  - exists ts. split; [exact Hts | exact Hall].
Qed.

Lemma spawnButterflies_sprites (imgs : list nat) (wave : Z) (g : Game.t) :
  Game.maxLevel g = 10%Z ->
  (1 <= Game.currentLevel g <= 10)%Z ->
  Game.butterflyImages g = imgs ->
  length imgs = 10%nat ->
  exists ts,
    Game.timers (spawnButterflies wave g) = Game.timers g ++ ts /\
    Forall (fun tm => forall b, Game.callback tm = Game.PushButterfly b ->
                                Game.ofLevelUpTo imgs (Game.currentLevel g) b) ts.
Proof.
  intros Hmax Hcl Himg Hlen. unfold Game.spawnButterflies.
  set (g1 := Game.set_hasPlayedInitialCountdown true g).
  assert (Hm1 : Game.maxLevel g1 = 10%Z) by exact Hmax.
  assert (Hi1 : Game.butterflyImages g1 = imgs) by exact Himg.
  assert (Hc1 : Game.currentLevel g1 = Game.currentLevel g) by reflexivity.
  change (Game.timers g) with (Game.timers g1). rewrite <- Hc1 in *.
  clearbody g1. clear Hmax Himg Hc1 g.
  destruct (Z.eq_dec (Game.currentLevel g1) 10%Z) as [Hboss | Hreg].
  - unfold Game.actuallySpawnButterflies.
    replace (Z.min (Z.max (Game.currentLevel g1) 1) (Game.maxLevel g1)) with 10%Z by lia.
    cbn [Z.eqb Pos.eqb]. rewrite Hboss. now apply spawnBossButterfly_sprites.
  - apply actuallySpawnButterflies_sprites; try assumption. lia.
Qed.

Lemma ownSprites_intro (imgs : list nat) (g : Game.t) :
  Game.maxLevel g = 10%Z ->
  (1 <= Game.currentLevel g <= 10)%Z ->
  Game.butterflyImages g = imgs ->
  length imgs = 10%nat ->
  Forall (Game.ofLevelUpTo imgs (Game.currentLevel g)) (Game.butterflies g) ->
  Forall (fun tm => forall b, Game.callback tm = Game.PushButterfly b ->
                              Game.ofLevelUpTo imgs (Game.currentLevel g) b)
    (Game.timers g) ->
  Game.ownSprites imgs g.
Proof. intros. unfold Game.ownSprites. tauto. Qed.

Lemma ownSprites_ext (imgs : list nat) (g g' : Game.t) :
  Game.maxLevel g' = Game.maxLevel g ->
  Game.currentLevel g' = Game.currentLevel g ->
  Game.butterflyImages g' = Game.butterflyImages g ->
  Game.butterflies g' = Game.butterflies g ->
  Game.timers g' = Game.timers g ->
  Game.ownSprites imgs g -> Game.ownSprites imgs g'.
Proof.
  intros F1 F2 F3 F4 F5 (Hml & Hcl & Himg & Hlen & Hall & Htm).
  apply ownSprites_intro; rewrite ?F1, ?F2, ?F3, ?F4, ?F5; assumption.
Qed.

Lemma pending_upTo (imgs : list nat) (top top' : Z) (ts : list Game.Timer) :
  (top <= top')%Z ->
  Forall (fun tm => forall b, Game.callback tm = Game.PushButterfly b ->
                              Game.ofLevelUpTo imgs top b) ts ->
  Forall (fun tm => forall b, Game.callback tm = Game.PushButterfly b ->
                              Game.ofLevelUpTo imgs top' b) ts.
Proof.
  intros Hle Hall. eapply Forall_impl; [exact Hall |].
  intros tm H b Hb. destruct (H b Hb) as [H1 H2]. split; [lia | exact H2].
Qed.

Lemma update_sprites (imgs : list nat) (deltaTime : R) (now : Z) (g : Game.t) :
  Game.maxLevel g = 10%Z ->
  (1 <= Game.currentLevel g <= 10)%Z ->
  Game.butterflyImages g = imgs ->
  length imgs = 10%nat ->
  Forall (Game.ofLevelUpTo imgs (Game.currentLevel g)) (Game.butterflies g) ->
  Forall (Game.ofLevelUpTo imgs (Game.currentLevel (update deltaTime now g)))
    (Game.butterflies (update deltaTime now g)).
Proof.
  intros Hml Hcl Himg Hlen Hall. unfold Game.update.
  destruct (Game.isLevelTransitioning g); [exact Hall |].
  destruct (Game.countdownActive g); [exact Hall |].
  pose proof (updateButterflies_view random deltaTime (length (Game.butterflies g)) g) as Hv.
  pose proof (updateButterflies_sprites imgs (Game.currentLevel g) deltaTime
                (length (Game.butterflies g)) g Hall) as Hl.
  revert Hv Hl.
  generalize (updateButterflies deltaTime (length (Game.butterflies g)) g). intros g1 Hv Hl.
  pose proof (f_equal Game.currentLevel Hv) as Hc1.
  pose proof (f_equal Game.maxLevel Hv) as Hm1.
  pose proof (f_equal Game.butterflyImages Hv) as Hi1. cbn in Hc1, Hm1, Hi1.
  set (g2 := Game.set_levelTimer _
               match Game.levelTimer g1 with
               | Some _ => g1
               | None => Game.set_levelTimer (Some 0) g1
               end).
  assert (Hg2 : Game.currentLevel g2 = Game.currentLevel g /\
                Game.maxLevel g2 = 10%Z /\
                Game.butterflyImages g2 = imgs /\
                Forall (Game.ofLevelUpTo imgs (Game.currentLevel g)) (Game.butterflies g2)).
  { subst g2. destruct (Game.levelTimer g1); cbn;
      repeat match goal with |- _ /\ _ => split end; congruence. }
  destruct Hg2 as (Hc2 & Hm2 & Hi2 & Hl2). rewrite <- Hc2 in Hl2, Hcl.
  clearbody g2. clear Hv Hl Hc1 Hm1 Hi1 Hc2 g1 Hall Hml Himg g.
  assert (Hlc : forall ft,
             let g3 := Game.set_levelTimer (Some 0) (Game.levelComplete ft now g2) in
             (1 <= Game.currentLevel g3 <= 10)%Z /\
             Game.butterflyImages g3 = imgs /\
             Forall (Game.ofLevelUpTo imgs (Game.currentLevel g3)) (Game.butterflies g3)).
  { intros ft.
    destruct (levelComplete_advances ft now g2) as [_ Hadv].
    destruct (levelComplete_view ft now g2) as [Hpv Hbs]. revert Hadv Hpv Hbs.
    generalize (Game.levelComplete ft now g2). intros g3 Hadv Hpv Hbs.
    pose proof (f_equal Game.butterflyImages Hpv) as Hi3. cbn in Hi3. cbn.
    rewrite Hbs, Hi3. split; [lia |]. split; [exact Hi2 |].
    apply (ofLevelUpTo_all imgs (Game.currentLevel g2)); [lia | exact Hl2]. }
  destruct (_ && _); [apply Hlc |].
  match goal with
  | |- context [spawnExtraGroup ?x] =>
      assert (Hin : (1 <= Game.currentLevel x <= 10)%Z /\
                    Game.butterflyImages x = imgs /\
                    Forall (Game.ofLevelUpTo imgs (Game.currentLevel x)) (Game.butterflies x))
        by (destruct (_ && _); [apply Hlc | now repeat match goal with |- _ /\ _ => split end]);
      revert Hin; generalize x
  end.
  intros x (Hx1 & Hx2 & Hx3).
  pose proof (spawnExtraGroup_sprites imgs x Hx2 Hlen Hx1 Hx3) as Hs.
  pose proof (spawnExtraGroup_view random x) as Hxv. revert Hs Hxv.
  generalize (spawnExtraGroup x). intros y Hs Hxv.
  pose proof (f_equal Game.currentLevel Hxv) as Hcy. cbn in Hcy. now rewrite Hcy.
Qed.

Lemma update_ownSprites (imgs : list nat) (deltaTime : R) (now : Z) (g : Game.t) :
  Game.ownSprites imgs g -> Game.ownSprites imgs (update deltaTime now g).
Proof.
  intros (Hml & Hcl & Himg & Hlen & Hall & Htm).
  pose proof (update_view random deltaTime now g) as Hv.
  pose proof (update_sprites imgs deltaTime now g Hml Hcl Himg Hlen Hall) as Hl.
  destruct (update_advances random deltaTime now g) as [[Hml' Hadv] _].
  revert Hv Hl Hml' Hadv. generalize (update deltaTime now g). intros g' Hv Hl Hml' Hadv.
  pose proof (f_equal Game.butterflyImages Hv) as Hi.
  pose proof (f_equal Game.timers Hv) as Ht. cbn in Hi, Ht.
  apply ownSprites_intro; rewrite ?Hi, ?Ht, ?Hml'; try assumption; [lia |].
  apply (pending_upTo imgs (Game.currentLevel g)); [lia | exact Htm].
Qed.

Lemma spawn_ownSprites (imgs : list nat) (wave : Z) (g : Game.t) :
  Game.ownSprites imgs g -> Game.ownSprites imgs (spawnButterflies wave g).
Proof.
  intros (Hml & Hcl & Himg & Hlen & Hall & Htm).
  destruct (spawnButterflies_view random wave g) as (Hv & _).
  destruct (spawnButterflies_sprites imgs wave g Hml Hcl Himg Hlen) as (ts & Hts & Hlv).
  revert Hv Hts. generalize (spawnButterflies wave g). intros g2 Hv Hts.
  pose proof (f_equal Game.maxLevel Hv) as F1.
  pose proof (f_equal Game.currentLevel Hv) as F2.
  pose proof (f_equal Game.butterflyImages Hv) as F3.
  pose proof (f_equal Game.butterflies Hv) as F4.
  cbn in F1, F2, F3, F4.
  apply ownSprites_intro; rewrite ?F1, ?F2, ?F3, ?F4, ?Hts; try assumption.
  apply Forall_app. now split.
Qed.

Lemma startNextLevel_ownSprites (imgs : list nat) (g : Game.t) :
  Game.ownSprites imgs g -> Game.ownSprites imgs (startNextLevel g).
Proof.
  intros Hs. unfold Game.startNextLevel.
  set (g1 := Game.set_levelTimer _ _).
  assert (Hg1 : Game.ownSprites imgs g1) by (subst g1; now apply (ownSprites_ext imgs g)).
  clearbody g1. apply (spawn_ownSprites imgs 0) in Hg1. revert Hg1.
  generalize (spawnButterflies 0 g1). intros g2 Hg2.
  now apply (ownSprites_ext imgs g2).
Qed.

Lemma regularFrame_ownSprites (imgs : list nat) (timestamp : R) (now : Z) (g : Game.t) :
  Game.ownSprites imgs g -> Game.ownSprites imgs (Game.regularFrame random timestamp now g).
Proof.
  intros Hwf.
  assert (Hlast : Game.ownSprites imgs (Game.set_lastTimestamp timestamp g))
    by (now apply (ownSprites_ext imgs g)).
  unfold Game.regularFrame.
  destruct (_ && _); [| exact Hlast]. cbv zeta.
  revert Hlast. generalize (Game.set_lastTimestamp timestamp g).
  intros g1 Hg1. now apply update_ownSprites.
Qed.

Lemma gameLoop_ownSprites (imgs : list nat) (timestamp perfNow : R) (now : Z) (g : Game.t) :
  Game.ownSprites imgs g -> Game.ownSprites imgs (gameLoop timestamp perfNow now g).
Proof.
  intros Hwf. unfold Game.gameLoop.
  destruct (Game.showingNameInput g); [exact Hwf |].
  destruct (Game.showingSummaryScreen g); [exact Hwf |].
  destruct (Game.levelTransitionStartTime g) as [startTime |];
    [| now apply regularFrame_ownSprites].
  destruct (Game.isLevelTransitioning g && negb (startTime =? 0)%Z);
    [| now apply regularFrame_ownSprites].
  cbv zeta.
  destruct (bool_decide
              (Math.min 1 (IZR (now - startTime) / IZR (Game.levelTransitionDuration g)) < 1));
    [exact Hwf |].
  destruct (bool_decide (Game.levelTransitionComplete g = Some false));
    [| now apply regularFrame_ownSprites].
  assert (H1 : Game.ownSprites imgs (Game.set_levelTransitionComplete (Some true) g))
    by (now apply (ownSprites_ext imgs g)).
  apply startNextLevel_ownSprites in H1. revert H1.
  generalize (startNextLevel (Game.set_levelTransitionComplete (Some true) g)).
  intros g' H1. now apply (ownSprites_ext imgs g').
Qed.

Lemma handleClick_ownSprites (imgs : list nat) (px py : R) (g : Game.t) :
  Game.ownSprites imgs g -> Game.ownSprites imgs (handleClick px py g).
Proof.
  intros (Hml & Hcl & Himg & Hlen & Hall & Htm).
  pose proof (handleClick_view random px py g) as Hv.
  assert (Hr : Forall (Game.ofLevelUpTo imgs (Game.currentLevel g))
                 (Game.butterflies (handleClick px py g))).
  { unfold Game.handleClick.
    destruct (_ || _); [assumption |]. destruct (_ || _); [assumption |].
    now apply catchLoop_sprites. }
  revert Hv Hr. generalize (handleClick px py g). intros g' Hv Hb'.
  pose proof (f_equal Game.maxLevel Hv) as F1.
  pose proof (f_equal Game.currentLevel Hv) as F2.
  pose proof (f_equal Game.timers Hv) as F3.
  pose proof (f_equal Game.butterflyImages Hv) as F4.
  cbn in F1, F2, F3, F4.
  apply ownSprites_intro; rewrite ?F1, ?F2, ?F3, ?F4; assumption.
Qed.

Lemma countdownTick_ownSprites (imgs : list nat) (k : nat) (g : Game.t) :
  Game.ownSprites imgs g -> Game.ownSprites imgs (countdownTick k g).
Proof.
  intros (Hml & Hcl & Himg & Hlen & Hall & Htm). unfold Game.countdownTick.
  cbn [Game.countdownTime Game.set_countdownTime].
  destruct (Game.countdownTime g - 1 <=? 0)%Z; [| now apply ownSprites_intro].
  set (g1 := Game.set_levelTimer _ _).
  assert (Hg1 : Game.ownSprites imgs g1).
  { subst g1. apply ownSprites_intro; try assumption. cbn. now apply Forall_delete. }
  clearbody g1. exact (spawn_ownSprites imgs 0 g1 Hg1).
Qed.

Lemma fire_ownSprites (imgs : list nat) (k : nat) (g : Game.t) :
  Game.ownSprites imgs g -> Game.ownSprites imgs (fire k g).
Proof.
  intros Hwf. unfold Game.fire.
  destruct (Game.timers g !! k) as [tm |] eqn:Hk; [| exact Hwf].
  destruct (Game.callback tm) as [b |] eqn:Hcb; [| now apply countdownTick_ownSprites].
  destruct Hwf as (Hml & Hcl & Himg & Hlen & Hall & Htm).
  apply ownSprites_intro; try assumption.
  - cbn. apply Forall_app. split; [exact Hall |]. apply Forall_singleton.
    rewrite Forall_lookup in Htm. exact (Htm k tm Hk b Hcb).
  - cbn. now apply Forall_delete.
Qed.

Lemma step_ownSprites (imgs : list nat) (g : Game.t) (e : Game.Event) :
  Game.ownSprites imgs g -> Game.ownSprites imgs (step g e).
Proof.
  destruct e as [timestamp perfNow now | px py | k]; cbn [Game.step].
  - apply gameLoop_ownSprites.
  - apply handleClick_ownSprites.
  - apply fire_ownSprites.
Qed.

Lemma run_ownSprites (imgs : list nat) (es : list Game.Event) :
  forall g, Game.ownSprites imgs g -> Game.ownSprites imgs (run es g).
Proof.
  induction es as [| e es IH]; intros g Hwf; [exact Hwf |].
  change (run (e :: es) g) with (run es (step g e)).
  apply IH. now apply step_ownSprites.
Qed.

Lemma start_ownSprites (imgs : list nat) (g : Game.t) :
  Game.maxLevel g = 10%Z ->
  Game.butterflyImages g = imgs ->
  length imgs = 10%nat ->
  Forall (fun tm => forall b, Game.callback tm = Game.PushButterfly b ->
                              Game.ofLevelUpTo imgs 1 b) (Game.timers g) ->
  Game.ownSprites imgs (Game.start g).
Proof.
  intros Hml Himg Hlen Htm. apply ownSprites_intro; cbn -[Game.resetCounts]; rewrite ?Hml.
  - reflexivity.
  - lia.
  - exact Himg.
  - exact Hlen.
  - constructor.
  - apply Forall_app. split; [exact Htm |]. apply Forall_singleton. discriminate.
Qed.

(** X24 -- butterflies wear their level.
    In a session of a page that loaded its ten images, started when no
    insertion of an earlier session above level 1 was pending, the game never
    holds a butterfly ahead of the level being played, and every butterfly is
    drawn with the image of its own level: the one at index [level - 1]. *)
Theorem butterflies_wear_their_level (imgs : list nat) (g0 : Game.t)
    (es : list Game.Event) (b : Butterfly.t) :
  Game.maxLevel g0 = 10%Z ->
  Game.butterflyImages g0 = imgs ->
  length imgs = 10%nat ->
  Forall (fun tm => forall b', Game.callback tm = Game.PushButterfly b' ->
                               Game.ofLevelUpTo imgs 1 b') (Game.timers g0) ->
  b ∈ Game.butterflies (run es (Game.start g0)) ->
  (1 <= Butterfly.level b <= Game.currentLevel (run es (Game.start g0)))%Z /\
  (Game.currentLevel (run es (Game.start g0)) <= 10)%Z /\
  Game.butterflyImages (run es (Game.start g0)) = imgs /\
  Butterfly.image b = imgs !! Z.to_nat (Butterfly.level b - 1) /\
  is_Some (Butterfly.image b).
Proof.
  intros Hml Himg Hlen Htm Hin.
  pose proof (run_ownSprites imgs es _ (start_ownSprites imgs g0 Hml Himg Hlen Htm)) as Hs.
  revert Hin Hs. generalize (run es (Game.start g0)). intros g Hin Hs.
  destruct Hs as (_ & Hcl & Hi & _ & Hall & _).
  rewrite Forall_forall in Hall. destruct (Hall b Hin) as [Hlv Him].
  split; [exact Hlv |]. split; [lia |]. split; [exact Hi |]. split; [exact Him |].
  rewrite Him. apply lookup_lt_is_Some. lia.
Qed.
End SpriteFacts.

(** ** The wave of a regular level *)

Section WaveFacts.
Local Open Scope R_scope.

Variable random : nat -> R.

Local Abbreviation spawnButterflies := (Game.spawnButterflies random).
Local Abbreviation actuallySpawnButterflies := (Game.actuallySpawnButterflies random).
Local Abbreviation positionButterflyInFormation := (Game.positionButterflyInFormation random).


End WaveFacts.

(** ** Formations by level, and the saved records *)

Section RecordFacts.
Local Open Scope R_scope.

Variable random : nat -> R.

Local Abbreviation step := (Game.step random).
Local Abbreviation run := (Game.run random).

(** X26 -- formations by level.
    [getFormationForWave] ignores its [wave] argument, draws one random
    number and always answers with a formation name.  Up to level 3 the name
    is 'line' or 'v'; at levels 4 to 6 it is one of the first four, never
    'random'; above level 6 it is 'circle', 'grid' or 'random'. *)
Theorem getFormationForWave_bands (wave level : Z) (g : Game.t) :
  0 <= random (Game.randomCalls g) < 1 ->
  (Game.getFormationForWave random wave level g).2 =
    Game.set_randomCalls (S (Game.randomCalls g)) g /\
  exists name : string,
    (Game.getFormationForWave random wave level g).1 = Some name /\
    ((level <= 3)%Z -> name ∈ ["line"; "v"]%string) /\
    ((3 < level <= 6)%Z -> name ∈ ["line"; "v"; "circle"; "grid"]%string) /\
    ((6 < level)%Z -> name ∈ ["circle"; "grid"; "random"]%string).
Proof.
  intros Hr. unfold Game.getFormationForWave. cbn [Game.nextRandom].
  assert (H2 : (0 <= Math.floor (random (Game.randomCalls g) * 2) < 2)%Z)
    by (apply floor_bounds; lra).
  assert (H4 : (0 <= Math.floor (random (Game.randomCalls g) * 4) < 4)%Z)
    by (apply floor_bounds; lra).
  assert (H5 : (0 <= Math.floor (random (Game.randomCalls g) * 5) < 5)%Z)
    by (apply floor_bounds; lra).
  revert H2 H4 H5.
  generalize (Math.floor (random (Game.randomCalls g) * 2))
             (Math.floor (random (Game.randomCalls g) * 4))
             (Math.floor (random (Game.randomCalls g) * 5)).
  intros a b c H2 H4 H5.
  destruct (Z.leb_spec level 3); [| destruct (Z.leb_spec level 6)];
    cbn [fst snd]; (split; [reflexivity |]).
  - assert (Ha : a = 0%Z \/ a = 1%Z) by lia.
    destruct Ha as [-> | ->]; eexists; (split; [reflexivity |]);
      repeat match goal with |- _ /\ _ => split end; intros; try lia;
      repeat (apply elem_of_cons; first [left; reflexivity | right]).
  - assert (Hb : b = 0%Z \/ b = 1%Z \/ b = 2%Z \/ b = 3%Z) by lia.
    destruct Hb as [-> | [-> | [-> | ->]]]; eexists; (split; [reflexivity |]);
      repeat match goal with |- _ /\ _ => split end; intros; try lia;
      repeat (apply elem_of_cons; first [left; reflexivity | right]).
  - assert (Hc : c = 0%Z \/ c = 1%Z \/ c = 2%Z \/ c = 3%Z \/ c = 4%Z) by lia.
    destruct Hc as [-> | [-> | [-> | [-> | ->]]]]; eexists; (split; [reflexivity |]);
      repeat match goal with |- _ /\ _ => split end; intros; try lia;
      repeat (apply elem_of_cons; first [left; reflexivity | right]).
Qed.

Lemma for_range_sum_last (F : Z -> Z) (n : nat) :
  forall i : Z,
    Game.for_range (S n) i (fun j t => (t + F j)%Z) 0%Z =
    (Game.for_range n i (fun j t => (t + F j)%Z) 0%Z + F (i + Z.of_nat n))%Z.
Proof.
  induction n as [| n IH]; intros i.
  - cbn. f_equal. f_equal. lia.
  - change (Game.for_range (S (S n)) i (fun j t => (t + F j)%Z) 0%Z)
      with (Game.for_range (S n) (i + 1) (fun j t => (t + F j)%Z) (0 + F i)%Z).
    rewrite for_range_sum_acc, IH.
    change (Game.for_range (S n) i (fun j t => (t + F j)%Z) 0%Z)
      with (Game.for_range n (i + 1) (fun j t => (t + F j)%Z) (0 + F i)%Z).
    rewrite (for_range_sum_acc F n (i + 1) (0 + F i)).
    replace (i + 1 + Z.of_nat n)%Z with (i + Z.of_nat (S n))%Z by lia. lia.
Qed.

Lemma addCount_swap (y a b : Game.Count) :
  Game.addCount (Game.addCount y a) b = Game.addCount (Game.addCount y b) a.
Proof. destruct y, a, b; cbn; try reflexivity. f_equal. lia. Qed.

(** Summing the values of a counter object whose keys are the levels
    [1..n], as [Object.values(...).reduce] does, gives what the loop over
    the levels gives. *)
Lemma values_sum (n : nat) :
  forall m : gmap Z Game.Count,
    (forall k, is_Some (m !! k) -> (1 <= k <= Z.of_nat n)%Z) ->
    (forall k c, m !! k = Some c -> exists z, c = Game.Num z) ->
    map_fold (fun _ count sum => Game.addCount sum count) (Game.Num 0) m =
    Game.Num (Game.for_range n 1%Z
                (fun i total =>
                   (total + match m !! i with
                            | Some (Game.Num z) => z
                            | Some Game.NaN | None => 0
                            end)%Z) 0%Z).
Proof.
  induction n as [| n IH]; intros m Hkeys Hnum.
  - assert (Hm : m = ∅).
    { apply map_empty. intros k. destruct (m !! k) eqn:E; [| reflexivity].
      assert (is_Some (m !! k)) as Hs by (rewrite E; eauto). apply Hkeys in Hs. lia. }
    subst m. now rewrite map_fold_empty.
  - rewrite (for_range_sum_last
               (fun i => match m !! i with
                         | Some (Game.Num z) => z
                         | Some Game.NaN | None => 0%Z
                         end) n 1).
    replace (1 + Z.of_nat n)%Z with (Z.of_nat (S n)) by lia.
    destruct (m !! Z.of_nat (S n)) as [c |] eqn:E.
    + destruct (Hnum _ _ E) as [z ->].
      rewrite (map_fold_delete_L _ _ (Z.of_nat (S n)) (Game.Num z) m);
        [| intros; apply addCount_swap | exact E].
      rewrite (IH (delete (Z.of_nat (S n)) m)).
      * cbn [Game.addCount]. f_equal. f_equal.
        rewrite (for_range_sum_change
                   (fun i => match m !! i with
                             | Some (Game.Num z) => z
                             | Some Game.NaN | None => 0%Z
                             end)
                   (fun i => match delete (Z.of_nat (S n)) m !! i with
                             | Some (Game.Num z) => z
                             | Some Game.NaN | None => 0%Z
                             end)
                   (Z.of_nat (S n)) (- z) n).
        -- rewrite bool_decide_eq_false_2 by lia. lia.
        -- intros j Hj. now rewrite lookup_delete_ne.
        -- rewrite lookup_delete_eq, E. lia.
      * intros k [c Hk]. apply lookup_delete_Some in Hk as [Hne Hk].
        assert (is_Some (m !! k)) as Hs by eauto. apply Hkeys in Hs. lia.
      * intros k c Hk. apply lookup_delete_Some in Hk as [_ Hk]. eauto.
    + rewrite (IH m); [f_equal; lia | | exact Hnum].
      intros k Hs. pose proof (Hkeys k Hs).
      destruct (Z.eq_dec k (Z.of_nat (S n))) as [-> | Hne]; [| lia].
      rewrite E in Hs. now destruct Hs.
Qed.

Lemma resetCounts_keys (maxLvl : Z) (m : gmap Z Game.Count) :
  (forall k, is_Some (m !! k) -> (1 <= k <= maxLvl)%Z) ->
  forall k, is_Some (Game.resetCounts maxLvl m !! k) -> (1 <= k <= maxLvl)%Z.
Proof.
  intros Hm. unfold Game.resetCounts.
  pose proof (for_range_invariant
                (fun (_ : Z) (m' : gmap Z Game.Count) =>
                   forall k, is_Some (m' !! k) -> (1 <= k <= maxLvl)%Z)
                (fun i m' => <[i := Game.Num 0]> m') (Z.to_nat maxLvl) 1 m) as Hinv.
  apply Hinv; [exact Hm |].
  intros j m' Hj IH k Hk.
  destruct (Z.eq_dec k j) as [-> | Hne]; [lia |].
  rewrite lookup_insert_ne in Hk by congruence. now apply IH.
Qed.

Lemma keys_step (g : Game.t) (e : Game.Event) :
  Game.wellFormed g ->
  Game.score g = Game.pointsOfCounts g ->
  (forall L n, Game.butterflyCounts g !! L = Some (Game.Num n) ->
               (1 <= L <= 10)%Z -> (0 <= n)%Z) ->
  (forall k, is_Some (Game.butterflyCounts g !! k) -> (1 <= k <= 10)%Z) ->
  forall k, is_Some (Game.butterflyCounts (step g e) !! k) -> (1 <= k <= 10)%Z.
Proof.
  intros W S1 N1 K1.
  destruct (tally_step random g e W S1 N1) as (_ & _ & _ & [(_ & Hc & _) | Hc]).
  - now rewrite Hc.
  - destruct Hc as (px & py & L & n & _ & HL & _ & _ & Hc & _).
    rewrite Hc. intros k Hk.
    destruct (Z.eq_dec k L) as [-> | Hne]; [exact HL |].
    rewrite lookup_insert_ne in Hk by congruence. now apply K1.
Qed.

Lemma keys_run (es : list Game.Event) :
  forall g,
    Game.wellFormed g ->
    Game.score g = Game.pointsOfCounts g ->
    (forall L n, Game.butterflyCounts g !! L = Some (Game.Num n) ->
                 (1 <= L <= 10)%Z -> (0 <= n)%Z) ->
    (forall k, is_Some (Game.butterflyCounts g !! k) -> (1 <= k <= 10)%Z) ->
    forall k, is_Some (Game.butterflyCounts (run es g) !! k) -> (1 <= k <= 10)%Z.
Proof.
  induction es as [| e es IH]; intros g W S1 N1 K1; [exact K1 |].
  change (run (e :: es) g) with (run es (step g e)).
  pose proof (keys_step g e W S1 N1 K1) as K2.
  destruct (tally_step random g e W S1 N1) as (W2 & S2 & N2 & _).
  revert W2 S2 N2 K2. generalize (step g e). intros g2 W2 S2 N2 K2.
  now apply IH.
Qed.

Lemma saveGameRecords_shape (playerName date : string) (stored : Game.Stored) (g : Game.t) :
  stored <> Game.NotAnArray ->
  exists older,
    Game.saveGameRecords playerName date true stored g =
    Some (Game.Parsed (older ++ [Game.New (Game.record playerName date g)])).
Proof.
  intros Harr. unfold Game.saveGameRecords. cbv zeta.
  set (old := match stored with Game.Parsed entries => entries | _ => [] end).
  assert (Hp : match stored with
               | Game.Parsed entries => Some entries
               | Game.NotAnArray => None
               | Game.Absent | Game.Unparsable => Some []
               end = Some old) by (now destruct stored).
  rewrite Hp, length_app. cbn [length].
  destruct (bool_decide_reflect (length old + 1 > 10)%nat) as [Hgt | Hle].
  - rewrite drop_app_le by lia. now eexists.
  - now eexists.
Qed.

(** X27 -- the last ten records.
    [saveGameRecords] builds the record of the finished game from the
    player name, the date, the score and the catch counts.  When what is
    stored parses to an array, or nothing readable is stored, it appends the
    record and keeps the last ten entries, the new one last and the older
    ones in their order, so that the oldest are dropped once more than nine
    were stored; when writing fails the stored content is left as it was.
    When what is stored parses to something that is not an array, the call
    throws before it writes, whether or not writing would succeed. *)
Theorem saveGameRecords_keeps_last_ten (playerName date : string)
    (stored : Game.Stored) (g : Game.t) :
  let record := Game.record playerName date g in
  let old := match stored with Game.Parsed entries => entries | _ => [] end in
  let kept := drop (length old - 9) old ++ [Game.New record] in
  Game.GameRecord.playerName record = playerName /\
  Game.GameRecord.date record = date /\
  Game.GameRecord.score record = Game.score g /\
  Game.GameRecord.butterflyCounts record = Game.butterflyCounts g /\
  (forall setItemOk : bool,
      Game.saveGameRecords playerName date setItemOk Game.NotAnArray g = None) /\
  (stored <> Game.NotAnArray ->
   Game.saveGameRecords playerName date true stored g = Some (Game.Parsed kept) /\
   Game.saveGameRecords playerName date false stored g = Some stored) /\
  length kept = Nat.min (S (length old)) 10 /\
  ((length old <= 9)%nat -> kept = old ++ [Game.New record]).
Proof.
  intros record old kept.
  repeat match goal with |- _ /\ _ => split end; try reflexivity.
  - intros Harr.
    assert (Hp : match stored with
                 | Game.Parsed entries => Some entries
                 | Game.NotAnArray => None
                 | Game.Absent | Game.Unparsable => Some []
                 end = Some old) by (now destruct stored).
    unfold Game.saveGameRecords. cbv zeta. rewrite Hp. fold record.
    split; [| reflexivity].
    f_equal. f_equal. rewrite length_app. cbn [length]. subst kept.
    destruct (bool_decide_reflect (length old + 1 > 10)%nat) as [Hgt | Hle].
    + rewrite drop_app_le by lia. f_equal. f_equal. lia.
    + replace (length old - 9)%nat with 0%nat by lia. reflexivity.
  - subst kept. rewrite length_app, length_drop. cbn [length]. lia.
  - intros Hle. subst kept. replace (length old - 9)%nat with 0%nat by lia. reflexivity.
Qed.

(** X28 -- the saved total matches the summary.
    The total a finished session saves is the total its summary screen
    shows.  In every state of a session of a game whose counters are kept
    for the levels 1 to 10 only, the record [saveGameRecords] builds holds
    the session's score and, as [totalCaught], the sum over all the
    counters, which is the number the summary screen adds up level by
    level; and that record is the last entry of what the call writes,
    unless what is stored is not an array, when the call throws. *)
Theorem saved_total_matches_summary (g0 : Game.t) (events : list Game.Event)
    (playerName date : string) (stored : Game.Stored) :
  Game.maxLevel g0 = 10%Z ->
  Game.validTimers g0 ->
  (forall k, is_Some (Game.butterflyCounts g0 !! k) -> (1 <= k <= 10)%Z) ->
  let s := run events (Game.start g0) in
  let record := Game.record playerName date s in
  Game.GameRecord.score record = Game.score s /\
  Game.GameRecord.totalCaught record = Game.Num (Game.totalCaught s) /\
  (0 <= Game.totalCaught s)%Z /\
  (stored <> Game.NotAnArray ->
   exists older,
     Game.saveGameRecords playerName date true stored s =
     Some (Game.Parsed (older ++ [Game.New record]))) /\
  (stored = Game.NotAnArray ->
   Game.saveGameRecords playerName date true stored s = None).
Proof.
  intros Hml Hvt Hkeys s record.
  destruct (tally_start g0 Hml Hvt) as (W0 & S0 & N0 & _).
  assert (K0 : forall k, is_Some (Game.butterflyCounts (Game.start g0) !! k) ->
                         (1 <= k <= 10)%Z).
  { cbn -[Game.resetCounts]. rewrite Hml. apply resetCounts_keys. exact Hkeys. }
  pose proof (keys_run events _ W0 S0 N0 K0) as K.
  destruct (tally_run random events _ W0 S0 N0) as (W & _ & N & _ & _).
  fold s in K, W, N. clearbody s.
  destruct W as (Hm & _ & Hcnt & _ & _).
  assert (Hnum : forall k c, Game.butterflyCounts s !! k = Some c -> exists z, c = Game.Num z).
  { intros k c Hk. assert (is_Some (Game.butterflyCounts s !! k)) as Hs by eauto.
    apply K in Hs. destruct (Hcnt k Hs) as [z Hz]. rewrite Hz in Hk. injection Hk as <-.
    now exists z. }
  pose proof (values_sum 10 (Game.butterflyCounts s) K Hnum) as Hsum.
  split; [reflexivity |]. split; [| split; [| split]].
  - subst record. cbn [Game.record Game.GameRecord.totalCaught]. rewrite Hsum.
    unfold Game.totalCaught. rewrite Hm. reflexivity.
  - unfold Game.totalCaught. rewrite Hm.
    apply for_range_sum_bounds. intros j Hj.
    destruct (Hcnt j ltac:(lia)) as [z Hz]. rewrite Hz. apply (N j z Hz). lia.
  - intros Harr. now apply saveGameRecords_shape.
  - intros ->. reflexivity.
Qed.
End RecordFacts.

(** * Examples on a concrete page *)

Local Open Scope R_scope.

Lemma sample_loaded :
  Game.maxLevel Sample.loaded = 10%Z /\
  Game.butterflyImages Sample.loaded = [1; 2; 3; 4; 5; 6; 7; 8; 9; 10]%nat /\
  Game.timers Sample.loaded = [] /\
  Game.showingNameInput Sample.loaded = false /\
  Game.showingSummaryScreen Sample.loaded = false /\
  Game.lastTimestamp Sample.loaded = 0 /\
  Game.canvas Sample.loaded = Sample.canvas /\
  Game.player Sample.loaded = Player.new Sample.canvas.
Proof. now repeat split. Qed.

(** A click on the centre of a butterfly is within its catch range. *)
Lemma isCaught_at_centre (pl : Player.t) (b : Butterfly.t) :
  0 <= Butterfly.catchRadius b + Player.netRadius pl ->
  Butterfly.isCaught pl (Sample.centreX b) (Sample.centreY b) b = true.
Proof.
  intros Hr. unfold Butterfly.isCaught, Utils.distance, Sample.centreX, Sample.centreY.
  apply bool_decide_eq_true.
  replace ((Butterfly.x b + Butterfly.width b / 2 - (Butterfly.x b + Butterfly.width b / 2)) *
           (Butterfly.x b + Butterfly.width b / 2 - (Butterfly.x b + Butterfly.width b / 2)) +
           (Butterfly.y b + Butterfly.height b / 2 - (Butterfly.y b + Butterfly.height b / 2)) *
           (Butterfly.y b + Butterfly.height b / 2 - (Butterfly.y b + Butterfly.height b / 2)))
    with 0 by lra.
  now rewrite sqrt_0.
Qed.

(** A click is out of range of a butterfly whose centre is further away
    along the x axis than the catch distance. *)
Lemma isCaught_too_far (pl : Player.t) (px py : R) (b : Butterfly.t) :
  0 <= Butterfly.catchRadius b + Player.netRadius pl ->
  Butterfly.catchRadius b + Player.netRadius pl <
    px - (Butterfly.x b + Butterfly.width b / 2) ->
  Butterfly.isCaught pl px py b = false.
Proof.
  intros Hr Hfar. unfold Butterfly.isCaught, Utils.distance.
  apply bool_decide_eq_false. intros Hle.
  set (dx := px - (Butterfly.x b + Butterfly.width b / 2)) in *.
  set (dy := py - (Butterfly.y b + Butterfly.height b / 2)) in *.
  set (r := Butterfly.catchRadius b + Player.netRadius pl) in *.
  assert (Hsq : sqrt (dx * dx) <= sqrt (dx * dx + dy * dy)).
  { apply sqrt_le_1_alt. nra. }
  rewrite sqrt_square in Hsq by lra. lra.
Qed.

Lemma sample_sizes :
  Butterfly.width Sample.near = 57.5 /\ Butterfly.height Sample.near = 57.5 /\
  Butterfly.catchRadius Sample.near = 37 /\
  Butterfly.width Sample.far = 57.5 /\ Butterfly.height Sample.far = 57.5 /\
  Butterfly.catchRadius Sample.far = 37 /\
  Butterfly.catchRadius Sample.queen = 15.
Proof.
  cbn. unfold Math.max, Rmax.
  repeat match goal with |- context [Rle_dec ?a ?b] => destruct (Rle_dec a b) end;
    repeat split; lra.
Qed.

Lemma near_in_range (pl : Player.t) :
  Player.netRadius pl = 40 ->
  Butterfly.isCaught pl (Sample.centreX Sample.near) (Sample.centreY Sample.near)
    Sample.near = true.
Proof.
  intros Hn. apply isCaught_at_centre.
  destruct sample_sizes as (_ & _ & -> & _). lra.
Qed.

Lemma far_out_of_range (pl : Player.t) :
  Player.netRadius pl = 40 ->
  Butterfly.isCaught pl (Sample.centreX Sample.near) (Sample.centreY Sample.near)
    Sample.far = false.
Proof.
  intros Hn. destruct sample_sizes as (Hw & _ & _ & Hwf & _ & Hcf & _).
  apply isCaught_too_far; rewrite Hcf, Hn; [lra |].
  unfold Sample.centreX. rewrite Hw, Hwf. cbn. lra.
Qed.

Lemma queen_in_range (pl : Player.t) :
  Player.netRadius pl = 40 ->
  Butterfly.isCaught pl (Sample.centreX Sample.near) (Sample.centreY Sample.near)
    Sample.queen = true.
Proof.
  intros Hn. unfold Butterfly.isCaught, Utils.distance, Sample.centreX, Sample.centreY.
  apply bool_decide_eq_true.
  destruct sample_sizes as (Hw & Hh & _ & _ & _ & _ & Hq).
  rewrite Hq, Hn, Hw, Hh.
  destruct (new_level10 (Some 10%nat)) as (Hqw & Hqh & _).
  change (Butterfly.width Sample.queen) with (Butterfly.width (Butterfly.new (Some 10%nat) 10)).
  change (Butterfly.height Sample.queen) with (Butterfly.height (Butterfly.new (Some 10%nat) 10)).
  rewrite Hqw, Hqh.
  change (Butterfly.x Sample.queen) with 0. change (Butterfly.y Sample.queen) with 0.
  change (Butterfly.x Sample.near) with 0. change (Butterfly.y Sample.near) with 0.
  replace ((0 + 57.5 / 2 - (0 + 35 / 2)) * (0 + 57.5 / 2 - (0 + 35 / 2)) +
           (0 + 57.5 / 2 - (0 + 35 / 2)) * (0 + 57.5 / 2 - (0 + 35 / 2)))
    with (15.91 * 15.91 - 0.0031) by lra.
  apply Rle_trans with (sqrt (15.91 * 15.91)); [apply sqrt_le_1_alt; lra |].
  rewrite sqrt_square; lra.
Qed.

(** The sample states are well formed: they are the state [start] makes, with
    butterflies of levels within 1..10 put on screen. *)
Lemma sample_wellFormed (bs : list Butterfly.t) :
  Forall (fun b => (1 <= Butterfly.level b <= 10)%Z) bs ->
  Game.wellFormed
    (Game.set_butterflies bs (Game.set_countdownActive false (Game.start Sample.loaded))).
Proof.
  intros Hbs.
  assert (Hml : Game.maxLevel Sample.loaded = 10%Z) by reflexivity.
  assert (Htm : Game.validTimers Sample.loaded) by constructor.
  pose proof (start_wellFormed Sample.loaded Hml Htm) as Hwf. revert Hwf.
  generalize (Game.start Sample.loaded). intros s (H1 & H2 & H3 & H4 & H5).
  now apply wellFormed_intro.
Qed.

(** Five clicks on the centre of the sample boss. *)
Lemma boss_health_drain_witness :
  (Butterfly.checkCatches Sample.zeros (Player.new Sample.canvas)
     (replicate 5 (Sample.centreX Sample.queen, Sample.centreY Sample.queen))
     Sample.queen 0).1.1 = [false; false; false; false; true].
Proof.
  apply (boss_health_drain Sample.zeros (Player.new Sample.canvas) Sample.queen 0
           (replicate 5 (Sample.centreX Sample.queen, Sample.centreY Sample.queen))).
  - reflexivity.
  - reflexivity.
  - reflexivity.
  - apply Forall_replicate. apply isCaught_at_centre.
    destruct sample_sizes as (_ & _ & _ & _ & _ & _ & ->). cbn. lra.
Defined.

(** The far butterfly is kept while it has not crossed the screen and is
    flagged on the first frame once it has. *)
Lemma offscreen_pruning_witness :
  Butterfly.shouldRemove (Butterfly.update Sample.zeros Sample.canvas 0.016 Sample.far 0).1 =
    false /\
  Butterfly.shouldRemove
    (Butterfly.update Sample.zeros Sample.canvas 0.016
       (Butterfly.set_hasCrossedScreen true Sample.far) 0).1 = true.
Proof.
  split.
  - apply (offscreen_pruning Sample.zeros Sample.canvas Sample.far 0 0.016). reflexivity.
  - apply (offscreen_pruning Sample.zeros Sample.canvas
             (Butterfly.set_hasCrossedScreen true Sample.far) 0 0.016);
      [reflexivity | reflexivity |].
    left.
    destruct (update_position Sample.zeros Sample.canvas 0.016
                (Butterfly.set_hasCrossedScreen true Sample.far) 0) as [-> _];
      [discriminate |].
    cbn. lra.
Defined.

(** A click on [near] with [far] also alive: 10 points, one catch of level 1,
    [far] left alone. *)
Lemma catch_scoring_witness :
  let g' := Game.handleClick Sample.zeros
              (Sample.centreX Sample.near) (Sample.centreY Sample.near) Sample.twoOnScreen in
  Game.score g' = 10%Z /\
  Game.butterflyCounts g' !! 1%Z = Some (Game.Num 1) /\
  Game.butterflies g' = [Sample.far].
Proof.
  assert (Hplay : Game.playing Sample.twoOnScreen) by now repeat split.
  assert (Hwf : Game.wellFormed Sample.twoOnScreen).
  { apply sample_wellFormed. repeat (apply Forall_cons; split; [cbn; lia |]). constructor. }
  destruct (catch_scoring Sample.zeros Sample.twoOnScreen
              (Sample.centreX Sample.near) (Sample.centreY Sample.near) Hwf Hplay)
    as [Hcatch _].
  destruct (Hcatch [Sample.far] [] Sample.near) as (Hs & (n & Hn & Hc) & Hb & _).
  - reflexivity.
  - rewrite <- (checkCatch_flag Sample.zeros _ _ _ _ 0%nat).
    rewrite checkCatch_not_boss by reflexivity. now apply near_in_range.
  - constructor.
  - assert (H0 : n = 0%Z) by (vm_compute in Hn; congruence).
    cbv zeta. rewrite Hs, Hc, Hb, H0. split; [reflexivity |]. split; [| reflexivity].
    apply lookup_insert_eq.
Defined.

(** One click on [near] while the boss overlaps it: the boss loses a hit
    point and stays, [near] is caught. *)
Lemma boss_hit_and_catch_witness :
  let g' := Game.handleClick Sample.zeros
              (Sample.centreX Sample.near) (Sample.centreY Sample.near) Sample.withQueen in
  exists boss',
    Game.butterflies g' = [Sample.far; boss'] /\
    Butterfly.health boss' = 4%Z /\
    Game.score g' = 10%Z.
Proof.
  assert (Hplay : Game.playing Sample.withQueen) by now repeat split.
  assert (Hwf : Game.wellFormed Sample.withQueen).
  { apply sample_wellFormed. repeat (apply Forall_cons; split; [cbn; lia |]). constructor. }
  destruct (boss_hit_and_catch Sample.zeros Sample.withQueen
              (Sample.centreX Sample.near) (Sample.centreY Sample.near)
              [Sample.far] [] [] Sample.near Sample.queen Hwf Hplay)
    as (boss' & n & Hb & Hh & _ & _ & _ & _ & Hs & _).
  - reflexivity.
  - reflexivity.
  - reflexivity.
  - now apply queen_in_range.
  - reflexivity.
  - now apply near_in_range.
  - constructor.
  - constructor.
  - exists boss'. cbv zeta. rewrite Hb, Hh, Hs. now repeat split.
Defined.

(** The session on the sample page: it starts at level 1 and the first
    [levelComplete] takes it to level 2. *)
Lemma level_progression_witness :
  Game.currentLevel (Game.start Sample.loaded) = 1%Z /\
  Game.currentLevel (Game.levelComplete true 1000000 (Game.start Sample.loaded)) = 2%Z.
Proof.
  destruct (level_progression Sample.zeros Sample.loaded [] eq_refl)
    as (_ & _ & _ & _ & Hlc).
  destruct (Hlc true 1000000%Z eq_refl) as [Hup _].
  split; [reflexivity |].
  change (Game.run Sample.zeros [] (Game.start Sample.loaded))
    with (Game.start Sample.loaded) in Hup.
  rewrite Hup; reflexivity.
Defined.

(** A second [levelComplete] during the transition started by a first. *)
Lemma levelComplete_guard_witness :
  let g := Game.levelComplete true 1000000 (Game.start Sample.loaded) in
  Game.levelComplete true 1000016 g = g.
Proof.
  cbv zeta.
  exact (proj1 (levelComplete_guard
                  (Game.levelComplete true 1000000 (Game.start Sample.loaded)) true 1000016)
           (levelComplete_sets_flag true 1000000 (Game.start Sample.loaded))).
Defined.

(** The offset is not twice the size on every edge: a level-1 butterfly,
    57.5 wide, that the opportunistic spawn of [update] sends to the right
    edge of the 800-pixel canvas (first of a group of three) is put at
    [x = 800 + 57.5], not at [800 + 2 * 57.5]. *)
Lemma right_edge_offset_is_one_size :
  ~ Game.placedTwiceItsSizeOutside Sample.canvas 1
      (Butterfly.width Sample.near) (Butterfly.height Sample.near)
      (Game.positionButterflyInFormation Sample.zeros Sample.near "line" 0 3 (Some 1%Z)
         Sample.loaded).1.
Proof.
  intros (_ & Hright & _).
  specialize (Hright eq_refl).
  destruct (position_at_edge Sample.zeros Sample.near "line" 0 3 1 Sample.loaded
              ltac:(lia)) as (_ & _ & _ & H1 & _).
  destruct (H1 eq_refl) as [Hx _]. rewrite Hx in Hright.
  destruct sample_sizes as (Hw & _). rewrite Hw in Hright.
  change (Canvas.width (Game.canvas Sample.loaded)) with 800 in Hright.
  change (Canvas.width Sample.canvas) with 800 in Hright. lra.
Qed.

(** The same spawn, as the code places it. *)
Lemma formation_placement_witness :
  let b' :=
    (Game.positionButterflyInFormation Sample.zeros Sample.near "line" 0 3 (Some 1%Z)
       Sample.loaded).1 in
  Butterfly.x b' = 800 + Butterfly.width Sample.near /\
  Butterfly.y b' = 600 * Sample.zeros 2 /\
  Butterfly.crossingPoint b' =
    Some (800 * (0.2 + Sample.zeros 0 * 0.6), 600 * (0.2 + Sample.zeros 1 * 0.6)).
Proof.
  destruct (formation_placement Sample.zeros Sample.near "line" 0 3 (Some 1%Z)
              Sample.loaded)
    as (_ & _ & Hcp & _ & _ & _ & H1 & _).
  - intros n. unfold Sample.zeros. lra.
  - change (Canvas.width (Game.canvas Sample.loaded)) with 800. lra.
  - change (Canvas.height (Game.canvas Sample.loaded)) with 600. lra.
  - lia.
  - destruct (H1 eq_refl) as (Hx & Hy & _).
    split; [exact Hx |]. split; [exact Hy | exact Hcp].
Defined.

(** The boss wave on the sample page. *)
Lemma boss_level_spawn_witness :
  exists boss,
    Game.timers (Game.spawnBossButterfly Sample.zeros Sample.loaded) !! 0%nat =
      Some (Game.mkTimer 1000 false (Game.PushButterfly boss)) /\
    Butterfly.health boss = 5%Z /\
    length (Game.timers (Game.spawnBossButterfly Sample.zeros Sample.loaded)) = 9%nat.
Proof.
  destruct (boss_level_spawn Sample.zeros Sample.loaded)
    as (boss & minions & Hts & _ & Hlen & _ & _ & Hh & _).
  exists boss. rewrite Hts. split; [reflexivity |]. split; [exact Hh |].
  change (Game.timers Sample.loaded) with (@nil Game.Timer).
  cbn [app length]. rewrite length_imap, Hlen. reflexivity.
Defined.

Lemma run_three_timeouts (random : nat -> R) (k1 k2 k3 : nat) (g : Game.t) :
  Game.run random [Game.Timeout k1; Game.Timeout k2; Game.Timeout k3] g =
  Game.fire random k3 (Game.fire random k2 (Game.fire random k1 g)).
Proof. reflexivity. Qed.

Lemma run_two_frames (random : nat -> R) (t1 p1 t2 p2 : R) (n1 n2 : Z) (g : Game.t) :
  Game.run random [Game.Frame t1 p1 n1; Game.Frame t2 p2 n2] g =
  Game.gameLoop random t2 p2 n2 (Game.gameLoop random t1 p1 n1 g).
Proof. reflexivity. Qed.

(** The countdown of the session on the sample page. *)
Lemma countdown_gating_witness :
  let s0 := Game.start Sample.loaded in
  Game.handleClick Sample.zeros 400 300 s0 = s0 /\
  Game.scheduledWave 1
    (Game.timers (Game.run Sample.zeros Sample.countdownTicks s0)).
Proof.
  destruct (countdown_gating Sample.zeros (Game.start Sample.loaded)) as (Hidle & _).
  destruct (countdown_gating Sample.zeros Sample.loaded) as (_ & _ & _ & Hsession).
  destruct (Hsession eq_refl) as (_ & _ & _ & _ & _ & _ & _ & Hwave);
    [discriminate | reflexivity |].
  split; [exact (proj1 (Hidle eq_refl 400 300 0 0%Z)) |].
  unfold Sample.countdownTicks. rewrite run_three_timeouts. exact Hwave.
Defined.

(** A pending insertion fired in the middle of a countdown still lands. *)
Lemma insertions_always_land_witness :
  let g := Game.setTimeout (Game.PushButterfly Sample.near) 50 (Game.start Sample.loaded) in
  Game.butterflies (Game.fire Sample.zeros 1 g) = [Sample.near].
Proof.
  cbv zeta.
  destruct (insertions_always_land Sample.zeros
              (Game.setTimeout (Game.PushButterfly Sample.near) 50 (Game.start Sample.loaded))
              (Game.mkTimer 50 false (Game.PushButterfly Sample.near)) Sample.near)
    as (Hfire & _).
  - apply list_elem_of_lookup. exists 1%nat. reflexivity.
  - reflexivity.
  - destruct (Hfire 1%nat eq_refl) as (Hb & _). rewrite Hb. reflexivity.
Defined.

(** No guard drops a stale insertion.  On the sample page the level-1 wave
    is scheduled when the countdown ends; the host, for which a timer delay
    is only a lower bound, delivers a frame more than ten seconds later
    before it runs any of the insertions, and that frame completes the level
    on the time limit; the next frame ends the transition and starts
    level 2; the first insertion of the level-1 wave, still pending, then
    fires and puts its level-1 butterfly into the live collection. *)
Lemma stale_insertion_lands :
  let s3 := Game.run Sample.zeros Sample.countdownTicks (Game.start Sample.loaded) in
  let s5 := Game.run Sample.zeros Sample.lateFrames s3 in
  Game.currentLevel s3 = 1%Z /\
  (exists tm b,
      Game.timers s3 !! 0%nat = Some tm /\
      Game.callback tm = Game.PushButterfly b /\
      Butterfly.level b = 1%Z /\
      Game.timers s5 !! 0%nat = Some tm /\
      Game.butterflies s5 = [] /\
      Game.butterflies (Game.fire Sample.zeros 0 s5) = [b]) /\
  Game.currentLevel s5 = 2%Z /\
  ~ Game.dropsStaleInsertion Sample.zeros 1 0 s5.
Proof.
  cbv zeta. unfold Sample.countdownTicks, Sample.lateFrames.
  rewrite run_three_timeouts.
  pose proof (start_fields Sample.loaded)
    as (Ht0 & Hct0 & _ & Hcl0 & Hml0 & Hbi0 & Hbs0 & _ & Htr0 & Hrun0 & _).
  assert (Hshow : Game.showingNameInput (Game.start Sample.loaded) = false /\
                  Game.showingSummaryScreen (Game.start Sample.loaded) = false /\
                  Game.lastTimestamp (Game.start Sample.loaded) = 0) by now repeat split.
  destruct Hshow as (Hn0 & Hs0 & Hlast0).
  change (Game.maxLevel Sample.loaded) with 10%Z in Hml0.
  pose proof (countdown_three_ticks Sample.zeros (Game.start Sample.loaded)) as H3.
  cbv zeta in H3.
  revert Ht0 Hct0 Hcl0 Hml0 Hbi0 Hbs0 Htr0 Hrun0 Hn0 Hs0 Hlast0 H3.
  generalize (Game.start Sample.loaded). intros s0.
  generalize (Game.fire Sample.zeros 0
                (Game.fire Sample.zeros 0 (Game.fire Sample.zeros 0 s0))).
  intros s3 Ht0 Hct0 Hcl0 Hml0 Hbi0 Hbs0 Htr0 Hrun0 Hn0 Hs0 Hlast0 H3.
  destruct H3 as (_ & _ & Hv3 & Hlt3 & Hlen & Hwave);
    [exact Ht0 | exact Hct0 | exact Hcl0 | exact Hml0 |
     rewrite Hbi0; discriminate |].
  destruct (Game.timers s3) as [| tm rest] eqn:Htm; [discriminate |].
  destruct (Hwave 0%nat tm eq_refl) as (_ & _ & b & Hcb & Hlvl & _).
  assert (Hf : Game.showingNameInput s3 = false /\ Game.showingSummaryScreen s3 = false /\
               Game.isRunning s3 = true /\ Game.isLevelTransitioning s3 = false /\
               Game.countdownActive s3 = false /\ Game.butterflies s3 = [] /\
               Game.currentLevel s3 = 1%Z /\ Game.maxLevel s3 = 10%Z /\
               Game.lastTimestamp s3 = 0).
  { pose proof (f_equal Game.showingNameInput Hv3) as F1.
    pose proof (f_equal Game.showingSummaryScreen Hv3) as F2.
    pose proof (f_equal Game.isRunning Hv3) as F3.
    pose proof (f_equal Game.isLevelTransitioning Hv3) as F4.
    pose proof (f_equal Game.countdownActive Hv3) as F5.
    pose proof (f_equal Game.butterflies Hv3) as F6.
    pose proof (f_equal Game.currentLevel Hv3) as F7.
    pose proof (f_equal Game.maxLevel Hv3) as F8.
    pose proof (f_equal Game.lastTimestamp Hv3) as F9.
    cbn in F1, F2, F3, F4, F5, F6, F7, F8, F9.
    repeat match goal with |- _ /\ _ => split end; congruence. }
  destruct Hf as (Hn3 & Hs3 & Hrun3 & Htr3 & Hcd3 & Hbs3 & Hcl3 & Hml3 & Hlast3).
  rewrite run_two_frames.
  pose proof (stale_insertion_scenario Sample.zeros s3 tm rest b 13100 14200 13100 14200
                1000000 1001100 Hn3 Hs3 Hrun3 Htr3 Hcd3 Hbs3 Hlt3 Hcl3 Hml3 Htm Hcb) as Hsc.
  cbv zeta in Hsc. rewrite run_two_frames in Hsc.
  revert Hsc.
  generalize (Game.gameLoop Sample.zeros 14200 14200 1001100
                (Game.gameLoop Sample.zeros 13100 13100 1000000 s3)).
  intros s5 Hsc.
  destruct Hsc as (Hcl5 & Htr5 & Hbs5 & Hlook5 & Hfire5);
    [lra | rewrite Hlast3; lra | lia | lia |].
  split; [exact Hcl3 |]. split; [| split; [exact Hcl5 |]].
  - exists tm, b. now repeat split.
  - intros Hguard. unfold Game.dropsStaleInsertion in Hguard.
    rewrite Hfire5, Hbs5, Hcl5 in Hguard.
    assert (Hne : 2%Z <> 1%Z) by lia.
    specialize (Hguard Hne). discriminate.
Qed.

(** ** Further examples: the utilities, single butterflies, spawns and sessions *)

Lemma zeros_in_range : forall n, 0 <= Sample.zeros n < 1.
Proof. intros n. unfold Sample.zeros. lra. Qed.

(** A session with a catch.  On the sample page with one insertion pending,
    the insertion fires, the three countdown ticks start level 1, and the
    click on the butterfly catches it: 10 points and one catch of level 1. *)
Lemma sample_catch :
  let s4 := Game.run Sample.zeros Sample.untilPlay (Game.start Sample.pending) in
  let s5 := Game.step Sample.zeros s4 Sample.catchClick in
  Game.butterflies s4 = [Sample.near] /\
  Game.score s4 = 0%Z /\
  Game.butterflies s5 = [] /\
  Game.score s5 = 10%Z /\
  Game.butterflyCounts s5 !! 1%Z = Some (Game.Num 1) /\
  Game.totalCaught s5 = 1%Z.
Proof.
  cbv zeta.
  assert (Hf : Game.timers (Game.start Sample.pending) =
                 [Game.mkTimer 0 false (Game.PushButterfly Sample.near);
                  Game.mkTimer 1000 true Game.CountdownTick] /\
               Game.countdownTime (Game.start Sample.pending) = 3%Z /\
               Game.currentLevel (Game.start Sample.pending) = 1%Z /\
               Game.maxLevel (Game.start Sample.pending) = 10%Z /\
               Game.butterflyImages (Game.start Sample.pending) <> [] /\
               Game.butterflies (Game.start Sample.pending) = [] /\
               Game.score (Game.start Sample.pending) = 0%Z /\
               Game.butterflyCounts (Game.start Sample.pending) =
                 Game.resetCounts 10 (Game.resetCounts 10 ∅) /\
               Game.player (Game.start Sample.pending) = Player.new Sample.canvas /\
               Game.isLevelTransitioning (Game.start Sample.pending) = false /\
               Game.showingStartScreen (Game.start Sample.pending) = false /\
               Game.showingInstructions (Game.start Sample.pending) = false /\
               Game.showingSummaryScreen (Game.start Sample.pending) = false).
  { repeat match goal with |- _ /\ _ => split end; try reflexivity. discriminate. }
  revert Hf. generalize (Game.start Sample.pending). intros s0 Hf.
  destruct Hf as (Ht & Hct & Hcl & Hml & Himg & Hbs & Hsc & Hcn & Hpl & Htr & Hss & Hsi & Hsum).
  assert (Hrun : Game.run Sample.zeros Sample.untilPlay s0 =
                 Game.fire Sample.zeros 0
                   (Game.fire Sample.zeros 0
                      (Game.fire Sample.zeros 0 (Game.fire Sample.zeros 0 s0))))
    by reflexivity.
  rewrite Hrun. clear Hrun.
  pose proof (fire_spec Sample.zeros 0 s0) as (_ & _ & Hfire).
  rewrite Ht in Hfire. cbn [lookup list_lookup Game.callback delete list_delete] in Hfire.
  rewrite Hbs in Hfire. cbn [app] in Hfire. rewrite Hfire. clear Hfire.
  set (sb := Game.set_butterflies [Sample.near]
               (Game.set_timers [Game.mkTimer 1000 true Game.CountdownTick] s0)).
  assert (Hfb : Game.timers sb = [Game.mkTimer 1000 true Game.CountdownTick] /\
                Game.countdownTime sb = 3%Z /\ Game.currentLevel sb = 1%Z /\
                Game.maxLevel sb = 10%Z /\ Game.butterflyImages sb <> [] /\
                Game.butterflies sb = [Sample.near] /\ Game.score sb = 0%Z /\
                Game.butterflyCounts sb = Game.resetCounts 10 (Game.resetCounts 10 ∅) /\
                Game.player sb = Player.new Sample.canvas /\
                Game.isLevelTransitioning sb = false /\
                Game.showingStartScreen sb = false /\
                Game.showingInstructions sb = false /\
                Game.showingSummaryScreen sb = false).
  { subst sb. cbn. now repeat match goal with |- _ /\ _ => split end. }
  clearbody sb. clear Ht Hct Hcl Hml Himg Hbs Hsc Hcn Hpl Htr Hss Hsi Hsum s0.
  destruct Hfb as (Ht & Hct & Hcl & Hml & Himg & Hbs & Hsc & Hcn & Hpl & Htr & Hss & Hsi & Hsum).
  pose proof (countdown_three_ticks Sample.zeros sb Ht Hct Hcl Hml Himg) as H3.
  cbv zeta in H3. destruct H3 as (_ & _ & Hv3 & _ & _).
  revert Hv3.
  generalize (Game.fire Sample.zeros 0
                (Game.fire Sample.zeros 0 (Game.fire Sample.zeros 0 sb))).
  intros s4 Hv3.
  assert (Hf4 : Game.butterflies s4 = [Sample.near] /\ Game.score s4 = 0%Z /\
                Game.butterflyCounts s4 = Game.resetCounts 10 (Game.resetCounts 10 ∅) /\
                Game.player s4 = Player.new Sample.canvas /\
                Game.maxLevel s4 = 10%Z /\
                Game.playing s4).
  { pose proof (f_equal Game.butterflies Hv3) as F1.
    pose proof (f_equal Game.score Hv3) as F2.
    pose proof (f_equal Game.butterflyCounts Hv3) as F3.
    pose proof (f_equal Game.player Hv3) as F4.
    pose proof (f_equal Game.maxLevel Hv3) as F5.
    pose proof (f_equal Game.isLevelTransitioning Hv3) as F6.
    pose proof (f_equal Game.countdownActive Hv3) as F7.
    pose proof (f_equal Game.showingStartScreen Hv3) as F8.
    pose proof (f_equal Game.showingInstructions Hv3) as F9.
    pose proof (f_equal Game.showingSummaryScreen Hv3) as F10.
    cbn in F1, F2, F3, F4, F5, F6, F7, F8, F9, F10. unfold Game.playing.
    repeat match goal with |- _ /\ _ => split end; congruence. }
  destruct Hf4 as (Hbs4 & Hsc4 & Hcn4 & Hpl4 & Hml4 & Hplay4).
  split; [exact Hbs4 |]. split; [exact Hsc4 |].
  unfold Sample.catchClick. cbn [Game.step].
  pose proof (handleClick_catch Sample.zeros (Sample.centreX Sample.near)
                (Sample.centreY Sample.near) [] [] Sample.near s4 Hplay4 Hbs4) as Hc.
  rewrite Hc.
  - cbn [Game.butterflies Game.set_butterflies Game.score Game.set_score
           Game.butterflyCounts Game.set_butterflyCounts Game.set_randomCalls app fst].
    split; [reflexivity |]. split; [rewrite Hsc4; reflexivity |].
    assert (Hcounts : Game.incrementCount (Butterfly.level Sample.near) (Game.butterflyCounts s4) =
                      <[1%Z := Game.Num 1]> (Game.resetCounts 10 (Game.resetCounts 10 ∅))).
    { rewrite Hcn4. vm_compute. reflexivity. }
    split.
    + rewrite Hcounts. apply lookup_insert_eq.
    + unfold Game.totalCaught.
      cbn [Game.maxLevel Game.set_butterflies Game.set_butterflyCounts Game.set_score
             Game.set_randomCalls Game.butterflyCounts].
      rewrite Hml4, Hcounts. vm_compute. reflexivity.
  - rewrite Hpl4, <- (checkCatch_flag Sample.zeros _ _ _ _ 0%nat).
    rewrite checkCatch_not_boss by reflexivity. now apply near_in_range.
  - constructor.
Qed.

Lemma run_snoc (random : nat -> R) (es : list Game.Event) (e : Game.Event) (g : Game.t) :
  Game.run random (es ++ [e]) g = Game.step random (Game.run random es g) e.
Proof. now rewrite run_app. Qed.

Lemma pending_valid :
  Game.maxLevel Sample.pending = 10%Z /\
  Game.validTimers Sample.pending /\
  (forall k, is_Some (Game.butterflyCounts Sample.pending !! k) -> (1 <= k <= 10)%Z).
Proof.
  split; [reflexivity |]. split.
  - apply Forall_singleton. intros b Hb. injection Hb as <-. cbn. lia.
  - apply (resetCounts_keys 10 ∅). intros k Hk. rewrite lookup_empty in Hk. now destruct Hk.
Qed.


(** Five clicks on the centre of the sample boss: four misses, then the
    catch, after four multiplications of the speed by 1.1. *)
Lemma boss_needs_every_hit_point_witness :
  exists b',
    Butterfly.checkCatches Sample.zeros (Player.new Sample.canvas)
      (replicate 5 (Sample.centreX Sample.queen, Sample.centreY Sample.queen))
      Sample.queen 0 = ([false; false; false; false; true], b', 4%nat) /\
    Butterfly.health b' = 0%Z /\
    Butterfly.speed b' = Butterfly.speed Sample.queen * 1.1 * 1.1 * 1.1 * 1.1.
Proof.
  apply (boss_needs_every_hit_point Sample.zeros (Player.new Sample.canvas) 4 Sample.queen 0
           (replicate 5 (Sample.centreX Sample.queen, Sample.centreY Sample.queen))).
  - reflexivity.
  - reflexivity.
  - reflexivity.
  - apply Forall_replicate. apply isCaught_at_centre.
    destruct sample_sizes as (_ & _ & _ & _ & _ & _ & ->). cbn. lra.
Defined.

(** [setRandomPosition] on the sample canvas draws twice and leaves the
    butterfly outside the visible area. *)
Lemma setRandomPosition_outside_witness :
  (Butterfly.setRandomPosition Sample.zeros Sample.canvas Sample.near 0).2 = 2%nat /\
  ~ (0 < Butterfly.x (Butterfly.setRandomPosition Sample.zeros Sample.canvas Sample.near 0).1
       < Canvas.width Sample.canvas /\
     0 < Butterfly.y (Butterfly.setRandomPosition Sample.zeros Sample.canvas Sample.near 0).1
       < Canvas.height Sample.canvas).
Proof.
  destruct (setRandomPosition_outside Sample.zeros Sample.canvas Sample.near 0)
    as (H1 & _ & H3).
  - exact zeros_in_range.
  - destruct sample_sizes as (-> & _). lra.
  - destruct sample_sizes as (_ & -> & _). lra.
  - cbn. lra.
  - cbn. lra.
  - split; [exact H1 | exact H3].
Defined.

(** [setRandomDirection] leaves speed and position of the sample butterfly
    alone and sets a velocity that agrees with its heading. *)
Lemma setRandomDirection_headings_witness :
  let b' := (Butterfly.setRandomDirection Sample.zeros Sample.canvas Sample.near 0).1 in
  Butterfly.vx b' = cos (Butterfly.direction b') * Butterfly.speed b' /\
  Butterfly.speed b' = Butterfly.speed Sample.near.
Proof.
  destruct (setRandomDirection_headings Sample.zeros Sample.canvas Sample.near 0
              zeros_in_range) as (H1 & _ & H3 & _).
  split; [exact H1 | exact H3].
Defined.

(** A level-1 butterfly is given a pattern without a draw. *)
Lemma getMovementPattern_total_witness :
  exists name : string,
    (Butterfly.getMovementPattern Sample.zeros Sample.near 0).1 = Some name /\
    (Butterfly.getMovementPattern Sample.zeros Sample.near 0).2 = 0%nat.
Proof.
  destruct (getMovementPattern_total Sample.zeros Sample.near 0 (zeros_in_range 0))
    as (name & H1 & _ & H3 & _).
  exists name. split; [exact H1 |]. apply H3. cbn. lia.
Defined.

(** Before the images are loaded a spawn schedules nothing. *)
Lemma spawn_without_images_witness :
  Game.spawnButterflies Sample.zeros 0 Sample.fresh =
  Game.set_hasPlayedInitialCountdown true Sample.fresh.
Proof.
  apply (spawn_without_images Sample.zeros 0 Sample.fresh).
  - reflexivity.
  - change (1 <> 10)%Z. lia.
Defined.

(** The state right after the first level was completed at time 5: a click
    changes nothing, and neither does a frame 500 ms later. *)
Lemma transition_freezes_play_witness :
  let g := Game.levelComplete true 5
             (Game.set_countdownActive false (Game.start Sample.loaded)) in
  (forall px py : R, Game.handleClick Sample.zeros px py g = g) /\
  Game.gameLoop Sample.zeros 100 100 505 g = g.
Proof.
  intros g.
  destruct (transition_freezes_play Sample.zeros g 5) as (H1 & _ & H3 & _);
    try reflexivity.
  - discriminate.
  - split; [exact H1 |]. apply H3. lia.
Defined.

(** Completing level 10 shows the summary screen; two later frames change
    nothing, and [handleClick] ignores a click. *)
Lemma game_over_is_final_witness :
  let g := Game.set_currentLevel 10 (Game.set_countdownActive false (Game.start Sample.loaded)) in
  let over := Game.levelComplete true 5 g in
  Game.showingSummaryScreen over = true /\
  Game.run Sample.zeros [Game.Frame 100 100 505; Game.Frame 116 116 521] over = over /\
  Game.handleClick Sample.zeros 10 10 over = over.
Proof.
  intros g over.
  destruct (game_over_is_final Sample.zeros g true 5)
    as (H1 & _ & _ & _ & _ & _ & _ & _ & _ & H10 & H11).
  - reflexivity.
  - change (10 <= 10)%Z. lia.
  - split; [exact H1 |]. split; [| apply H11]. apply H10.
    repeat (apply Forall_cons; split; [now eexists _, _, _ |]). constructor.
Defined.

(** A frame of 16 ms at the start of level 1 only advances the level timer. *)
Lemma update_ends_level_witness :
  let g := Game.set_countdownActive false (Game.start Sample.loaded) in
  let g' := Game.update Sample.zeros 0.016 5 g in
  Game.isLevelTransitioning g' = false /\
  Game.currentLevel g' = Game.currentLevel g /\
  Game.levelTimer g' = Some (0 + 0.016).
Proof.
  intros g g'.
  destruct (update_ends_level Sample.zeros 0.016 0 5 g) as [_ H2]; try reflexivity.
  apply H2. intros [H | [_ H]]; lra.
Defined.

(** With a random number that is never below 0.01 no extra group comes. *)
Lemma extra_group_witness :
  Game.timers (Game.spawnExtraGroup Sample.zeros Sample.twoOnScreen) =
  Game.timers Sample.twoOnScreen.
Proof.
  destruct (extra_group Sample.zeros Sample.twoOnScreen zeros_in_range)
    as (_ & _ & added & _ & _ & _ & _ & H).
  exact H.
Defined.

(** After the catch of the sample session the score is the 10 points that
    one catch of level 1 accounts for. *)
Lemma score_accounts_for_catches_witness :
  let s := Game.run Sample.zeros (Sample.untilPlay ++ [Sample.catchClick])
             (Game.start Sample.pending) in
  Game.score s = 10%Z /\ Game.pointsOfCounts s = 10%Z.
Proof.
  intros s.
  destruct pending_valid as (Hml & Hvt & _).
  destruct (score_accounts_for_catches Sample.zeros Sample.pending
              (Sample.untilPlay ++ [Sample.catchClick]) Hml Hvt) as (H1 & _).
  fold s in H1. rewrite <- H1.
  subst s. rewrite run_snoc.
  destruct sample_catch as (_ & _ & _ & H & _). split; exact H.
Defined.

(** The click of the sample session is a catch: 10 points more, and one
    more butterfly in the total. *)
Lemma score_moves_only_by_catches_witness :
  let s := Game.run Sample.zeros Sample.untilPlay (Game.start Sample.pending) in
  let s' := Game.step Sample.zeros s Sample.catchClick in
  Game.score s' = (Game.score s + 10)%Z /\
  Game.totalCaught s' = (Game.totalCaught s + 1)%Z.
Proof.
  intros s s'.
  destruct pending_valid as (Hml & Hvt & _).
  destruct sample_catch as (_ & Hs4 & _ & Hs5 & _).
  fold s in Hs4. fold s s' in Hs5.
  destruct (score_moves_only_by_catches Sample.zeros Sample.pending Sample.untilPlay
              Sample.catchClick Hml Hvt) as (Hstep & _).
  fold s s' in Hstep.
  destruct Hstep as [(Hsame & _) | (px & py & L & n & _ & _ & _ & Hsc & _ & Htotal & _)].
  - rewrite Hs4, Hs5 in Hsame. discriminate.
  - split; [rewrite Hs4, Hs5; reflexivity | exact Htotal].
Defined.

(** A level-1 insertion left pending by an earlier session lands in the new
    one, where it is of the level being played and carries image 1. *)
Lemma butterflies_wear_their_level_witness :
  let g0 := Game.set_timers [Game.mkTimer 0 false (Game.PushButterfly Sample.near)]
              Sample.loaded in
  let s := Game.run Sample.zeros [Game.Timeout 0] (Game.start g0) in
  (1 <= Butterfly.level Sample.near <= Game.currentLevel s)%Z /\
  Butterfly.image Sample.near =
    [1; 2; 3; 4; 5; 6; 7; 8; 9; 10]%nat !! Z.to_nat (Butterfly.level Sample.near - 1).
Proof.
  intros g0 s.
  destruct (butterflies_wear_their_level Sample.zeros [1; 2; 3; 4; 5; 6; 7; 8; 9; 10]%nat
              g0 [Game.Timeout 0] Sample.near) as (H1 & _ & _ & H4 & _).
  - reflexivity.
  - reflexivity.
  - reflexivity.
  - apply Forall_singleton. intros b' Hb. injection Hb as <-. split; [cbn; lia | reflexivity].
  - apply elem_of_cons. left. reflexivity.
  - split; [exact H1 | exact H4].
Defined.


(** At level 1 the formation is 'line' or 'v'. *)
Lemma getFormationForWave_bands_witness :
  exists name : string,
    (Game.getFormationForWave Sample.zeros 0 1 Sample.loaded).1 = Some name /\
    name ∈ ["line"; "v"]%string.
Proof.
  destruct (getFormationForWave_bands Sample.zeros 0 1 Sample.loaded (zeros_in_range _))
    as (_ & name & H1 & H2 & _).
  exists name. split; [exact H1 |]. apply H2. lia.
Defined.

(** Saving after the catch of the sample session, with nothing stored
    before and with a stored text that is not an array. *)
Lemma saved_total_matches_summary_witness :
  let s := Game.run Sample.zeros (Sample.untilPlay ++ [Sample.catchClick])
             (Game.start Sample.pending) in
  Game.GameRecord.score (Game.record "Leo" "today" s) = 10%Z /\
  Game.GameRecord.totalCaught (Game.record "Leo" "today" s) = Game.Num 1 /\
  Game.saveGameRecords "Leo" "today" true Game.Absent s =
    Some (Game.Parsed [Game.New (Game.record "Leo" "today" s)]) /\
  Game.saveGameRecords "Leo" "today" true Game.NotAnArray s = None.
Proof.
  intros s.
  destruct pending_valid as (Hml & Hvt & Hkeys).
  destruct (saved_total_matches_summary Sample.zeros Sample.pending
              (Sample.untilPlay ++ [Sample.catchClick]) "Leo" "today" Game.Absent
              Hml Hvt Hkeys) as (H1 & H2 & _ & _ & _).
  fold s in H1, H2.
  assert (Hs : Game.score s = 10%Z /\ Game.totalCaught s = 1%Z).
  { subst s. rewrite run_snoc. destruct sample_catch as (_ & _ & _ & Hsc & _ & Ht).
    split; [exact Hsc | exact Ht]. }
  destruct Hs as [Hsc Ht].
  split; [now rewrite H1 |]. split; [now rewrite H2, Ht |].
  clearbody s. split; reflexivity.
Defined.
